(** * Dockerizer: the scanner, the build-file synthesizer, the image builder
      and the deployment drivers of [src/scanner.mjs], with the [scan]
      command of the command-line front end.

    The script is glue around a file system and a handful of external
    tools.  It is embedded as a state-and-exception monad over a [world]
    (project tree, working directory, issued commands, log), with the
    answers of the external tools and of the parsing libraries supplied by
    an environment [env].

    Modelling conventions, fixed once here:
    - strings are Rocq [string]s, one character per byte; the JavaScript
      case mapping and white-space class are the ASCII ones;
    - the file system under [projectPath] is a finite tree; names are
      compared exactly (a case-sensitive file system); reading a directory
      or taking the status of an entry of the tree never fails;
    - [process.cwd()] lies outside the project tree and holds files, no
      directory: a file name with a separator in it cannot be written
      there; the run log ([scan_project_log.txt], written there) is kept
      as the list of its messages, without the time stamps;
    - the project path and the working directory are absolute, normalised
      paths without a separator at their end, so that [path.join d f] is
      [d], the separator and [f], and [path.resolve] changes nothing;
    - time passes only while the script waits: a command takes none;
    - [parsePomXml], which nothing calls, is left out; [parseGemfile] and
      [generateNginxConfig], which nothing calls either, come after the
      script, with the callbacks of [deployNginxConfig]. *)

From Stdlib Require Import String Ascii List ZArith Lia Bool Arith DecimalString.
Import ListNotations.
Set Warnings "-register-all".
Open Scope string_scope.

(** ** JavaScript strings *)

Module JsString.

Definition is_upper (c : ascii) : bool :=
  let n := nat_of_ascii c in (65 <=? n)%nat && (n <=? 90)%nat.

Definition lower_char (c : ascii) : ascii :=
  if is_upper c then ascii_of_nat (nat_of_ascii c + 32) else c.

(** [s.toLowerCase()] *)
Fixpoint toLowerCase (s : string) : string :=
  match s with
  | EmptyString => EmptyString
  | String c s' => String (lower_char c) (toLowerCase s')
  end.

(** The class [\s]: tab, line feed, vertical tab, form feed, carriage
    return and space. *)
Definition is_space (c : ascii) : bool :=
  let n := nat_of_ascii c in
  (n =? 32)%nat || ((9 <=? n)%nat && (n <=? 13)%nat).

Fixpoint trimStart (s : string) : string :=
  match s with
  | EmptyString => EmptyString
  | String c s' => if is_space c then trimStart s' else s
  end.

Fixpoint trimEnd (s : string) : string :=
  match s with
  | EmptyString => EmptyString
  | String c s' =>
      match trimEnd s' with
      | EmptyString => if is_space c then EmptyString else String c EmptyString
      | t => String c t
      end
  end.

(** [s.trim()] *)
Definition trim (s : string) : string := trimEnd (trimStart s).

(** [s.startsWith(p)] *)
Fixpoint startsWith (s p : string) {struct p} : bool :=
  match p with
  | EmptyString => true
  | String a p' =>
      match s with
      | EmptyString => false
      | String b s' => Ascii.eqb a b && startsWith s' p'
      end
  end.

(** [s.endsWith(suffix)] *)
Fixpoint endsWith (s suffix : string) : bool :=
  (s =? suffix) ||
  match s with
  | EmptyString => false
  | String _ s' => endsWith s' suffix
  end.

(** [s.includes(sub)] *)
Fixpoint includes (s sub : string) : bool :=
  startsWith s sub ||
  match s with
  | EmptyString => false
  | String _ s' => includes s' sub
  end.

Fixpoint drop (n : nat) (s : string) : string :=
  match n, s with
  | O, _ => s
  | S _, EmptyString => EmptyString
  | S n', String _ s' => drop n' s'
  end.

(** [s.replace(pattern, replacement)] with a string pattern: the first
    occurrence only.  The replacements of the script hold no [$], so
    that no replacement pattern is expanded. *)
Fixpoint replace (pattern replacement s : string) : string :=
  if startsWith s pattern then replacement ++ drop (String.length pattern) s
  else match s with
       | EmptyString => EmptyString
       | String c s' => String c (replace pattern replacement s')
       end.

(** The number of positions of [s] at which [sub] occurs. *)
Fixpoint occurrences (sub s : string) : nat :=
  (if startsWith s sub then 1 else 0) +
  match s with
  | EmptyString => 0
  | String _ s' => occurrences sub s'
  end.

(** [s.split(sep)] for a one-character separator. *)
Fixpoint split (sep : ascii) (s : string) : list string :=
  match s with
  | EmptyString => [EmptyString]
  | String c s' =>
      if Ascii.eqb c sep then EmptyString :: split sep s'
      else match split sep s' with
           | [] => [String c EmptyString]
           | h :: t => String c h :: t
           end
  end.

(** [s.split(/\s+/)]: the pieces between maximal runs of white space;
    a leading or trailing run leaves an empty piece at that end. *)
Fixpoint split_ws_from (in_run : bool) (s : string) : list string :=
  match s with
  | EmptyString => [EmptyString]
  | String c s' =>
      if is_space c then
        if in_run then split_ws_from true s'
        else EmptyString :: split_ws_from true s'
      else match split_ws_from false s' with
           | [] => [String c EmptyString]
           | h :: t => String c h :: t
           end
  end.

Definition split_ws (s : string) : list string := split_ws_from false s.

(** [c] occurs in [s]. *)
Fixpoint has_char (c : ascii) (s : string) : bool :=
  match s with
  | EmptyString => false
  | String x s' => Ascii.eqb x c || has_char c s'
  end.

Definition is_digit (c : ascii) : bool :=
  let n := nat_of_ascii c in (48 <=? n)%nat && (n <=? 57)%nat.

Fixpoint take_digits (s : string) : string * string :=
  match s with
  | EmptyString => (EmptyString, EmptyString)
  | String c s' =>
      if is_digit c then let (d, r) := take_digits s' in (String c d, r)
      else (EmptyString, s)
  end.

Definition dquote : string := String (ascii_of_nat 34) EmptyString.
Definition newline : ascii := ascii_of_nat 10.
Definition nl : string := String newline EmptyString.

End JsString.

Import JsString.

(** ** JavaScript values, as [JSON.parse] and [yaml.load] return them *)

Inductive value : Type :=
| VNull
| VBool (b : bool)
| VNum (n : Z)
| VStr (s : string)
| VArr (items : list value)
| VObj (props : list (string * value)).

(** An absent property or variable ([undefined]) is [None]. *)
Definition truthy (v : option value) : bool :=
  match v with
  | None | Some VNull => false
  | Some (VBool b) => b
  | Some (VNum n) => negb (n =? 0)%Z
  | Some (VStr s) => negb (s =? EmptyString)
  | Some (VArr _) | Some (VObj _) => true
  end.

Fixpoint lookup {A : Type} (k : string) (l : list (string * A)) : option A :=
  match l with
  | [] => None
  | (k', a) :: rest => if k' =? k then Some a else lookup k rest
  end.

(** Assignment to a key: an existing key keeps its place, a new one goes
    last. *)
Fixpoint assign {A : Type} (k : string) (a : A) (l : list (string * A))
  : list (string * A) :=
  match l with
  | [] => [(k, a)]
  | (k', a') :: rest =>
      if k' =? k then (k, a) :: rest else (k', a') :: assign k a rest
  end.

(** ** Errors and outcomes *)

Inductive error : Type :=
| Error (message : string)
| TypeError (message : string)
| ParseError (message : string)
| ENOENT (path : string)
| EISDIR (path : string)
| ENOTDIR (path : string)
| ExecError (command : string) (code : Z) (stderr : string)
| Unfinished.  (* the model ran out of steps; no run of the script ends so *)

Definition string_of_Z (z : Z) : string :=
  DecimalString.NilZero.string_of_int (Z.to_int z).

Definition message (e : error) : string :=
  match e with
  | Error m | TypeError m | ParseError m => m
  | ENOENT p => "ENOENT: no such file or directory, " ++ p
  | EISDIR p => "EISDIR: illegal operation on a directory, " ++ p
  | ENOTDIR p => "ENOTDIR: not a directory, " ++ p
  | ExecError c _ err => "Command failed: " ++ c ++ nl ++ err
  | Unfinished => "unfinished"
  end.

(** The error kinds of the specification, as the script raises them. *)
Definition BuildFileNotFound : error :=
  Error "Dockerfile not found in project directory".
Definition BuildFailed (exitCode : Z) : error :=
  Error ("Docker build failed with exit code " ++ string_of_Z exitCode).
Definition ReadinessTimeout : error :=
  Error "Timeout waiting for pods to become ready.".
Definition InvalidProjectPath : error :=
  Error "projectPath is undefined or invalid.".

Inductive result (A : Type) : Type :=
| Ok (a : A)
| Throw (e : error).
Arguments Ok {A} a.
Arguments Throw {A} e.

(** ** The file system under the project path *)

Inductive node : Type :=
| File (content : string)
| Dir (files : list (string * node)).

Definition isDirectory (n : node) : bool :=
  match n with Dir _ => true | File _ => false end.

Definition path_sep : string := "/".

(** [path.join(directory, file)] *)
Definition path_join (directory file : string) : string :=
  directory ++ path_sep ++ file.

(** [path.dirname(p)]: what precedes the last separator. *)
Fixpoint path_dirname_opt (p : string) : option string :=
  match p with
  | EmptyString => None
  | String c p' =>
      match path_dirname_opt p' with
      | Some d => Some (String c d)
      | None => if Ascii.eqb c "/"%char then Some EmptyString else None
      end
  end.

Definition path_dirname (p : string) : string :=
  match path_dirname_opt p with
  | Some EmptyString => "/"
  | Some d => d
  | None => "."
  end.

(** The depth-first walk of a directory: every file below it with the
    directory that holds it, in the order of [readdir], a subdirectory
    being walked where it stands. *)
Fixpoint walk_node (fullPath directory file : string) (n : node)
  : list (string * string) :=
  match n with
  | File _ => [(directory, file)]
  | Dir files =>
      (fix loop (l : list (string * node)) : list (string * string) :=
         match l with
         | [] => []
         | (f, n') :: rest =>
             (walk_node (path_join fullPath f) fullPath f n' ++ loop rest)%list
         end) files
  end.

Fixpoint walk (directory : string) (files : list (string * node))
  : list (string * string) :=
  match files with
  | [] => []
  | (file, n) :: rest =>
      (walk_node (path_join directory file) directory file n
         ++ walk directory rest)%list
  end.

(** The path of a file of the walk, and the test of [findFileRecursively]
    on its name. *)
Definition joined (e : string * string) : string := path_join (fst e) (snd e).

Definition named (fileName : string) (e : string * string) : bool :=
  toLowerCase (snd e) =? toLowerCase fileName.

(** The body of [scanEntireDirectory], on the entries [readdir] returns. *)
Fixpoint list_node (fullPath : string) (n : node) : list string :=
  match n with
  | File _ => [fullPath]
  | Dir files =>
      (fix loop (l : list (string * node)) : list string :=
         match l with
         | [] => []
         | (f, n') :: rest =>
             (list_node (path_join fullPath f) n' ++ loop rest)%list
         end) files
  end.

Fixpoint list_files (directory : string) (files : list (string * node))
  : list string :=
  match files with
  | [] => []
  | (file, n) :: rest =>
      let fullPath := path_join directory file in
      (list_node fullPath n ++ list_files directory rest)%list
  end.

(** The body of [findFileRecursively]. *)
Fixpoint find_node (fileName fullPath file : string) (n : node)
  : option string :=
  match n with
  | File _ =>
      if toLowerCase file =? toLowerCase fileName then Some fullPath else None
  | Dir files =>
      (fix loop (l : list (string * node)) : option string :=
         match l with
         | [] => None
         | (f, n') :: rest =>
             match find_node fileName (path_join fullPath f) f n' with
             | Some foundPath => Some foundPath
             | None => loop rest
             end
         end) files
  end.

Fixpoint find_files (fileName directory : string)
  (files : list (string * node)) : option string :=
  match files with
  | [] => None
  | (file, n) :: rest =>
      let fullPath := path_join directory file in
      match find_node fileName fullPath file n with
      | Some foundPath => Some foundPath
      | None => find_files fileName directory rest
      end
  end.

(** Every path of the tree, directories included. *)
Fixpoint paths_node (fullPath : string) (n : node) : list string :=
  fullPath ::
  match n with
  | File _ => []
  | Dir files =>
      (fix loop (l : list (string * node)) : list string :=
         match l with
         | [] => []
         | (f, n') :: rest =>
             (paths_node (path_join fullPath f) n' ++ loop rest)%list
         end) files
  end.

(** Entry names as a directory can hold them: not empty, no separator. *)
Definition valid_name (file : string) : bool :=
  negb (file =? EmptyString) && negb (includes file path_sep).

Fixpoint valid_node (n : node) : bool :=
  match n with
  | File _ => true
  | Dir files =>
      (fix loop (l : list (string * node)) : bool :=
         match l with
         | [] => true
         | (f, n') :: rest => valid_name f && valid_node n' && loop rest
         end) files
  end.

(** ** The world and the environment *)

Inductive spinner_event : Type := Start | Succeed | Failure | Text.

Inductive event : Type :=
| Logged (message : string)
| Console (text : string)
| Spinner (kind : spinner_event) (text : string)
| Ran (command : string)
| Wrote (path : string) (content : string)
| Slept (ms : Z).

Definition is_Ran (e : event) : bool :=
  match e with Ran _ => true | _ => false end.

Definition is_Wrote (e : event) : bool :=
  match e with Wrote _ _ => true | _ => false end.

Record world : Type := {
  project : option node;               (* what [projectPath] resolves to *)
  cwd_files : list (string * string);  (* the files of [process.cwd()] *)
  events : list event;                 (* what happened, oldest first *)
  clock : Z                            (* [Date.now()], in milliseconds *)
}.

Record outcome : Type := {
  code : Z;
  stdout : string;
  stderr : string
}.

(** What the script only consumes: its working directory, its templates
    directory, the parsing libraries and the external tools.  The [n]-th
    command issued since the start answers [exec n command]. *)
Record env : Type := {
  cwd : string;
  templates : string -> option string;
  JSON_parse : string -> option value;
  JSON_stringify : value -> string;
  yaml_load : string -> option value;
  yaml_dump : value -> string;
  exec : nat -> string -> outcome
}.

Definition M (A : Type) : Type := world -> result A * world.

Definition ret {A : Type} (a : A) : M A := fun w => (Ok a, w).

Definition throw {A : Type} (e : error) : M A := fun w => (Throw e, w).

Definition bind {A B : Type} (m : M A) (k : A -> M B) : M B :=
  fun w =>
    match m w with
    | (Ok a, w') => k a w'
    | (Throw e, w') => (Throw e, w')
    end.

Definition try_catch {A : Type} (m : M A) (handler : error -> M A) : M A :=
  fun w =>
    match m w with
    | (Ok a, w') => (Ok a, w')
    | (Throw e, w') => handler e w'
    end.

Declare Scope js_scope.
Delimit Scope js_scope with js.
Notation "x <- m ;; k" := (bind m (fun x => k))
  (at level 61, m at next level, right associativity) : js_scope.
Notation "m ;; k" := (bind m (fun _ => k))
  (at level 61, right associativity) : js_scope.
Open Scope js_scope.

Definition emit (e : event) : M unit :=
  fun w => (Ok tt, {| project := project w; cwd_files := cwd_files w;
                      events := (events w ++ [e])%list; clock := clock w |}).

(** [log(message)] *)
Definition log (message : string) : M unit := emit (Logged message).

Definition spinner (kind : spinner_event) (text : string) : M unit :=
  emit (Spinner kind text).

Definition console (text : string) : M unit := emit (Console text).

(** [Date.now()] *)
Definition Date_now : M Z := fun w => (Ok (clock w), w).

(** [await new Promise(resolve => setTimeout(resolve, ms))] *)
Definition sleep (ms : Z) : M unit :=
  fun w => (Ok tt, {| project := project w; cwd_files := cwd_files w;
                      events := (events w ++ [Slept ms])%list;
                      clock := (clock w + ms)%Z |}).

Definition issued (w : world) : nat := List.length (filter is_Ran (events w)).

(** What [projectPath] resolves to; the empty path resolves to nothing. *)
Definition resolve (projectPath : string) (w : world) : option node :=
  if projectPath =? EmptyString then None else project w.

Definition lift {A : Type} (r : result A) : M A := fun w => (r, w).

(** Property access [v.k]. *)
Definition get (v : option value) (k : string) : result (option value) :=
  match v with
  | None => Throw (TypeError
      ("Cannot read properties of undefined (reading '" ++ k ++ "')"))
  | Some VNull => Throw (TypeError
      ("Cannot read properties of null (reading '" ++ k ++ "')"))
  | Some (VObj props) => Ok (lookup k props)
  | Some _ => Ok None
  end.

(** Property assignment [v.k = x] in strict code (a module is strict): an
    object takes the property; an array takes it too, out of sight of its
    items; [null] and the primitive values refuse it. *)
Definition set (v : value) (k : string) (x : value) : result value :=
  match v with
  | VObj props => Ok (VObj (assign k x props))
  | VArr items => Ok (VArr items)
  | VNull => Throw (TypeError
      ("Cannot set properties of null (setting '" ++ k ++ "')"))
  | _ => Throw (TypeError ("Cannot create property '" ++ k ++ "'"))
  end.

(** What [for (... of v)] iterates over. *)
Fixpoint chars (s : string) : list value :=
  match s with
  | EmptyString => []
  | String c s' => VStr (String c EmptyString) :: chars s'
  end.

Definition iterate (v : option value) : result (list value) :=
  match v with
  | Some (VArr items) => Ok items
  | Some (VStr s) => Ok (chars s)
  | _ => Throw (TypeError "containers is not iterable")
  end.

(** A value inside a template literal: [String(v)]. *)
Fixpoint String_of (v : value) : string :=
  match v with
  | VNull => "null"
  | VBool true => "true"
  | VBool false => "false"
  | VNum n => string_of_Z n
  | VStr s => s
  | VObj _ => "[object Object]"
  | VArr items =>
      (fix join (l : list value) : string :=
         match l with
         | [] => EmptyString
         | x :: rest =>
             (match x with VNull => EmptyString | _ => String_of x end)
             ++ match rest with [] => EmptyString | _ => "," ++ join rest end
         end) items
  end.

Definition show (v : option value) : string :=
  match v with
  | None => "undefined"
  | Some x => String_of x
  end.

Definition show_string (s : option string) : string :=
  match s with Some x => x | None => "undefined" end.

Definition failed (r : outcome) : bool := negb (code r =? 0)%Z.

(** The classification of [scanYAMLFiles]: service files, deployment files. *)
Fixpoint classify_yaml (allFiles : list string) : list string * list string :=
  match allFiles with
  | [] => ([], [])
  | file :: rest =>
      let (serviceYAMLs, deploymentYAMLs) := classify_yaml rest in
      if endsWith file "service.yaml" then (file :: serviceYAMLs, deploymentYAMLs)
      else if endsWith file "deployment.yaml"
           then (serviceYAMLs, file :: deploymentYAMLs)
           else (serviceYAMLs, deploymentYAMLs)
  end.

(** The rows of a table printed by the orchestrator: the lines after the
    header that are not blank. *)
Definition table_rows (output : string) : list string :=
  filter (fun line => negb (trim line =? EmptyString)) (tl (split newline output)).

Definition column (n : nat) (line : string) : option string :=
  nth_error (split_ws line) n.

Definition is_running (podStatus : option string) : bool :=
  match podStatus with Some s => s =? "Running" | None => false end.

(** The loop of [waitForPodsReady] over the lines of one sample: the first
    pod found not running, with its status. *)
Fixpoint first_not_running (lines : list string)
  : option (option string * option string) :=
  match lines with
  | [] => None
  | line :: rest =>
      if trim line =? EmptyString then first_not_running rest
      else
        let podName := column 0 line in
        let podStatus := column 2 line in
        if is_running podStatus then first_not_running rest
        else Some (podName, podStatus)
  end.

Definition allPodsReady (podsOutput : string) : bool :=
  match first_not_running (tl (split newline podsOutput)) with
  | None => true
  | Some _ => false
  end.

(** [portInfo.match(/:(\d+)\//)]: the digits of the first colon, digits,
    slash. *)
Fixpoint port_match (s : string) : option string :=
  match s with
  | EmptyString => None
  | String c s' =>
      if Ascii.eqb c ":"%char then
        let (digits, after) := take_digits s' in
        if negb (digits =? EmptyString) && startsWith after "/" then Some digits
        else port_match s'
      else port_match s'
  end.

(** The two template literals of [generateKubernetesYAML]: each opens and
    closes with a line feed, which [trim] removes before the text is
    written. *)
Definition deployment_text (projectName imageTag : string) : string :=
  "apiVersion: apps/v1" ++ nl ++
  "kind: Deployment" ++ nl ++
  "metadata:" ++ nl ++
  "  name: " ++ projectName ++ "-deployment" ++ nl ++
  "spec:" ++ nl ++
  "  replicas: 1" ++ nl ++
  "  selector:" ++ nl ++
  "    matchLabels:" ++ nl ++
  "      app: " ++ projectName ++ nl ++
  "  template:" ++ nl ++
  "    metadata:" ++ nl ++
  "      labels:" ++ nl ++
  "        app: " ++ projectName ++ nl ++
  "    spec:" ++ nl ++
  "      containers:" ++ nl ++
  "      - name: " ++ projectName ++ nl ++
  "        image: " ++ projectName ++ ":" ++ imageTag ++ nl ++
  "        ports:" ++ nl ++
  "        - containerPort: 80".

Definition deploymentYAML (projectName imageTag : string) : string :=
  nl ++ deployment_text projectName imageTag ++ nl.

Definition service_text (projectName : string) : string :=
  "apiVersion: v1" ++ nl ++
  "kind: Service" ++ nl ++
  "metadata:" ++ nl ++
  "  name: " ++ projectName ++ "-service" ++ nl ++
  "spec:" ++ nl ++
  "  selector:" ++ nl ++
  "    app: " ++ projectName ++ nl ++
  "  type: NodePort" ++ nl ++
  "  ports:" ++ nl ++
  "  - protocol: TCP" ++ nl ++
  "    port: 80" ++ nl ++
  "    targetPort: 80".

Definition serviceYAML (projectName : string) : string :=
  nl ++ service_text projectName ++ nl.

(** The command of the apply loops of [deployKubernetes]. *)
Definition apply_command (file : string) : string :=
  "kubectl apply -f " ++ dquote ++ file ++ dquote.

(** The literals of the two substitutions of [generateDockerfile]. *)
Definition EXPOSE_3000 : string := "EXPOSE 3000".
Definition EXPOSE_8000 : string := "EXPOSE 8000".
Definition CMD_npm_start : string :=
  "CMD [" ++ dquote ++ "npm" ++ dquote ++ ", " ++ dquote ++ "start" ++ dquote ++ "]".
Definition CMD_node_index : string :=
  "CMD [" ++ dquote ++ "node" ++ dquote ++ ", " ++ dquote ++ "index.js" ++ dquote ++ "]".

(** The loop of [updateWebDeploymentImage] over the containers: each one
    takes the new image and the pull policy; the log lines are returned
    with the containers updated so far, and the loop stops at the first
    container that refuses the assignment. *)
Definition update_container (newImage : string) (container : value)
  : result (value * string) :=
  match get (Some container) "image" with
  | Throw e => Throw e
  | Ok oldImage =>
      match set container "image" (VStr newImage) with
      | Throw e => Throw e
      | Ok c1 =>
          match set c1 "imagePullPolicy" (VStr "IfNotPresent") with
          | Throw e => Throw e
          | Ok c2 =>
              Ok (c2, "Updated image from " ++ show oldImage ++ " to "
                        ++ newImage ++ " in web-deployment.yaml")
          end
      end
  end.

(** The answers to the prompts of the [scan] command. *)
Record answers : Type := {
  projectName_answer : string;
  imageTag_answer : string;
  deployOption : string;
  deployType : string;
  remoteHost : string;
  remoteUser : string;
  remotePassword : string
}.

(** ** The script *)

Section Scanner.

Variable E : env.

(** [exec(command, ...)] awaited through a promise: the command is
    issued and its outcome comes back. *)
Definition run (command : string) : M outcome :=
  fun w =>
    (Ok (exec E (issued w) command),
     {| project := project w; cwd_files := cwd_files w;
        events := (events w ++ [Ran command])%list; clock := clock w |}).

(** [exec(command, callback)] not awaited: the command is issued, its
    outcome goes to the callback, later. *)
Definition spawn (command : string) : M nat :=
  fun w =>
    (Ok (issued w),
     {| project := project w; cwd_files := cwd_files w;
        events := (events w ++ [Ran command])%list; clock := clock w |}).

(** [fs.stat(projectPath)] *)
Definition stat (projectPath : string) : M node :=
  fun w =>
    match resolve projectPath w with
    | Some n => (Ok n, w)
    | None => (Throw (ENOENT projectPath), w)
    end.

(** The three accesses below to an entry of the project root are
    reached with a project path that is not empty: [generateDockerfile]
    follows a [stat] that has succeeded, and [deployKubernetes] guards
    its path. *)

(** [fs.pathExists(path.join(projectPath, name))] *)
Definition pathExists_at_root (name : string) : M bool :=
  fun w =>
    match project w with
    | Some (Dir files) =>
        (Ok (match lookup name files with Some _ => true | None => false end), w)
    | _ => (Ok false, w)
    end.

(** [fs.readFile(path.join(projectPath, name), 'utf-8')] *)
Definition readFile_at_root (projectPath name : string) : M string :=
  fun w =>
    let p := path_join projectPath name in
    match project w with
    | Some (Dir files) =>
        match lookup name files with
        | Some (File content) => (Ok content, w)
        | Some (Dir _) => (Throw (EISDIR p), w)
        | None => (Throw (ENOENT p), w)
        end
    | Some (File _) => (Throw (ENOTDIR p), w)
    | None => (Throw (ENOENT p), w)
    end.

(** [fs.writeFile(path.join(projectPath, name), content)] *)
Definition writeFile_at_root (projectPath name content : string) : M unit :=
  fun w =>
    let p := path_join projectPath name in
    match project w with
    | Some (Dir files) =>
        match lookup name files with
        | Some (Dir _) => (Throw (EISDIR p), w)
        | _ =>
            (Ok tt,
             {| project := Some (Dir (assign name (File content) files));
                cwd_files := cwd_files w;
                events := (events w ++ [Wrote p content])%list;
                clock := clock w |})
        end
    | Some (File _) => (Throw (ENOTDIR p), w)
    | None => (Throw (ENOENT p), w)
    end.

(** [fs.writeFile(path.join(process.cwd(), name), content)].  The
    working directory holds files and no directory, and a name is taken
    as it is written: with a separator in it, it asks for an entry of a
    directory that is not there, and the write is rejected. *)
Definition writeFile_in_cwd (name content : string) : M unit :=
  fun w =>
    let p := path_join (cwd E) name in
    if includes name path_sep then (Throw (ENOENT p), w)
    else
      (Ok tt,
       {| project := project w;
          cwd_files := assign name content (cwd_files w);
          events := (events w ++ [Wrote p content])%list;
          clock := clock w |}).

(** [fs.pathExists(p)] for a path of the project tree or a file of the
    working directory. *)
Definition pathExists (projectPath p : string) : M bool :=
  fun w =>
    (Ok (match project w with
         | Some n => existsb (String.eqb p) (paths_node projectPath n)
         | None => false
         end
         || existsb (fun f => p =? path_join (cwd E) (fst f)) (cwd_files w)),
     w).

(** [fs.readFile(path.join(__dirname, '../templates/<type>.Dockerfile'))] *)
Definition readTemplate (projectType : string) : M string :=
  match templates E projectType with
  | Some content => ret content
  | None => throw (ENOENT ("../templates/" ++ projectType ++ ".Dockerfile"))
  end.

Definition findFileRecursively (directory fileName : string)
  : M (option string) :=
  fun w =>
    match resolve directory w with
    | Some (Dir files) => (Ok (find_files fileName directory files), w)
    | Some (File _) => (Throw (ENOTDIR directory), w)
    | None => (Throw (ENOENT directory), w)
    end.

Definition analyzeNodeProject (projectPath : string) : M (value * string) :=
  hasPackageJson <- pathExists_at_root "package.json" ;;
  packageJsonData <-
    (if hasPackageJson : bool then
       packageJson <- readFile_at_root projectPath "package.json" ;;
       match JSON_parse E packageJson with
       | Some data => ret data
       | None => throw (ParseError "Unexpected token in JSON")
       end
     else log "No package.json found." ;; ret (VObj [])) ;;
  hasIndexJs <- pathExists_at_root "index.js" ;;
  indexJsContent <-
    (if hasIndexJs : bool then readFile_at_root projectPath "index.js"
     else log "No index.js found." ;; ret EmptyString) ;;
  ret (packageJsonData, indexJsContent).

Definition generateDockerfile (projectType projectPath : string) : M string :=
  let existingDockerfilePath := path_join projectPath "Dockerfile" in
  found <- pathExists_at_root "Dockerfile" ;;
  if found : bool then
    log "Existing Dockerfile found, skipping generation." ;;
    ret existingDockerfilePath
  else
    log ("Generating Dockerfile for project type: " ++ projectType) ;;
    try_catch
      (dockerfileContent <-
         (if projectType =? "nodejs" then
            log "Analyzing Node.js project..." ;;
            analysis <- analyzeNodeProject projectPath ;;
            let (packageJsonData, indexJsContent) := analysis : value * string in
            template <- readTemplate "nodejs" ;;
            dependencies <- lift (get (Some packageJsonData) "dependencies") ;;
            content <-
              (if truthy dependencies then
                 log ("Dependencies found: " ++
                      match dependencies with
                      | Some d => JSON_stringify E d
                      | None => "undefined"
                      end) ;;
                 express <- lift (get dependencies "express") ;;
                 if truthy express then
                   ret (replace CMD_npm_start CMD_node_index
                          (replace EXPOSE_3000 EXPOSE_8000 template))
                 else ret template
               else ret template) ;;
            if includes indexJsContent "app.listen(8000)" then
              log "Port 8000 detected in index.js." ;;
              ret (replace EXPOSE_3000 EXPOSE_8000 content)
            else ret content
          else readTemplate projectType) ;;
       log "Writing the customized Dockerfile..." ;;
       writeFile_at_root projectPath "Dockerfile" (trim dockerfileContent) ;;
       log ("Dockerfile generated at " ++ existingDockerfilePath))
      (fun err =>
         log ("Failed to generate Dockerfile: " ++ message err) ;;
         throw err) ;;
    ret existingDockerfilePath.

Definition scanEntireDirectory (directory : string) : M (list string) :=
  if directory =? EmptyString then
    throw (Error ("Invalid directory path: " ++ directory))
  else
    fun w =>
      match project w with
      | Some (Dir files) => (Ok (list_files directory files), w)
      | Some (File _) => (Throw (ENOTDIR directory), w)
      | None => (Throw (ENOENT directory), w)
      end.

Definition scanYAMLFiles (directory : string)
  : M (list string * list string) :=
  if directory =? EmptyString then
    throw (Error ("Invalid directory path: " ++ directory))
  else
    allFiles <- scanEntireDirectory directory ;;
    ret (classify_yaml allFiles).

Definition buildDockerImage (projectPath projectName imageTag : string)
  : M unit :=
  log ("Starting Docker image build for project: " ++ projectName
       ++ " with tag: " ++ imageTag) ;;
  try_catch
    (dockerfilePath <- findFileRecursively projectPath "Dockerfile" ;;
     match dockerfilePath with
     | None | Some EmptyString => throw BuildFileNotFound
     | Some dockerfilePath =>
         let buildContext := path_dirname dockerfilePath in
         log ("Using Dockerfile located at: " ++ dockerfilePath) ;;
         log ("Using build context: " ++ buildContext) ;;
         let buildCommand :=
           "docker build -t " ++ projectName ++ ":" ++ imageTag
           ++ " " ++ buildContext in
         r <- run buildCommand ;;
         console (stdout r) ;;
         console (stderr r) ;;
         if (code r =? 0)%Z then
           log ("Docker image '" ++ projectName ++ ":" ++ imageTag
                ++ "' built successfully.")
         else
           log ("Docker build failed with exit code "
                ++ string_of_Z (code r) ++ ".") ;;
           throw (BuildFailed (code r))
     end)
    (fun err =>
       log ("Failed to build Docker image for " ++ projectName ++ ":"
            ++ imageTag ++ ": " ++ message err) ;;
       throw err).

(** The command of [deployDocker]; [remote] and [user] default to [null]. *)
Definition run_command (projectName imageTag : string)
  (remote user : option string) : string :=
  let null_or (s : option string) :=
    match s with Some x => x | None => "null" end in
  match remote with
  | None | Some EmptyString =>
      "docker run -d -p 8000:8000 " ++ projectName ++ ":" ++ imageTag
  | Some host =>
      "ssh " ++ null_or user ++ "@" ++ host ++ " " ++ dquote
      ++ "docker run -d -p 8000:8000 " ++ projectName ++ ":" ++ imageTag
      ++ dquote
  end.

(** The callback [deployDocker] hands to [exec]: it runs when the command
    has ended, after [deployDocker] has returned; what it throws is
    thrown to the event loop. *)
Definition deployDocker_callback (command : string) (r : outcome) : M unit :=
  if failed r then
    log ("Error deploying Docker image: " ++ stderr r) ;;
    throw (ExecError command (code r) (stderr r))
  else
    log ("Docker image deployed successfully. Output: " ++ stdout r).

Definition deployDocker (projectPath projectName imageTag : string)
  (remote user password : option string) : M unit :=
  try_catch
    (let command := run_command projectName imageTag remote user in
     log ("Deploying with command: " ++ command) ;;
     _ <- spawn command ;;
     ret tt)
    (fun err =>
       log ("Failed to deploy Docker image: " ++ message err) ;;
       throw err).

(** A run of [deployDocker] to the end of the process: the driver
    returns its outcome, then the callback runs on the outcome of the
    command. *)
Definition deployDocker_run (projectPath projectName imageTag : string)
  (remote user password : option string) (w : world)
  : result unit * result unit * world :=
  let n := issued w in
  let command := run_command projectName imageTag remote user in
  let (returned, w1) :=
    deployDocker projectPath projectName imageTag remote user password w in
  let (called_back, w2) :=
    deployDocker_callback command (exec E n command) w1 in
  (returned, called_back, w2).

Definition generateKubernetesYAML (projectName imageTag : string) : M unit :=
  writeFile_in_cwd (projectName ++ "-deployment.yaml")
    (trim (deploymentYAML projectName imageTag)) ;;
  writeFile_in_cwd (projectName ++ "-service.yaml")
    (trim (serviceYAML projectName)) ;;
  log "Generated Kubernetes YAML files for Deployment and Service.".

Fixpoint update_containers (newImage : string) (containers : list value)
  : M (list value) :=
  match containers with
  | [] => ret []
  | container :: rest =>
      match update_container newImage container with
      | Throw e => throw e
      | Ok (updated, line) =>
          log line ;;
          rest' <- update_containers newImage rest ;;
          ret (updated :: rest')
      end
  end.

(** The document after the loop has updated the items of
    [path]: the objects on the way are the ones the loop reached. *)
Fixpoint put_path (path : list string) (x : value) (v : value) : value :=
  match path with
  | [] => x
  | k :: rest =>
      match v with
      | VObj props =>
          match lookup k props with
          | Some child => VObj (assign k (put_path rest x child) props)
          | None => v
          end
      | _ => v
      end
  end.

Definition containers_path : list string :=
  ["spec"; "template"; "spec"; "containers"].

Definition updateWebDeploymentImage
  (projectPath projectName imageTag : string) : M unit :=
  try_catch
    (fileContents <- readFile_at_root projectPath "web-deployment.yaml" ;;
     deploymentYaml <-
       match yaml_load E fileContents with
       | Some d => ret d
       | None => throw (ParseError "YAMLException")
       end ;;
     spec <- lift (get (Some deploymentYaml) "spec") ;;
     template <- lift (get spec "template") ;;
     podSpec <- lift (get template "spec") ;;
     containers <- lift (get podSpec "containers") ;;
     items <- lift (iterate containers) ;;
     updated <- update_containers (projectName ++ ":" ++ imageTag) items ;;
     let deploymentYaml' :=
       match containers with
       | Some (VArr _) => put_path containers_path (VArr updated) deploymentYaml
       | _ => deploymentYaml
       end in
     let updatedYaml := yaml_dump E deploymentYaml' in
     writeFile_at_root projectPath "web-deployment.yaml" updatedYaml ;;
     log ("Updated web-deployment.yaml with new image: "
          ++ projectName ++ ":" ++ imageTag))
    (fun error =>
       log ("Error updating web-deployment.yaml: " ++ message error) ;;
       throw error).

(** The query of the readiness poll. *)
Definition poll_command (namespace : string) : string :=
  "kubectl get pods -n " ++ namespace.

(** The loop of [waitForPodsReady].  The test
    [(Date.now() - startTime) / 1000 < timeout] is taken in
    milliseconds.  Every turn that goes on sleeps five seconds, so that
    [fuel] turns are enough once [5000 * fuel] exceeds the time allowed. *)
Fixpoint poll (fuel : nat) (namespace : string) (timeout startTime : Z)
  : M unit :=
  match fuel with
  | O => throw Unfinished
  | S fuel' =>
      now <- Date_now ;;
      if (now - startTime <? timeout * 1000)%Z then
        ready <-
          try_catch
            (r <- run (poll_command namespace) ;;
             podsOutput <-
               (if failed r then throw (Error (stderr r))
                else ret (stdout r)) ;;
             match first_not_running (tl (split newline podsOutput)) with
             | Some (podName, podStatus) =>
                 spinner Text
                   ("Waiting for pod " ++ show_string podName
                    ++ " to be running (current status: "
                    ++ show_string podStatus ++ ")...") ;;
                 ret false
             | None =>
                 spinner Succeed "All pods are running." ;;
                 ret true
             end)
            (fun error =>
               spinner Failure "Error while checking pod status." ;;
               log ("Error while waiting for pods: " ++ message error) ;;
               throw (Error (message error))) ;;
        if ready : bool then ret tt
        else sleep 5000 ;; poll fuel' namespace timeout startTime
      else
        spinner Failure ("Pods did not become ready within "
                      ++ string_of_Z timeout ++ " seconds.") ;;
        throw ReadinessTimeout
  end.

Definition poll_fuel (timeout : Z) : nat :=
  Z.to_nat (timeout * 1000 / 5000) + 2.

Definition waitForPodsReady (namespace : string) (timeout : Z) : M unit :=
  spinner Start "Waiting for pods to become ready..." ;;
  startTime <- Date_now ;;
  poll (poll_fuel timeout) namespace timeout startTime.

(** One turn of either apply loop of [deployKubernetes]; [kind] is
    ["deployment"] or ["service"], [Kind] the same capitalised. *)
Definition applyYAML (kind Kind projectPath file : string) : M unit :=
  if file =? EmptyString then
    log (Kind ++ " YAML is undefined or empty. Skipping...")
  else
    let filePath := file in
    log ("Applying " ++ kind ++ " YAML: " ++ filePath) ;;
    fileExists <- pathExists projectPath filePath ;;
    if negb fileExists then
      log (Kind ++ " YAML file does not exist: " ++ filePath)
    else
      spinner Text ("Applying " ++ kind ++ " YAML: " ++ filePath) ;;
      let command := apply_command filePath in
      r <- run command ;;
      if failed r then
        log ("Error applying " ++ kind ++ " YAML file " ++ filePath ++ ": "
             ++ stderr r) ;;
        spinner Failure ("Failed to apply " ++ kind ++ ": " ++ stderr r) ;;
        throw (ExecError command (code r) (stderr r))
      else
        log (Kind ++ " YAML applied successfully: " ++ filePath) ;;
        log (Kind ++ " applied: " ++ stdout r) ;;
        spinner Succeed (Kind ++ " applied: " ++ filePath).

Fixpoint applyAll (kind Kind projectPath : string) (files : list string)
  : M unit :=
  match files with
  | [] => ret tt
  | file :: rest =>
      applyYAML kind Kind projectPath file ;;
      applyAll kind Kind projectPath rest
  end.

Fixpoint reportPods (lines : list string) : M bool :=
  match lines with
  | [] => ret true
  | line :: rest =>
      if trim line =? EmptyString then reportPods rest
      else
        let podName := column 0 line in
        let podStatus := column 2 line in
        if is_running podStatus then reportPods rest
        else
          let text := "Pod " ++ show_string podName ++ " is in status "
                      ++ show_string podStatus in
          console text ;;
          log text ;;
          _ <- reportPods rest ;;
          ret false
  end.

Fixpoint servicePort (projectName : string) (lines : list string)
  (found : option string) : result (option string) :=
  match lines with
  | [] => Ok found
  | line :: rest =>
      if trim line =? EmptyString then servicePort projectName rest found
      else
        let serviceName := show_string (column 0 line) in
        if (serviceName =? projectName ++ "-service")
           || (serviceName =? "web-service")
        then
          match column 4 line with
          | None => Throw (TypeError
              "Cannot read properties of undefined (reading 'match')")
          | Some portInfo =>
              match port_match portInfo with
              | Some port => servicePort projectName rest (Some port)
              | None => servicePort projectName rest found
              end
          end
        else servicePort projectName rest found
  end.

Definition reportStatus (projectName : string) : M unit :=
  log "Checking the status of pods and services..." ;;
  pods <- run "kubectl get pods" ;;
  (if failed pods then
     log ("Error getting pods: " ++ stderr pods) ;;
     console "Error getting pods status." ;;
     throw (ExecError "kubectl get pods" (code pods) (stderr pods))
   else
     log ("Pods status:" ++ nl ++ stdout pods) ;;
     console "Pods status:" ;;
     console (stdout pods) ;;
     allPodsRunning <- reportPods (tl (split newline (stdout pods))) ;;
     if negb allPodsRunning then console "Warning: Not all pods are running."
     else ret tt) ;;
  services <- run "kubectl get services" ;;
  if failed services then
    log ("Error getting services: " ++ stderr services) ;;
    console "Error getting services status." ;;
    throw (ExecError "kubectl get services" (code services) (stderr services))
  else
    log ("Services status:" ++ nl ++ stdout services) ;;
    console "Services status:" ;;
    console (stdout services) ;;
    port <- lift (servicePort projectName
                    (tl (split newline (stdout services))) None) ;;
    match port with
    | Some p =>
        log ("Service is exposed on port: " ++ p) ;;
        console ("Your application is available at http://localhost:" ++ p)
    | None =>
        log "Could not determine the service port." ;;
        console "Could not determine the service port."
    end.

(** [deployKubernetes] from the classification on: the body of its [try]
    block after [scanYAMLFiles] has returned the two buckets. *)
Definition deployClassified (projectName projectPath : string)
  (buckets : list string * list string) : M unit :=
  let (serviceYAMLs, deploymentYAMLs) := buckets in
  log ("Service YAMLs found: "
       ++ JSON_stringify E (VArr (map VStr serviceYAMLs))) ;;
  log ("Deployment YAMLs found: "
       ++ JSON_stringify E (VArr (map VStr deploymentYAMLs))) ;;
  buckets' <-
    (if (List.length serviceYAMLs =? 0)%nat
        && (List.length deploymentYAMLs =? 0)%nat
     then
       log "No Kubernetes YAML files found. Generating default YAML files..." ;;
       generateKubernetesYAML projectName "latest" ;;
       ret ((serviceYAMLs
               ++ [path_join (cwd E) (projectName ++ "-service.yaml")])%list,
            (deploymentYAMLs
               ++ [path_join (cwd E) (projectName ++ "-deployment.yaml")])%list)
     else ret (serviceYAMLs, deploymentYAMLs)) ;;
  let (serviceYAMLs', deploymentYAMLs') := buckets' : list string * list string in
  applyAll "deployment" "Deployment" projectPath deploymentYAMLs' ;;
  applyAll "service" "Service" projectPath serviceYAMLs' ;;
  waitForPodsReady "default" 300 ;;
  reportStatus projectName.

Definition deployKubernetes (projectName projectPath : string) : M unit :=
  spinner Start "Deploying to Kubernetes..." ;;
  try_catch
    ((if projectPath =? EmptyString then throw InvalidProjectPath else ret tt) ;;
     updateWebDeploymentImage projectPath projectName "latest" ;;
     log ("Starting deployment to Kubernetes for project: " ++ projectName
          ++ " at path: " ++ projectPath) ;;
     buckets <- scanYAMLFiles projectPath ;;
     deployClassified projectName projectPath buckets)
    (fun err =>
       log ("Failed to deploy on Kubernetes: " ++ message err) ;;
       throw err).

(** [deployNginxConfig]: the copy is issued and the driver returns; the
    link and the reload are issued from the callbacks of the commands
    before them. *)
Definition deployNginxConfig (projectName : string) : M unit :=
  try_catch
    (_ <- spawn ("sudo cp " ++ projectName
                 ++ ".conf /etc/nginx/sites-available/") ;;
     ret tt)
    (fun err =>
       log ("Failed to deploy Nginx configuration: " ++ message err) ;;
       throw err).

(** The loop of [scanProject] over the files found (the colours and the
    check mark of the console lines are left out). *)
Fixpoint classify (allFiles : list string) (flags : bool * bool)
  : M (bool * bool) :=
  match allFiles with
  | [] => ret flags
  | file :: rest =>
      let (dockerFileFound, packageJsonFound) := flags in
      if endsWith (toLowerCase file) "dockerfile" then
        console ("Found Dockerfile: " ++ file) ;;
        log ("Found Dockerfile: " ++ file) ;;
        classify rest (true, packageJsonFound)
      else if endsWith file "package.json" then
        console ("Found package.json: " ++ file) ;;
        log ("Found package.json: " ++ file) ;;
        classify rest (dockerFileFound, true)
      else
        console ("Found file: " ++ file) ;;
        log ("Found file: " ++ file) ;;
        classify rest flags
  end.

Definition scanProject (projectPath projectName imageTag : string) : M unit :=
  log ("Received projectName: " ++ projectName ++ ", imageTag: " ++ imageTag) ;;
  spinner Start "Starting the project scan..." ;;
  try_catch
    (log ("Scanning directory: " ++ projectPath) ;;
     stats <- stat projectPath ;;
     if negb (isDirectory stats) then
       spinner Failure ("Error: " ++ projectPath ++ " is not a directory") ;;
       log ("Provided path is not a directory: " ++ projectPath)
     else
       allFiles <- scanEntireDirectory projectPath ;;
       flags <- classify allFiles (false, false) ;;
       let (dockerFileFound, packageJsonFound) := flags : bool * bool in
       spinner Text ("Scanning project at " ++ projectPath ++ "...") ;;
       (if packageJsonFound then
          log "Node.js project detected." ;;
          spinner Succeed "Detected a Node.js project" ;;
          (if negb dockerFileFound then
             spinner Start "Generating Dockerfile for Node.js project..." ;;
             _ <- generateDockerfile "nodejs" projectPath ;;
             spinner Succeed "Dockerfile generated for Node.js project."
           else spinner Succeed "Using existing Dockerfile.") ;;
          spinner Start "Building Docker image..." ;;
          buildDockerImage projectPath projectName imageTag ;;
          spinner Succeed ("Docker image '" ++ projectName ++ ":" ++ imageTag
                           ++ "' built successfully.")
        else
          spinner Failure "Unable to determine the project type" ;;
          log "Failed to determine project type. No known configuration files found.") ;;
       spinner Succeed "Project scan and Docker image creation completed.")
    (fun err =>
       log ("Error scanning project or building Docker image: " ++ message err) ;;
       spinner Failure "Error scanning project or building Docker image" ;;
       throw err).

(** The [scan] command after the build: the deployment the operator
    chooses. *)
Definition deploy (projectPath : string) (a : answers) : M unit :=
  let projectName := projectName_answer a in
  let imageTag := imageTag_answer a in
  if toLowerCase (deployOption a) =? "yes" then
    if deployType a =? "local" then
      deployDocker projectPath projectName imageTag None None None
    else if deployType a =? "remote" then
      deployDocker projectPath projectName imageTag
        (Some (remoteHost a)) (Some (remoteUser a)) (Some (remotePassword a))
    else if deployType a =? "k8s" then
      deployKubernetes projectName projectPath
    else if deployType a =? "nginx" then
      deployNginxConfig projectName
    else console "Invalid deployment option. Skipping deployment."
  else console "Skipping deployment.".

Definition scanCommand (projectPath : string) (a : answers) : M unit :=
  console ("User entered Docker image name: " ++ projectName_answer a) ;;
  console ("User entered Docker image tag: " ++ imageTag_answer a) ;;
  scanProject projectPath (projectName_answer a) (imageTag_answer a) ;;
  console "Docker image build complete." ;;
  deploy projectPath a.

End Scanner.

(** ** Footprints of a computation *)

Definition with_events (w : world) (evs : list event) : world :=
  {| project := project w; cwd_files := cwd_files w;
     events := (events w ++ evs)%list; clock := clock w |}.

Definition with_cwd (w : world) (files : list (string * string)) : world :=
  {| project := project w; cwd_files := files;
     events := events w; clock := clock w |}.

(** From [w] to [w'], events are only added, each one allowed; the project
    tree is the same where [keep_project] says so, and the files of the
    working directory where [keep_cwd] does. *)
Definition changes (keep_project keep_cwd : bool) (allowed : event -> bool)
  (w w' : world) : Prop :=
  (keep_project = true -> project w' = project w) /\
  (keep_cwd = true -> cwd_files w' = cwd_files w) /\
  exists evs,
    events w' = (events w ++ evs)%list /\ forallb allowed evs = true.

(** Every run of [m] relates the world before to the world after. *)
Definition respects {A : Type} (R : world -> world -> Prop) (m : M A) : Prop :=
  forall w, R w (snd (m w)).

Definition no_write (e : event) : bool := negb (is_Wrote e).
Definition report_only (e : event) : bool :=
  match e with
  | Logged _ | Console _ | Spinner _ _ => true
  | _ => false
  end.
Definition any_event (e : event) : bool := true.

(** The events of [w'] that [w] has not. *)
Definition since (w w' : world) : list event :=
  skipn (List.length (events w)) (events w').

(** The file of the project root named [name]. *)
Definition root_file (name : string) (w : world) : option string :=
  match project w with
  | Some (Dir files) =>
      match lookup name files with
      | Some (File content) => Some content
      | _ => None
      end
  | _ => None
  end.

(** The containers of a manifest, where it has a list of them. *)
Definition containers_of (manifest : value) : option (list value) :=
  match get (Some manifest) "spec" with
  | Ok spec =>
      match get spec "template" with
      | Ok template =>
          match get template "spec" with
          | Ok podSpec =>
              match get podSpec "containers" with
              | Ok (Some (VArr items)) => Some items
              | _ => None
              end
          | _ => None
          end
      | _ => None
      end
  | _ => None
  end.

Definition is_object (v : value) : Prop :=
  match v with VObj _ => True | _ => False end.

(** An object after the two assignments of the loop of
    [updateWebDeploymentImage]. *)
Definition with_image (image : string) (container : value) : value :=
  match container with
  | VObj props =>
      VObj (assign "imagePullPolicy" (VStr "IfNotPresent")
              (assign "image" (VStr image) props))
  | _ => container
  end.

Definition web_deployment : string := "web-deployment.yaml".

(** ** Sample data *)

Module Demo.

(** A flow-style printer: what it prints is YAML as well as JSON. *)
Fixpoint print (v : value) : string :=
  match v with
  | VNull => "null"
  | VBool true => "true"
  | VBool false => "false"
  | VNum n => string_of_Z n
  | VStr s => "'" ++ s ++ "'"
  | VArr items =>
      "[" ++
      (fix go (l : list value) : string :=
         match l with
         | [] => EmptyString
         | x :: rest =>
             print x ++ match rest with [] => EmptyString | _ => ", " ++ go rest end
         end) items
      ++ "]"
  | VObj props =>
      "{" ++
      (fix go (l : list (string * value)) : string :=
         match l with
         | [] => EmptyString
         | (k, x) :: rest =>
             k ++ ": " ++ print x
             ++ match rest with [] => EmptyString | _ => ", " ++ go rest end
         end) props
      ++ "}"
  end.

Definition container (name image : string) : value :=
  VObj [("name", VStr name); ("image", VStr image)].

(** A deployment manifest with two containers. *)
Definition manifest : value :=
  VObj [("kind", VStr "Deployment");
        ("spec", VObj [("replicas", VNum 2);
           ("template", VObj [("spec", VObj [("containers",
              VArr [container "web" "web:1.4"; container "log" "fluentd:v2"])])])])].

Definition package : value :=
  VObj [("name", VStr "demo");
        ("dependencies", VObj [("express", VStr "4.x")])].

(** A manifest that names express without a version. *)
Definition package_unversioned : value :=
  VObj [("name", VStr "demo");
        ("dependencies", VObj [("express", VStr EmptyString)])].

Definition nodejs_template : string :=
  "FROM node:18" ++ nl ++
  "WORKDIR /app" ++ nl ++
  "COPY package*.json ./" ++ nl ++
  "RUN npm install" ++ nl ++
  "COPY . ." ++ nl ++
  "EXPOSE 3000" ++ nl ++
  CMD_npm_start ++ nl.

(** Pod tables, as the orchestrator prints them. *)
Definition pods_pending : string :=
  "NAME READY STATUS RESTARTS AGE" ++ nl ++
  "web-1 1/1 Running 0 5m" ++ nl ++
  "web-2 0/1 Pending 0 5m" ++ nl.

Definition pods_running : string :=
  "NAME READY STATUS RESTARTS AGE" ++ nl ++
  "web-1 1/1 Running 0 5m" ++ nl ++
  "web-2 1/1 Running 0 5m" ++ nl.

Definition services : string :=
  "NAME TYPE CLUSTER-IP EXTERNAL-IP PORT(S) AGE" ++ nl ++
  "demo-service NodePort 10.0.0.7 <none> 80:32441/TCP 1m" ++ nl.

Definition done (out : string) : outcome :=
  {| code := 0; stdout := out; stderr := EmptyString |}.

Definition broke (err : string) : outcome :=
  {| code := 1; stdout := EmptyString; stderr := err |}.

(** Tools that answer well: the pods are pending at the first two
    commands and running from the third on. *)
Definition tools (n : nat) (command : string) : outcome :=
  if startsWith command "kubectl get pods" then
    done (if (n <? 2)%nat then pods_pending else pods_running)
  else if command =? "kubectl get services" then done services
  else done "ok".

(** Tools that all fail. *)
Definition broken_tools (n : nat) (command : string) : outcome :=
  broke "cannot connect".

Definition env_with (tools : nat -> string -> outcome) : env :=
  {| cwd := "/work";
     templates := fun projectType =>
       if projectType =? "nodejs" then Some nodejs_template else None;
     JSON_parse := fun text =>
       if text =? "{express}" then Some package
       else if text =? "{express: ''}" then Some package_unversioned
       else if text =? "{}" then Some (VObj []) else None;
     JSON_stringify := print;
     yaml_load := fun text =>
       if text =? "manifest" then Some manifest else None;
     yaml_dump := print;
     exec := tools |}.

Definition E : env := env_with tools.
Definition E_broken : env := env_with broken_tools.

Definition world_of (n : option node) : world :=
  {| project := n; cwd_files := []; events := []; clock := 1700000000000 |}.

(** An express project without build file. *)
Definition express_project : node :=
  Dir [("package.json", File "{express}");
       ("index.js", File "const app = express(); app.listen(8000)");
       ("src", Dir [("util.js", File "module.exports = {}")])].

(** An express project whose manifest gives no version. *)
Definition unversioned_project : node :=
  Dir [("package.json", File "{express: ''}");
       ("index.js", File "const app = express(); app.listen(8000)")].

(** A project whose only build file is named [app.dockerfile]. *)
Definition suffix_project : node :=
  Dir [("package.json", File "{}");
       ("docker", Dir [("app.dockerfile", File "FROM node:18")])].

(** A project with a build file below the root. *)
Definition nested_project : node :=
  Dir [("README.md", File "demo");
       ("api", Dir [("DOCKERFILE", File "FROM node:18");
                    ("package.json", File "{}")]);
       ("Dockerfile", File "FROM node:20")].

(** A project of another stack. *)
Definition python_project : node :=
  Dir [("app.py", File "print(1)"); ("requirements.txt", File "flask")].

(** A project with the well-known manifest. *)
Definition k8s_project : node :=
  Dir [("Dockerfile", File "FROM node:18");
       ("web-deployment.yaml", File "manifest");
       ("web-service.yaml", File "service")].

Definition k8s_answers (imageTag : string) : answers :=
  {| projectName_answer := "demo"; imageTag_answer := imageTag;
     deployOption := "Yes"; deployType := "k8s";
     remoteHost := EmptyString; remoteUser := EmptyString;
     remotePassword := EmptyString |}.

End Demo.

(** * Further definitions *)

(** ** What a run has logged, issued and written *)

(** The messages of the run log among the events. *)
Fixpoint log_lines (evs : list event) : list string :=
  match evs with
  | [] => []
  | Logged m :: rest => m :: log_lines rest
  | _ :: rest => log_lines rest
  end.

(** The commands issued among the events. *)
Fixpoint commands (evs : list event) : list string :=
  match evs with
  | [] => []
  | Ran c :: rest => c :: commands rest
  | _ :: rest => commands rest
  end.

(** The files written among the events. *)
Fixpoint writes (evs : list event) : list (string * string) :=
  match evs with
  | [] => []
  | Wrote p content :: rest => (p, content) :: writes rest
  | _ :: rest => writes rest
  end.

(** The command of [buildDockerImage]. *)
Definition build_command (projectName imageTag buildContext : string) : string :=
  "docker build -t " ++ projectName ++ ":" ++ imageTag ++ " " ++ buildContext.

(** What a scan may do besides reporting: build an image, and write the
    build file of the project root. *)
Definition scan_event (projectPath : string) (e : event) : bool :=
  match e with
  | Ran command => startsWith command "docker build -t "
  | Wrote p _ => p =? path_join projectPath "Dockerfile"
  | Slept _ => false
  | Logged _ | Console _ | Spinner _ _ => true
  end.

(** A file an apply loop of [deployKubernetes] does not skip: its path is
    not empty and exists. *)
Definition applicable (E : env) (projectPath : string) (w : world)
  (file : string) : bool :=
  negb (file =? EmptyString)
  && match fst (pathExists E projectPath file w) with
     | Ok found => found
     | Throw _ => false
     end.


(** Decimal digits only. *)
Fixpoint all_digits (s : string) : bool :=
  match s with
  | EmptyString => true
  | String c s' => is_digit c && all_digits s'
  end.

(** A row of the table of services that [deployKubernetes] reads the port
    from: the service of the project, or [web-service]. *)
Definition service_row (projectName line : string) : bool :=
  negb (trim line =? EmptyString)
  && ((show_string (column 0 line) =? projectName ++ "-service")
      || (show_string (column 0 line) =? "web-service")).

(** The waits among the events, in milliseconds. *)
Fixpoint sleeps (evs : list event) : list Z :=
  match evs with
  | [] => []
  | Slept ms :: rest => ms :: sleeps rest
  | _ :: rest => sleeps rest
  end.

(** The world after a turn of the readiness poll that goes on: the turn
    has left its events, and five seconds have passed. *)
Definition turned (w : world) (evs : list event) : world :=
  {| project := project w; cwd_files := cwd_files w;
     events := (events w ++ evs)%list; clock := (clock w + 5000)%Z |}.

(** A computation that, when it fails, has only reported: the project
    tree and the working directory are as before, no command was issued
    and nothing was written. *)
Definition fails_clean {A : Type} (m : M A) : Prop :=
  forall w,
    match m w with
    | (Throw _, w') => changes true true report_only w w'
    | (Ok _, _) => True
    end.

(** ** The functions of the script that nothing calls *)

(** [s.split(/[',]/)], and any split at the characters of a class: the
    pieces between the separators, the empty ones as well. *)
Fixpoint split_at (sep : ascii -> bool) (s : string) : list string :=
  match s with
  | EmptyString => [EmptyString]
  | String c s' =>
      if sep c then EmptyString :: split_at sep s'
      else match split_at sep s' with
           | [] => [String c EmptyString]
           | h :: t => String c h :: t
           end
  end.

(** The class [[',]]. *)
Definition quote_or_comma (c : ascii) : bool :=
  Ascii.eqb c "'"%char || Ascii.eqb c ","%char.

(** The number of characters of [s] in the class. *)
Fixpoint count_of (sep : ascii -> bool) (s : string) : nat :=
  match s with
  | EmptyString => 0
  | String c s' => (if sep c then 1 else 0) + count_of sep s'
  end.

(** The callback of [map] in [parseGemfile]: the name and the version
    are the second and the third piece of the line, trimmed. *)
Definition gem_entry (line : string) : result (string * string) :=
  let parts := split_at quote_or_comma line in
  match nth_error parts 1 with
  | None => Throw (TypeError
      "Cannot read properties of undefined (reading 'trim')")
  | Some name =>
      match nth_error parts 2 with
      | None => Throw (TypeError
          "Cannot read properties of undefined (reading 'trim')")
      | Some version => Ok (trim name, trim version)
      end
  end.

Fixpoint gem_entries (lines : list string) : result (list (string * string)) :=
  match lines with
  | [] => Ok []
  | line :: rest =>
      match gem_entry line with
      | Throw e => Throw e
      | Ok entry =>
          match gem_entries rest with
          | Throw e => Throw e
          | Ok entries => Ok (entry :: entries)
          end
      end
  end.

(** The object [{ name, version }]. *)
Definition dependency (entry : string * string) : value :=
  VObj [("name", VStr (fst entry)); ("version", VStr (snd entry))].

Definition parseGemfile (E : env) (gemfileContent : string) : M unit :=
  log "Starting to parse Gemfile..." ;;
  dependencies <-
    lift (gem_entries
            (filter (fun line => startsWith line "gem")
               (split newline gemfileContent))) ;;
  log ("Parsed dependencies from Gemfile: "
       ++ JSON_stringify E (VArr (map dependency dependencies))).

(** A line of a Gemfile in the usual form, [gem '<name>', '<version>']. *)
Definition gem_line (entry : string * string) : string :=
  "gem '" ++ fst entry ++ "', '" ++ snd entry ++ "'".

Fixpoint gemfile (entries : list (string * string)) : string :=
  match entries with
  | [] => EmptyString
  | entry :: rest => gem_line entry ++ nl ++ gemfile rest
  end.

(** The template literal of [generateNginxConfig]: it opens and closes
    with a line feed, which [trim] removes before the text is written. *)
Definition nginx_text : string :=
  "server {" ++ nl ++
  "    listen 80;" ++ nl ++
  "    server_name localhost;" ++ nl ++
  nl ++
  "    location / {" ++ nl ++
  "        proxy_pass http://localhost:4000;" ++ nl ++
  "        proxy_set_header Host $host;" ++ nl ++
  "        proxy_set_header X-Real-IP $remote_addr;" ++ nl ++
  "        proxy_set_header X-Forwarded-For $proxy_add_x_forwarded_for;" ++ nl ++
  "        proxy_set_header X-Forwarded-Proto $scheme;" ++ nl ++
  "    }" ++ nl ++
  "}".

Definition nginxConfig : string := nl ++ nginx_text ++ nl.

(** [fs.writeFile(`${projectName}.conf`, ...)]: the relative path is
    taken from the working directory. *)
Definition generateNginxConfig (E : env) (projectName : string) : M unit :=
  writeFile_in_cwd E (projectName ++ ".conf") (trim nginxConfig) ;;
  log "Generated Nginx configuration file.".

(** The three commands of [deployNginxConfig]. *)
Definition nginx_copy (projectName : string) : string :=
  "sudo cp " ++ projectName ++ ".conf /etc/nginx/sites-available/".

Definition nginx_link (projectName : string) : string :=
  "sudo ln -s /etc/nginx/sites-available/" ++ projectName
  ++ ".conf /etc/nginx/sites-enabled/".

Definition nginx_reload : string := "sudo nginx -s reload".

(** The callback [deployNginxConfig] hands to [exec] with the copy: it
    runs when the copy has ended, after the driver has returned.  It
    issues the link, whose callback issues the reload; each callback runs
    when its command has ended, and what a callback throws is thrown to
    the event loop. *)
Definition deployNginxConfig_callback (E : env) (projectName : string)
  (copied : outcome) : M unit :=
  if failed copied then
    log ("Error copying Nginx config: " ++ stderr copied) ;;
    throw (ExecError (nginx_copy projectName) (code copied) (stderr copied))
  else
    log ("Nginx config copied: " ++ stdout copied) ;;
    linked <- run E (nginx_link projectName) ;;
    if failed linked then
      log ("Error creating symlink for Nginx config: " ++ stderr linked) ;;
      throw (ExecError (nginx_link projectName) (code linked) (stderr linked))
    else
      reloaded <- run E nginx_reload ;;
      if failed reloaded then
        log ("Error reloading Nginx: " ++ stderr reloaded) ;;
        throw (ExecError nginx_reload (code reloaded) (stderr reloaded))
      else log "Nginx configuration applied and server reloaded.".

(** A run of [deployNginxConfig] to the end of the process: the driver
    returns its outcome, then the callbacks run. *)
Definition deployNginxConfig_run (E : env) (projectName : string) (w : world)
  : result unit * result unit * world :=
  let n := issued w in
  let (returned, w1) := deployNginxConfig projectName w in
  let (called_back, w2) :=
    deployNginxConfig_callback E projectName (exec E n (nginx_copy projectName)) w1 in
  (returned, called_back, w2).

(** ** Reading the tree by path *)

(** The content of the file reached from [n] through the entries
    [names], one directory after the other. *)
Fixpoint file_at (names : list string) (n : node) : option string :=
  match names with
  | [] => match n with File content => Some content | Dir _ => None end
  | name :: rest =>
      match n with
      | Dir files =>
          match lookup name files with
          | Some child => file_at rest child
          | None => None
          end
      | File _ => None
      end
  end.

(** [path.join(directory, ...names)] *)
Definition path_of (directory : string) (names : list string) : string :=
  fold_left path_join names directory.

(** No directory of the tree holds two entries of the same name. *)
Fixpoint distinct_node (n : node) : bool :=
  match n with
  | File _ => true
  | Dir files =>
      (fix loop (l : list (string * node)) : bool :=
         match l with
         | [] => true
         | (f, n') :: rest =>
             negb (existsb (fun e => fst e =? f) rest)
             && distinct_node n' && loop rest
         end) files
  end.

(** The rows of a table of pods that [deployKubernetes] reports: the
    lines that are not blank and whose status is not [Running]. *)
Definition not_running (line : string) : bool :=
  negb (trim line =? EmptyString) && negb (is_running (column 2 line)).

(** ** More sample data *)

Module Cases.

(** Tools that refuse what bears on a service. *)
Definition flaky_tools (n : nat) (command : string) : outcome :=
  if includes command "service" then Demo.broke "denied" else Demo.done "ok".

Definition E_flaky : env := Demo.env_with flaky_tools.

(** A cluster whose second pod stays pending. *)
Definition E_pending : env :=
  Demo.env_with (fun _ _ => Demo.done Demo.pods_pending).

(** The sample manifest after a rewrite for [demo:v1]. *)
Definition rewritten : value :=
  put_path containers_path
    (VArr (map (with_image "demo:v1")
             [Demo.container "web" "web:1.4"; Demo.container "log" "fluentd:v2"]))
    Demo.manifest.

(** A YAML library that reads back what it has printed for the sample
    manifest and for its rewrite. *)
Definition E_yaml : env :=
  {| cwd := "/work";
     templates := templates Demo.E;
     JSON_parse := JSON_parse Demo.E;
     JSON_stringify := Demo.print;
     yaml_load := fun text =>
       if text =? "manifest" then Some Demo.manifest
       else if text =? Demo.print rewritten then Some rewritten
       else None;
     yaml_dump := Demo.print;
     exec := Demo.tools |}.

(** A repository whose only manifest lies two directories down. *)
Definition monorepo : node :=
  Dir [("README.md", File "demo");
       ("services", Dir [("api", Dir [("package.json", File "{}")])])].

Definition answers_for (type host : string) : answers :=
  {| projectName_answer := "demo"; imageTag_answer := "v1";
     deployOption := "YES"; deployType := type;
     remoteHost := host; remoteUser := "ops";
     remotePassword := "secret" |}.

Definition gems : list (string * string) :=
  [("rails", "~> 7.0"); (" pg ", "1.5")].

(** The rows of a table of services, the header left out. *)
Definition service_rows : list string :=
  ["kubernetes ClusterIP 10.0.0.1 <none> 443/TCP 9d";
   "web-service NodePort 10.0.0.9 <none> 80:30080/TCP 2d";
   "demo-service NodePort 10.0.0.7 <none> 80:32441/TCP 1m";
   "other NodePort 10.0.0.8 <none> 80:31000/TCP 1m"].

End Cases.

(** * Proofs *)

(** ** Facts on strings *)

Lemma append_assoc (a b c : string) : (a ++ b) ++ c = a ++ b ++ c.
Proof. induction a as [|x a IH]; simpl; [reflexivity | now rewrite IH]. Qed.

Lemma append_nil_r (a : string) : a ++ EmptyString = a.
Proof. induction a as [|x a IH]; simpl; [reflexivity | now rewrite IH]. Qed.

Lemma length_append (a b : string) :
  String.length (a ++ b) = String.length a + String.length b.
Proof. induction a as [|x a IH]; simpl; [reflexivity | now rewrite IH]. Qed.

Lemma append_eq_nil (a b : string) : a ++ b = EmptyString -> a = EmptyString /\ b = EmptyString.
Proof. destruct a; simpl; [auto | discriminate]. Qed.

Lemma startsWith_iff (s p : string) :
  startsWith s p = true <-> exists r, s = p ++ r.
Proof.
  revert s; induction p as [|a p IH]; intros s; simpl.
  - split; [intros _; now exists s | reflexivity].
  - destruct s as [|b s].
    + split; [discriminate | intros [r Hr]; discriminate].
    + rewrite andb_true_iff, Ascii.eqb_eq, IH. split.
      * intros [-> [r ->]]. now exists r.
      * intros [r Hr]. injection Hr as -> ->. split; [reflexivity | now exists r].
Qed.

Lemma startsWith_app (p r : string) : startsWith (p ++ r) p = true.
Proof. apply startsWith_iff. now exists r. Qed.

Lemma startsWith_app_l (s p r : string) :
  startsWith s p = true -> startsWith (s ++ r) p = true.
Proof.
  rewrite !startsWith_iff. intros [x ->]. exists (x ++ r). apply append_assoc.
Qed.

Lemma drop_app (p r : string) : drop (String.length p) (p ++ r) = r.
Proof. induction p as [|a p IH]; simpl; [now destruct r | exact IH]. Qed.

Lemma endsWith_iff (s suffix : string) :
  endsWith s suffix = true <-> exists pre, s = pre ++ suffix.
Proof.
  induction s as [|c s IH]; cbn [endsWith].
  - rewrite orb_false_r. split.
    + intros H. apply String.eqb_eq in H. now exists EmptyString.
    + intros [pre H]. symmetry in H. apply append_eq_nil in H as [_ ->]. reflexivity.
  - rewrite orb_true_iff, IH. split.
    + intros [H | [pre ->]].
      * apply String.eqb_eq in H. now exists EmptyString.
      * now exists (String c pre).
    + intros [[|x pre] H]; simpl in H.
      * left. rewrite <- H. apply String.eqb_refl.
      * right. injection H as _ ->. now exists pre.
Qed.

Lemma endsWith_app (a b suffix : string) :
  endsWith b suffix = true -> endsWith (a ++ b) suffix = true.
Proof.
  rewrite !endsWith_iff. intros [pre ->]. exists (a ++ pre).
  now rewrite append_assoc.
Qed.

Lemma includes_iff (s sub : string) :
  includes s sub = true <-> exists pre post, s = pre ++ sub ++ post.
Proof.
  induction s as [|c s IH]; cbn [includes].
  - rewrite orb_false_r, startsWith_iff. split.
    + intros [r H]. now exists EmptyString, r.
    + intros [pre [post H]]. symmetry in H.
      apply append_eq_nil in H as [_ H]. apply append_eq_nil in H as [-> ->].
      now exists EmptyString.
  - rewrite orb_true_iff, IH, startsWith_iff. split.
    + intros [[r H] | [pre [post ->]]].
      * now exists EmptyString, r.
      * now exists (String c pre), post.
    + intros [[|x pre] [post H]]; simpl in H.
      * left. now exists post.
      * right. injection H as _ ->. now exists pre, post.
Qed.

Lemma includes_false_app_l (a b sub : string) :
  includes (a ++ b) sub = false -> includes a sub = false.
Proof.
  intros H. destruct (includes a sub) eqn:Ha; [|reflexivity].
  apply includes_iff in Ha as [pre [post ->]].
  enough (includes ((pre ++ sub ++ post) ++ b) sub = true) by congruence.
  apply includes_iff. exists pre, (post ++ b). now rewrite !append_assoc.
Qed.

Lemma includes_false_app_r (a b sub : string) :
  includes (a ++ b) sub = false -> includes b sub = false.
Proof.
  intros H. destruct (includes b sub) eqn:Hb; [|reflexivity].
  apply includes_iff in Hb as [pre [post ->]].
  enough (includes (a ++ pre ++ sub ++ post) sub = true) by congruence.
  apply includes_iff. exists (a ++ pre), post. now rewrite !append_assoc.
Qed.

Lemma includes_length (s sub : string) :
  includes s sub = true -> String.length sub <= String.length s.
Proof.
  intros H. apply includes_iff in H as [pre [post ->]].
  rewrite !length_append. lia.
Qed.

(** A character foreign to [sub] cuts every occurrence of [sub]. *)
Lemma startsWith_cut (c : ascii) (sub a b : string) :
  has_char c sub = false ->
  startsWith (a ++ String c b) sub = startsWith a sub.
Proof.
  revert a; induction sub as [|x sub IH]; intros a Hc; simpl in *.
  - reflexivity.
  - apply orb_false_iff in Hc as [Hx Hc].
    destruct a as [|y a]; simpl.
    + now rewrite Hx.
    + now rewrite IH.
Qed.

Lemma includes_cut (c : ascii) (sub a b : string) :
  has_char c sub = false -> sub <> EmptyString ->
  includes (a ++ String c b) sub = includes a sub || includes b sub.
Proof.
  intros Hc Hne. induction a as [|y a IH].
  - destruct sub as [|x sub]; [congruence|]. simpl in *.
    apply orb_false_iff in Hc as [Hx _]. now rewrite Hx.
  - change (String y a ++ String c b) with (String y (a ++ String c b)).
    cbn [includes]. rewrite IH.
    change (String y (a ++ String c b)) with (String y a ++ String c b).
    rewrite (startsWith_cut c sub (String y a) b Hc).
    now rewrite orb_assoc.
Qed.


Lemma replace_absent (pat rep s : string) :
  includes s pat = false -> replace pat rep s = s.
Proof.
  induction s as [|c s IH]; cbn [includes replace]; intros H;
    apply orb_false_iff in H as [H1 H2]; rewrite H1.
  - reflexivity.
  - now rewrite IH.
Qed.

(** [replace] rewrites the first occurrence: no occurrence begins before
    it. *)
Lemma replace_first (pat rep s : string) :
  includes s pat = true ->
  exists pre post,
    s = pre ++ pat ++ post /\
    replace pat rep s = pre ++ rep ++ post /\
    forall p q, pat = p ++ q -> q <> EmptyString -> includes (pre ++ p) pat = false.
Proof.
  induction s as [|c s IH]; cbn [includes replace]; intros H.
  - rewrite orb_false_r in H. rewrite H.
    apply startsWith_iff in H as [r Hr]. symmetry in Hr.
    apply append_eq_nil in Hr as [-> ->]. exists EmptyString, EmptyString. simpl.
    split; [reflexivity | split; [now rewrite append_nil_r|]].
    intros p q Hp Hq. symmetry in Hp. apply append_eq_nil in Hp as [_ ->].
    congruence.
  - destruct (startsWith (String c s) pat) eqn:Hs.
    + apply startsWith_iff in Hs as [r Hr]. exists EmptyString, r.
      split; [exact Hr|]. split; [rewrite Hr, drop_app; reflexivity|].
      intros p q -> Hq. simpl.
      destruct (includes p (p ++ q)) eqn:Hi; [|reflexivity].
      apply includes_length in Hi. rewrite length_append in Hi.
      destruct q; [congruence | simpl in Hi; lia].
    + simpl in H. destruct (IH H) as [pre [post [E1 [E2 E3]]]].
      exists (String c pre), post. repeat split.
      * simpl. now rewrite <- E1.
      * simpl. now rewrite E2.
      * intros p q Hp Hq.
        change (String c pre ++ p) with (String c (pre ++ p)).
        cbn [includes]. rewrite (E3 p q Hp Hq), orb_false_r.
        destruct (startsWith (String c (pre ++ p)) pat) eqn:Hs'; [|reflexivity].
        apply (startsWith_app_l _ _ (q ++ post)) in Hs'.
        rewrite <- Hs. rewrite <- Hs'. f_equal. rewrite E1, Hp.
        simpl. now rewrite !append_assoc.
Qed.

Lemma occurrences_zero (sub s : string) :
  occurrences sub s = 0 <-> includes s sub = false.
Proof.
  induction s as [|c s IH]; cbn [occurrences includes].
  - rewrite orb_false_r. destruct (startsWith EmptyString sub); simpl; split; congruence.
  - rewrite orb_false_iff, <- IH.
    destruct (startsWith (String c s) sub); simpl.
    + split; [intros H; lia | intros [H _]; discriminate].
    + split; [intros H; split; [reflexivity | exact H] | intros [_ H]; exact H].
Qed.

Lemma occurrences_app_r (sub pre s : string) :
  occurrences sub s <= occurrences sub (pre ++ s).
Proof.
  induction pre as [|c pre IH]; [reflexivity|].
  change (String c pre ++ s) with (String c (pre ++ s)).
  cbn [occurrences]. lia.
Qed.

(** The second substitution of the port finds nothing to rewrite: a
    template that declares the port once holds no [EXPOSE 3000] after
    the first substitution, and the substitution of the start command
    brings none back. *)
Lemma no_port_after_first (template : string) :
  occurrences EXPOSE_3000 template <= 1 ->
  includes (replace EXPOSE_3000 EXPOSE_8000 template) EXPOSE_3000 = false.
Proof.
  intros Hocc. destruct (includes template EXPOSE_3000) eqn:Hi.
  - destruct (replace_first EXPOSE_3000 EXPOSE_8000 template Hi)
      as [pre [post [E1 [E2 E3]]]].
    rewrite E2.
    change EXPOSE_8000 with ("EXPOSE " ++ String "8" "000").
    rewrite append_assoc. rewrite <- (append_assoc pre).
    change (String "8" "000" ++ post) with (String "8" ("000" ++ post)).
    rewrite includes_cut by (reflexivity || discriminate).
    rewrite (E3 "EXPOSE " "3000") by (reflexivity || discriminate).
    cbn [orb].
    assert (H0 : occurrences EXPOSE_3000 ("XPOSE 3000" ++ post) = 0).
    { pose proof (occurrences_app_r EXPOSE_3000 pre (EXPOSE_3000 ++ post)) as Hle.
      rewrite <- E1 in Hle.
      change (EXPOSE_3000 ++ post) with (String "E" ("XPOSE 3000" ++ post)) in Hle.
      cbn [occurrences] in Hle.
      change (String "E" ("XPOSE 3000" ++ post)) with (EXPOSE_3000 ++ post) in Hle.
      rewrite startsWith_app in Hle. lia. }
    apply occurrences_zero in H0.
    change ("XPOSE 3000" ++ post) with ("XPOSE 3" ++ "000" ++ post) in H0.
    now apply includes_false_app_r in H0.
  - now rewrite replace_absent.
Qed.

Lemma no_port_after_command (s : string) :
  includes s EXPOSE_3000 = false ->
  includes (replace CMD_npm_start CMD_node_index s) EXPOSE_3000 = false.
Proof.
  intros H. destruct (includes s CMD_npm_start) eqn:Hi.
  - destruct (replace_first CMD_npm_start CMD_node_index s Hi)
      as [pre [post [E1 [E2 _]]]].
    rewrite E2. rewrite E1 in H.
    pose proof (includes_false_app_l _ _ _ H) as Hpre.
    apply includes_false_app_r, includes_false_app_r in H.
    set (mid := "MD [" ++ dquote ++ "node" ++ dquote ++ ", " ++ dquote
                ++ "index.js" ++ dquote).
    change CMD_node_index with (String "C" (mid ++ String "]" EmptyString)).
    change (String "C" (mid ++ String "]" EmptyString) ++ post)
      with (String "C" ((mid ++ String "]" EmptyString) ++ post)).
    rewrite includes_cut by (reflexivity || discriminate).
    rewrite Hpre. cbn [orb]. rewrite append_assoc.
    change (String "]" EmptyString ++ post) with (String "]" post).
    rewrite includes_cut by (reflexivity || discriminate).
    rewrite H. reflexivity.
  - now rewrite replace_absent.
Qed.

Lemma trimEnd_app (a b : string) :
  trimEnd b <> EmptyString -> trimEnd (a ++ b) = a ++ trimEnd b.
Proof.
  intros Hb. induction a as [|c a IH]; [reflexivity|].
  change (String c a ++ b) with (String c (a ++ b)).
  cbn [trimEnd]. rewrite IH.
  destruct (a ++ trimEnd b) eqn:Hab; [|now rewrite <- Hab].
  apply append_eq_nil in Hab as [_ Hab]. contradiction.
Qed.

Lemma trimEnd_space (s : string) (c : ascii) :
  is_space c = true -> trimEnd (s ++ String c EmptyString) = trimEnd s.
Proof.
  intros Hc. induction s as [|x s IH]; simpl.
  - now rewrite Hc.
  - now rewrite IH.
Qed.

Lemma toLowerCase_app (a b : string) :
  toLowerCase (a ++ b) = toLowerCase a ++ toLowerCase b.
Proof. induction a as [|c a IH]; simpl; [reflexivity | now rewrite IH]. Qed.

Lemma has_char_includes (c : ascii) (s : string) :
  includes s (String c EmptyString) = has_char c s.
Proof.
  induction s as [|x s IH]; cbn [includes has_char startsWith].
  - reflexivity.
  - rewrite IH, andb_true_r. now rewrite Ascii.eqb_sym.
Qed.

Lemma has_char_app (c : ascii) (a b : string) :
  has_char c (a ++ b) = has_char c a || has_char c b.
Proof.
  induction a as [|x a IH]; simpl; [reflexivity | now rewrite IH, orb_assoc].
Qed.

(** A suffix without separator of a joined path is a suffix of its last
    component. *)
Lemma endsWith_join (directory file suffix : string) :
  has_char "/" suffix = false ->
  endsWith (path_join directory file) suffix = endsWith file suffix.
Proof.
  intros Hs. unfold path_join, path_sep.
  destruct (endsWith file suffix) eqn:Hf.
  - rewrite <- append_assoc. now apply endsWith_app.
  - destruct (endsWith (directory ++ "/" ++ file) suffix) eqn:Hd; [|reflexivity].
    exfalso. apply endsWith_iff in Hd as [pre Hd].
    assert (Hgen : forall d p, d ++ "/" ++ file = p ++ suffix -> False).
    { clear Hd pre directory.
      induction d as [|x d IH]; intros p Hp.
      - simpl in Hp. destruct p as [|y p]; simpl in Hp.
        + rewrite <- Hp in Hs. simpl in Hs. discriminate.
        + injection Hp as _ Hp.
          assert (endsWith file suffix = true) by (apply endsWith_iff; now exists p).
          congruence.
      - destruct p as [|y p]; simpl in Hp.
        + rewrite <- Hp in Hs. simpl in Hs. rewrite has_char_app in Hs.
          simpl in Hs. rewrite orb_true_r in Hs. destruct (Ascii.eqb x "/"); discriminate.
        + injection Hp as _ Hp. exact (IH p Hp). }
    exact (Hgen directory pre Hd).
Qed.

Lemma path_dirname_opt_none (file : string) :
  has_char "/" file = false -> path_dirname_opt file = None.
Proof.
  induction file as [|c f IH]; simpl; [reflexivity|].
  intros H. apply orb_false_iff in H as [Hc Hf].
  now rewrite (IH Hf), Hc.
Qed.

Lemma path_dirname_join (directory file : string) :
  directory <> EmptyString -> has_char "/" file = false ->
  path_dirname (path_join directory file) = directory.
Proof.
  intros Hd Hf. unfold path_dirname, path_join, path_sep.
  assert (H : path_dirname_opt (directory ++ "/" ++ file) = Some directory).
  { clear Hd. induction directory as [|c d IH]; simpl.
    - now rewrite path_dirname_opt_none.
    - simpl in IH. now rewrite IH. }
  rewrite H. destruct directory; [congruence | reflexivity].
Qed.


(** ** Facts on the file tree *)

Lemma node_induction (P : node -> Prop) :
  (forall content, P (File content)) ->
  (forall files, Forall (fun e => P (snd e)) files -> P (Dir files)) ->
  forall n, P n.
Proof.
  intros HF HD. fix IH 1. intros [content | files].
  - apply HF.
  - apply HD. induction files as [|[f n] rest IHrest]; constructor.
    + apply IH.
    + exact IHrest.
Qed.

Lemma find_app {A : Type} (f : A -> bool) (l1 l2 : list A) :
  find f (l1 ++ l2)%list
  = match find f l1 with Some x => Some x | None => find f l2 end.
Proof.
  induction l1 as [|x l1 IH]; simpl; [reflexivity|].
  now destruct (f x).
Qed.

Lemma walk_node_Dir (fullPath directory file : string) (files : list (string * node)) :
  walk_node fullPath directory file (Dir files) = walk fullPath files.
Proof. induction files as [|[f n] rest IH]; simpl; [reflexivity | now rewrite <- IH]. Qed.

Lemma list_node_Dir (fullPath : string) (files : list (string * node)) :
  list_node fullPath (Dir files) = list_files fullPath files.
Proof. induction files as [|[f n] rest IH]; simpl; [reflexivity | now rewrite <- IH]. Qed.

Lemma find_node_Dir (fileName fullPath file : string) (files : list (string * node)) :
  find_node fileName fullPath file (Dir files) = find_files fileName fullPath files.
Proof. induction files as [|[f n] rest IH]; simpl; [reflexivity | now rewrite <- IH]. Qed.

(** [scanEntireDirectory] lists the files of the walk, in its order. *)
Lemma list_node_walk (n : node) :
  forall directory file,
    list_node (path_join directory file) n
    = map joined (walk_node (path_join directory file) directory file n).
Proof.
  induction n as [content | files IH] using node_induction; intros directory file.
  - reflexivity.
  - rewrite list_node_Dir, walk_node_Dir.
    induction files as [|[f n] rest IHrest]; [reflexivity|].
    inversion IH as [|? ? Hn Hrest]; subst. simpl in *.
    now rewrite map_app, Hn, IHrest.
Qed.

Lemma list_files_walk (directory : string) (files : list (string * node)) :
  list_files directory files = map joined (walk directory files).
Proof.
  induction files as [|[f n] rest IH]; [reflexivity|].
  simpl. now rewrite map_app, list_node_walk, IH.
Qed.

(** [findFileRecursively] returns the first file of the walk that bears the
    name, whatever the case of its letters. *)
Lemma find_node_walk (fileName : string) (n : node) :
  forall directory file,
    find_node fileName (path_join directory file) file n
    = option_map joined
        (find (named fileName)
           (walk_node (path_join directory file) directory file n)).
Proof.
  induction n as [content | files IH] using node_induction; intros directory file.
  - simpl. unfold named. simpl. now destruct (toLowerCase file =? toLowerCase fileName).
  - rewrite find_node_Dir, walk_node_Dir.
    induction files as [|[f n] rest IHrest]; [reflexivity|].
    inversion IH as [|? ? Hn Hrest]; subst. simpl in *.
    rewrite Hn, find_app.
    destruct (find (named fileName) (walk_node _ _ f n)); simpl; [reflexivity|].
    now apply IHrest.
Qed.

Lemma find_files_walk (fileName directory : string) (files : list (string * node)) :
  find_files fileName directory files
  = option_map joined (find (named fileName) (walk directory files)).
Proof.
  induction files as [|[f n] rest IH]; [reflexivity|].
  simpl. rewrite find_node_walk, find_app.
  destruct (find (named fileName) (walk_node _ _ f n)); simpl; [reflexivity|].
  exact IH.
Qed.

(** In the walk of a valid tree below a path that is not empty, files
    have valid names and stand in directories whose path is not empty. *)
Lemma walk_node_valid (n : node) :
  forall fullPath directory file d f,
    valid_node n = true -> valid_name file = true -> directory <> EmptyString ->
    fullPath <> EmptyString ->
    In (d, f) (walk_node fullPath directory file n) ->
    valid_name f = true /\ d <> EmptyString.
Proof.
  induction n as [content | files IH] using node_induction;
    intros fullPath directory file d f Hv Hfile Hdir Hfull Hin.
  - simpl in Hin. destruct Hin as [Heq | []]. injection Heq as <- <-. now split.
  - rewrite walk_node_Dir in Hin.
    induction files as [|[f' n'] rest IHrest]; [contradiction|].
    inversion IH as [|? ? Hn Hrest]; subst.
    simpl in Hv. apply andb_true_iff in Hv as [Hv Hvrest].
    apply andb_true_iff in Hv as [Hname Hvn].
    simpl in Hin. apply in_app_or in Hin as [Hin | Hin].
    + simpl in Hn. apply (Hn _ _ _ _ _ Hvn Hname Hfull) in Hin; [exact Hin|].
      unfold path_join. destruct fullPath; [congruence | discriminate].
    + apply IHrest; assumption.
Qed.

Lemma walk_valid (directory : string) (files : list (string * node)) (d f : string) :
  valid_node (Dir files) = true -> directory <> EmptyString ->
  In (d, f) (walk directory files) ->
  valid_name f = true /\ d <> EmptyString.
Proof.
  intros Hv Hd Hin. rewrite <- (walk_node_Dir directory "x" "x") in Hin.
  apply (walk_node_valid _ _ _ _ _ _ Hv) in Hin;
    [exact Hin | reflexivity | discriminate | exact Hd].
Qed.

Lemma lookup_list_files (directory name content : string) (files : list (string * node)) :
  lookup name files = Some (File content) ->
  In (path_join directory name) (list_files directory files).
Proof.
  induction files as [|[f n] rest IH]; simpl; [discriminate|].
  intros H. apply in_or_app. destruct (String.eqb_spec f name) as [-> | Hne].
  - injection H as ->. left. simpl. now left.
  - right. now apply IH.
Qed.

Lemma lookup_assign {A : Type} (k : string) (a : A) (l : list (string * A)) :
  lookup k (assign k a l) = Some a.
Proof.
  induction l as [|[k' a'] rest IH]; simpl.
  - now rewrite String.eqb_refl.
  - destruct (String.eqb_spec k' k) as [-> | Hne]; simpl.
    + now rewrite String.eqb_refl.
    + apply String.eqb_neq in Hne. now rewrite Hne.
Qed.

Lemma lookup_assign_other {A : Type} (k k' : string) (a : A) (l : list (string * A)) :
  k' <> k -> lookup k' (assign k a l) = lookup k' l.
Proof.
  intros Hne. induction l as [|[x a'] rest IH]; simpl.
  - destruct (String.eqb_spec k k'); [congruence | reflexivity].
  - destruct (String.eqb_spec x k) as [-> | Hx]; simpl.
    + destruct (String.eqb_spec k k'); [congruence | reflexivity].
    + now rewrite IH.
Qed.

Lemma assign_assign {A : Type} (k : string) (a b : A) (l : list (string * A)) :
  assign k b (assign k a l) = assign k b l.
Proof.
  induction l as [|[k' a'] rest IH]; simpl.
  - now rewrite String.eqb_refl.
  - destruct (String.eqb_spec k' k) as [-> | Hne]; simpl.
    + now rewrite String.eqb_refl.
    + apply String.eqb_neq in Hne. now rewrite Hne, IH.
Qed.

(** ** Footprints *)

Lemma changes_refl kp kc allowed w : changes kp kc allowed w w.
Proof.
  repeat split; try reflexivity. exists []. now rewrite app_nil_r.
Qed.

Lemma changes_trans kp kc allowed a b c :
  changes kp kc allowed a b -> changes kp kc allowed b c ->
  changes kp kc allowed a c.
Proof.
  intros [P1 [C1 [e1 [E1 A1]]]] [P2 [C2 [e2 [E2 A2]]]]. repeat split.
  - intros H. now rewrite P2, P1.
  - intros H. now rewrite C2, C1.
  - exists (e1 ++ e2)%list. split.
    + now rewrite E2, E1, app_assoc.
    + now rewrite forallb_app, A1, A2.
Qed.

Lemma changes_weaken (kp kc kp' kc' : bool) (allowed allowed' : event -> bool) w w' :
  (kp' = true -> kp = true) -> (kc' = true -> kc = true) ->
  (forall e, allowed e = true -> allowed' e = true) ->
  changes kp kc allowed w w' -> changes kp' kc' allowed' w w'.
Proof.
  intros Hp Hc Ha [P [C [evs [E A]]]]. repeat split; auto.
  exists evs. split; [exact E|].
  rewrite forallb_forall in *. auto.
Qed.

Lemma changes_event kp kc allowed w e :
  allowed e = true -> changes kp kc allowed w (with_events w [e]).
Proof.
  intros H. repeat split. exists [e]. simpl. now rewrite H.
Qed.

Section Respects.

Variables (kp kc : bool) (allowed : event -> bool).

Lemma respects_pure {A : Type} (m : M A) :
  (forall w, snd (m w) = w) -> respects (changes kp kc allowed) m.
Proof. intros H w. rewrite H. apply changes_refl. Qed.

Lemma respects_ret {A : Type} (a : A) : respects (changes kp kc allowed) (ret a).
Proof. now apply respects_pure. Qed.

Lemma respects_throw {A : Type} (e : error) : respects (changes kp kc allowed) (@throw A e).
Proof. now apply respects_pure. Qed.

Lemma respects_lift {A : Type} (r : result A) : respects (changes kp kc allowed) (lift r).
Proof. now apply respects_pure. Qed.

Lemma respects_bind {A B : Type} (m : M A) (k : A -> M B) :
  respects (changes kp kc allowed) m -> (forall a, respects (changes kp kc allowed) (k a)) -> respects (changes kp kc allowed) (bind m k).
Proof.
  intros Hm Hk w. unfold bind. specialize (Hm w).
  destruct (m w) as [[a | e] w1]; simpl in *; [|exact Hm].
  eapply changes_trans; [exact Hm | apply Hk].
Qed.

Lemma respects_try_catch {A : Type} (m : M A) (handler : error -> M A) :
  respects (changes kp kc allowed) m -> (forall e, respects (changes kp kc allowed) (handler e)) ->
  respects (changes kp kc allowed) (try_catch m handler).
Proof.
  intros Hm Hh w. unfold try_catch. specialize (Hm w).
  destruct (m w) as [[a | e] w1]; simpl in *; [exact Hm|].
  eapply changes_trans; [exact Hm | apply Hh].
Qed.

Lemma respects_emit (e : event) : allowed e = true -> respects (changes kp kc allowed) (emit e).
Proof. intros H w. now apply changes_event. Qed.

Lemma respects_run (E : env) (command : string) :
  allowed (Ran command) = true -> respects (changes kp kc allowed) (run E command).
Proof. intros H w. now apply changes_event. Qed.

Lemma respects_spawn (command : string) :
  allowed (Ran command) = true -> respects (changes kp kc allowed) (spawn command).
Proof. intros H w. now apply changes_event. Qed.

Lemma respects_sleep (ms : Z) :
  allowed (Slept ms) = true -> respects (changes kp kc allowed) (sleep ms).
Proof.
  intros H w. repeat split. exists [Slept ms]. simpl. now rewrite H.
Qed.

Lemma respects_writeFile_in_cwd (E : env) (name content : string) :
  kc = false -> allowed (Wrote (path_join (cwd E) name) content) = true ->
  respects (changes kp kc allowed) (writeFile_in_cwd E name content).
Proof.
  intros Hc H w. unfold writeFile_in_cwd.
  destruct (includes name path_sep); [apply changes_refl|].
  repeat split.
  - intros Hk. congruence.
  - exists [Wrote (path_join (cwd E) name) content]. simpl. now rewrite H.
Qed.

Lemma respects_writeFile_at_root (projectPath name content : string) :
  kp = false -> allowed (Wrote (path_join projectPath name) content) = true ->
  respects (changes kp kc allowed) (writeFile_at_root projectPath name content).
Proof.
  intros Hp H w. unfold writeFile_at_root.
  destruct (project w) as [[c | files]|]; try apply changes_refl.
  destruct (lookup name files) as [[c | sub]|]; try apply changes_refl;
    (repeat split; [intros Hk; congruence |];
     exists [Wrote (path_join projectPath name) content]; simpl; now rewrite H).
Qed.

End Respects.

Lemma respects_weaken {A : Type} (kp kc kp' kc' : bool)
  (allowed allowed' : event -> bool) (m : M A) :
  (kp' = true -> kp = true) -> (kc' = true -> kc = true) ->
  (forall e, allowed e = true -> allowed' e = true) ->
  respects (changes kp kc allowed) m -> respects (changes kp' kc' allowed') m.
Proof. intros Hp Hc Ha H w. eapply changes_weaken; eauto. Qed.

(** The footprint of a computation follows its text. *)
Ltac allowed_event :=
  solve [ reflexivity
        | match goal with
          | H : forall e, _ = true -> ?allowed e = true |- ?allowed _ = true =>
              apply H; reflexivity
          end ].

Ltac pure_step :=
  apply respects_pure; intros ?w;
  repeat match goal with
         | |- context [match ?x with _ => _ end] => destruct x
         end;
  reflexivity.

Ltac footprint_step :=
  lazymatch goal with
  | |- respects _ (bind _ _) => apply respects_bind; [|intros ?]
  | |- respects _ (try_catch _ _) => apply respects_try_catch; [|intros ?]
  | |- respects _ (ret _) => apply respects_ret
  | |- respects _ (throw _) => apply respects_throw
  | |- respects _ (lift _) => apply respects_lift
  | |- respects _ (log _) => apply respects_emit; allowed_event
  | |- respects _ (console _) => apply respects_emit; allowed_event
  | |- respects _ (spinner _ _) => apply respects_emit; allowed_event
  | |- respects _ (emit _) => apply respects_emit; allowed_event
  | |- respects _ (run _ _) => apply respects_run; allowed_event
  | |- respects _ (spawn _) => apply respects_spawn; allowed_event
  | |- respects _ (sleep _) => apply respects_sleep; allowed_event
  | |- respects _ Date_now => apply respects_pure; reflexivity
  | |- respects _ (pathExists _ _ _) => apply respects_pure; reflexivity
  | |- respects _ (pathExists_at_root _) =>
      unfold pathExists_at_root; pure_step
  | |- respects _ (readFile_at_root _ _) => unfold readFile_at_root; pure_step
  | |- respects _ (stat _) => unfold stat; pure_step
  | |- respects _ (findFileRecursively _ _) =>
      unfold findFileRecursively; pure_step
  | |- respects _ (readTemplate _ _) =>
      unfold readTemplate; pure_step
  | |- respects _ (if ?b then _ else _) => destruct b
  | |- respects _ (match ?x with _ => _ end) => destruct x
  end.

Ltac footprint := repeat footprint_step.

Section Footprints.

Variable E : env.
Variables (kp kc : bool) (allowed : event -> bool).

Hypothesis no_write_allowed : forall e, no_write e = true -> allowed e = true.

Lemma respects_scanEntireDirectory (directory : string) :
  respects (changes kp kc allowed) (scanEntireDirectory directory).
Proof.
  unfold scanEntireDirectory. destruct (directory =? EmptyString); [footprint|].
  pure_step.
Qed.

Lemma respects_scanYAMLFiles (directory : string) :
  respects (changes kp kc allowed) (scanYAMLFiles directory).
Proof.
  unfold scanYAMLFiles. footprint. apply respects_scanEntireDirectory.
Qed.

Lemma respects_buildDockerImage (projectPath projectName imageTag : string) :
  respects (changes kp kc allowed) (buildDockerImage E projectPath projectName imageTag).
Proof. unfold buildDockerImage. footprint. Qed.

Lemma respects_applyYAML (kind Kind projectPath file : string) :
  respects (changes kp kc allowed) (applyYAML E kind Kind projectPath file).
Proof. unfold applyYAML. footprint. Qed.

Lemma respects_applyAll (kind Kind projectPath : string) (files : list string) :
  respects (changes kp kc allowed) (applyAll E kind Kind projectPath files).
Proof.
  induction files as [|file rest IH]; simpl; footprint.
  - apply respects_applyYAML.
  - exact IH.
Qed.

Lemma respects_poll (fuel : nat) (namespace : string) (timeout startTime : Z) :
  respects (changes kp kc allowed) (poll E fuel namespace timeout startTime).
Proof.
  induction fuel as [|fuel IH]; simpl; footprint. exact IH.
Qed.

Lemma respects_waitForPodsReady (namespace : string) (timeout : Z) :
  respects (changes kp kc allowed) (waitForPodsReady E namespace timeout).
Proof. unfold waitForPodsReady. footprint. apply respects_poll. Qed.

Lemma respects_reportPods (lines : list string) :
  respects (changes kp kc allowed) (reportPods lines).
Proof.
  induction lines as [|line rest IH]; simpl; footprint; exact IH.
Qed.

Lemma respects_reportStatus (projectName : string) :
  respects (changes kp kc allowed) (reportStatus E projectName).
Proof.
  unfold reportStatus. footprint; apply respects_reportPods.
Qed.

Lemma respects_update_containers (newImage : string) (containers : list value) :
  respects (changes kp kc allowed) (update_containers newImage containers).
Proof.
  induction containers as [|c rest IH]; simpl; footprint. exact IH.
Qed.

Lemma respects_classify (allFiles : list string) (flags : bool * bool) :
  respects (changes kp kc allowed) (classify allFiles flags).
Proof.
  revert flags. induction allFiles as [|file rest IH]; intros [d p]; simpl;
    footprint; apply IH.
Qed.

Lemma respects_analyzeNodeProject (projectPath : string) :
  respects (changes kp kc allowed) (analyzeNodeProject E projectPath).
Proof. unfold analyzeNodeProject. footprint. Qed.

Lemma respects_deployDocker (projectPath projectName imageTag : string)
  (remote user password : option string) :
  respects (changes kp kc allowed) (deployDocker projectPath projectName imageTag remote user password).
Proof. unfold deployDocker. footprint. Qed.

End Footprints.

(** ** Running the script on a symbolic world *)

Lemma with_events_nil (w : world) : with_events w [] = w.
Proof. destruct w. unfold with_events. simpl. now rewrite app_nil_r. Qed.

Lemma with_events_app (w : world) (l1 l2 : list event) :
  with_events (with_events w l1) l2 = with_events w (l1 ++ l2).
Proof. unfold with_events. simpl. now rewrite app_assoc. Qed.

Lemma since_with_events (w : world) (evs : list event) :
  since w (with_events w evs) = evs.
Proof.
  unfold since, with_events. simpl.
  rewrite skipn_app, skipn_all, Nat.sub_diag. reflexivity.
Qed.

Lemma issued_with_events (w : world) (evs : list event) :
  issued (with_events w evs) = issued w + List.length (filter is_Ran evs).
Proof. unfold issued, with_events. simpl. now rewrite filter_app, length_app. Qed.

Lemma resolve_with_events (projectPath : string) (w : world) (evs : list event) :
  resolve projectPath (with_events w evs) = resolve projectPath w.
Proof. reflexivity. Qed.

Lemma emit_run (e : event) (w : world) : emit e w = (Ok tt, with_events w [e]).
Proof. reflexivity. Qed.

Lemma log_run (m : string) (w : world) : log m w = (Ok tt, with_events w [Logged m]).
Proof. reflexivity. Qed.

Lemma spinner_run k (m : string) (w : world) :
  spinner k m w = (Ok tt, with_events w [Spinner k m]).
Proof. reflexivity. Qed.

Lemma console_run (m : string) (w : world) :
  console m w = (Ok tt, with_events w [Console m]).
Proof. reflexivity. Qed.

Lemma run_run (E : env) (c : string) (w : world) :
  run E c w = (Ok (exec E (issued w) c), with_events w [Ran c]).
Proof. reflexivity. Qed.

Lemma spawn_run (c : string) (w : world) :
  spawn c w = (Ok (issued w), with_events w [Ran c]).
Proof. reflexivity. Qed.

Lemma ret_run {A : Type} (a : A) (w : world) : ret a w = (Ok a, w).
Proof. reflexivity. Qed.

Lemma lift_run {A : Type} (a : A) (w : world) : lift (Ok a) w = (Ok a, w).
Proof. reflexivity. Qed.

Lemma bind_run {A B : Type} (m : M A) (k : A -> M B) (w w1 : world) (a : A) :
  m w = (Ok a, w1) -> bind m k w = k a w1.
Proof. intros H. unfold bind. now rewrite H. Qed.

Lemma bind_throw {A B : Type} (m : M A) (k : A -> M B) (w w1 : world) (e : error) :
  m w = (Throw e, w1) -> bind m k w = (Throw e, w1).
Proof. intros H. unfold bind. now rewrite H. Qed.

Lemma try_catch_ok {A : Type} (m : M A) (h : error -> M A) (w w1 : world) (a : A) :
  m w = (Ok a, w1) -> try_catch m h w = (Ok a, w1).
Proof. intros H. unfold try_catch. now rewrite H. Qed.

Lemma try_catch_throw {A : Type} (m : M A) (h : error -> M A) (w w1 : world)
  (e : error) :
  m w = (Throw e, w1) -> try_catch m h w = h e w1.
Proof. intros H. unfold try_catch. now rewrite H. Qed.

Lemma throw_run {A : Type} (e : error) (w : world) : @throw A e w = (Throw e, w).
Proof. reflexivity. Qed.

Lemma bind_bind {A B C : Type} (m : M A) (k : A -> M B) (k' : B -> M C) (w : world) :
  bind (bind m k) k' w = bind m (fun a => bind (k a) k') w.
Proof. unfold bind. now destruct (m w) as [[a | e] w1]. Qed.

(** One step of a run: the first action of a sequence is carried out. *)
Ltac run_step :=
  first
    [ rewrite (bind_run _ _ _ _ _ (emit_run _ _))
    | rewrite (bind_run _ _ _ _ _ (log_run _ _))
    | rewrite (bind_run _ _ _ _ _ (spinner_run _ _ _))
    | rewrite (bind_run _ _ _ _ _ (console_run _ _))
    | rewrite (bind_run _ _ _ _ _ (run_run _ _ _))
    | rewrite (bind_run _ _ _ _ _ (spawn_run _ _))
    | rewrite (bind_run _ _ _ _ _ (ret_run _ _))
    | rewrite (bind_run _ _ _ _ _ (lift_run _ _))
    | rewrite (bind_throw _ _ _ _ _ (throw_run _ _))
    | rewrite log_run | rewrite spinner_run | rewrite console_run
    | rewrite with_events_app; cbn [List.app]
    | rewrite bind_bind ].

Ltac run_steps := repeat run_step.

Ltac same_world :=
  try reflexivity;
  unfold with_events; cbn [events project cwd_files clock List.app];
  rewrite <- ?app_assoc; cbn [List.app]; reflexivity.

(** The loop of [scanProject] only reports; it finds a manifest where a
    path that is no build file ends in [package.json]. *)
Lemma classify_run (allFiles : list string) :
  forall (flags : bool * bool) (w : world),
  exists found,
    classify allFiles flags w
    = (Ok (fst flags
             || existsb (fun file => endsWith (toLowerCase file) "dockerfile") allFiles,
           snd flags
             || existsb (fun file => negb (endsWith (toLowerCase file) "dockerfile")
                                     && endsWith file "package.json") allFiles),
       with_events w found)
    /\ forallb report_only found = true.
Proof.
  induction allFiles as [|file rest IH]; intros [d p] w.
  - exists []. simpl. rewrite !orb_false_r, with_events_nil. now split.
  - cbn [classify existsb fst snd].
    destruct (endsWith (toLowerCase file) "dockerfile") eqn:Hd.
    + run_steps. destruct (IH (true, p) (with_events w
        [Console ("Found Dockerfile: " ++ file); Logged ("Found Dockerfile: " ++ file)]))
        as [found [Hrun Hrep]].
      rewrite Hrun, with_events_app. cbn [fst snd negb andb orb].
      eexists. split; [now destruct d | exact Hrep].
    + destruct (endsWith file "package.json") eqn:Hp.
      * run_steps. destruct (IH (d, true) (with_events w
          [Console ("Found package.json: " ++ file); Logged ("Found package.json: " ++ file)]))
          as [found [Hrun Hrep]].
        rewrite Hrun, with_events_app. cbn [fst snd negb andb orb].
        eexists. split; [now destruct p | exact Hrep].
      * run_steps. destruct (IH (d, p) (with_events w
          [Console ("Found file: " ++ file); Logged ("Found file: " ++ file)]))
          as [found [Hrun Hrep]].
        rewrite Hrun, with_events_app. cbn [fst snd negb andb orb].
        eexists. split; [reflexivity | exact Hrep].
Qed.

(** C3, as amended: when the path given to [scanProject] exists and is
    not a directory, the scan reports it (the spinner fails with
    [Error: <path> is not a directory], and the log says so) and returns
    normally: nothing is raised, nothing is scanned, written or built. *)
Theorem scanProject_not_a_directory (E : env)
  (projectPath projectName imageTag content : string) (w : world) :
  resolve projectPath w = Some (File content) ->
  scanProject E projectPath projectName imageTag w
  = (Ok tt,
     with_events w
       [Logged ("Received projectName: " ++ projectName ++ ", imageTag: " ++ imageTag);
        Spinner Start "Starting the project scan...";
        Logged ("Scanning directory: " ++ projectPath);
        Spinner Failure ("Error: " ++ projectPath ++ " is not a directory");
        Logged ("Provided path is not a directory: " ++ projectPath)]).
Proof.
  intros Hres. unfold scanProject. run_steps.
  unfold try_catch. run_steps.
  unfold bind at 1, stat. rewrite resolve_with_events, Hres.
  cbn [isDirectory negb]. run_steps. reflexivity.
Qed.

Lemma scanEntireDirectory_run (projectPath : string) (w : world)
  (files : list (string * node)) :
  resolve projectPath w = Some (Dir files) ->
  scanEntireDirectory projectPath w = (Ok (list_files projectPath files), w).
Proof.
  unfold resolve, scanEntireDirectory.
  destruct (projectPath =? EmptyString); [discriminate|]. now intros ->.
Qed.

Lemma no_manifest_in_walk (projectPath : string) (files : list (string * node)) :
  (forall d f, In (d, f) (walk projectPath files) ->
               endsWith f "package.json" = false) ->
  existsb (fun file => negb (endsWith (toLowerCase file) "dockerfile")
                       && endsWith file "package.json")
    (list_files projectPath files) = false.
Proof.
  intros H. rewrite list_files_walk.
  destruct (existsb _ _) eqn:Hex; [|reflexivity].
  apply existsb_exists in Hex as [file [Hin Htest]].
  apply in_map_iff in Hin as [[d f] [<- Hin]].
  apply andb_true_iff in Htest as [_ Htest].
  unfold joined in Htest. simpl in Htest.
  rewrite endsWith_join in Htest by reflexivity.
  rewrite (H d f Hin) in Htest. discriminate.
Qed.

(** C6: in a directory where no file has a name that ends in
    [package.json] (letter case respected), [scanProject] takes the project
    type for unknown: it reports that it is unable to determine the type
    and completes without raising.  All it does besides is report the
    files found: no build file is written and no command is issued, so
    that the image build does not run. *)
Theorem scanProject_unknown_type (E : env)
  (projectPath projectName imageTag : string) (w : world)
  (files : list (string * node)) :
  resolve projectPath w = Some (Dir files) ->
  (forall d f, In (d, f) (walk projectPath files) ->
               endsWith f "package.json" = false) ->
  exists found,
    scanProject E projectPath projectName imageTag w
    = (Ok tt,
       with_events w
         ([Logged ("Received projectName: " ++ projectName
                   ++ ", imageTag: " ++ imageTag);
           Spinner Start "Starting the project scan...";
           Logged ("Scanning directory: " ++ projectPath)]
          ++ found
          ++ [Spinner Text ("Scanning project at " ++ projectPath ++ "...");
              Spinner Failure "Unable to determine the project type";
              Logged "Failed to determine project type. No known configuration files found.";
              Spinner Succeed "Project scan and Docker image creation completed."]))
    /\ forallb report_only found = true.
Proof.
  intros Hres Hnone.
  destruct (classify_run (list_files projectPath files) (false, false)
              (with_events w
                 [Logged ("Received projectName: " ++ projectName
                          ++ ", imageTag: " ++ imageTag);
                  Spinner Start "Starting the project scan...";
                  Logged ("Scanning directory: " ++ projectPath)]))
    as [found [Hrun Hrep]].
  exists found. split; [|exact Hrep].
  unfold scanProject. run_steps.
  apply try_catch_ok. run_steps.
  unfold bind at 1, stat. rewrite resolve_with_events, Hres.
  cbn [isDirectory negb].
  match goal with
  | |- bind _ _ ?w' = _ =>
      rewrite (bind_run _ _ _ _ _ (scanEntireDirectory_run projectPath w' files Hres))
  end.
  rewrite (bind_run _ _ _ _ _ Hrun).
  rewrite (no_manifest_in_walk _ _ Hnone). cbn [fst snd orb].
  run_steps. same_world.
Qed.

Lemma deployDocker_steps (projectPath projectName imageTag : string)
  (remote user password : option string) (w : world) :
  deployDocker projectPath projectName imageTag remote user password w
  = (Ok tt,
     with_events w
       [Logged ("Deploying with command: "
                ++ run_command projectName imageTag remote user);
        Ran (run_command projectName imageTag remote user)]).
Proof.
  unfold deployDocker. apply try_catch_ok. run_steps. reflexivity.
Qed.

(** C9: [deployDocker] returns success once it has issued its command,
    whatever the command answers.  When the command fails, the callback
    logs the failure and what it throws goes to the event loop, after the
    driver has returned: the outcome of the driver is not rejected. *)
Theorem deployDocker_fire_and_forget (E : env)
  (projectPath projectName imageTag : string)
  (remote user password : option string) (w : world) :
  let command := run_command projectName imageTag remote user in
  let r := exec E (issued w) command in
  let run :=
    deployDocker_run E projectPath projectName imageTag remote user password w in
  fst (deployDocker projectPath projectName imageTag remote user password w)
  = Ok tt
  /\ fst (fst run) = Ok tt
  /\ In (Ran command) (since w (snd run))
  /\ (failed r = true ->
      snd (fst run) = Throw (ExecError command (code r) (stderr r))
      /\ In (Logged ("Error deploying Docker image: " ++ stderr r))
           (since w (snd run))).
Proof.
  intros command r run. subst run. unfold deployDocker_run.
  rewrite deployDocker_steps. fold command. fold r. cbn [fst snd].
  split; [reflexivity|]. unfold deployDocker_callback.
  destruct (failed r) eqn:Hr; run_steps; cbn [throw fst snd];
    rewrite since_with_events.
  - split; [reflexivity|]. split; [simpl; auto|].
    intros _. split; [reflexivity | simpl; auto].
  - split; [reflexivity|]. split; [simpl; auto|]. discriminate.
Qed.

Lemma findFileRecursively_run (projectPath fileName : string) (w : world)
  (files : list (string * node)) :
  resolve projectPath w = Some (Dir files) ->
  findFileRecursively projectPath fileName w
  = (Ok (option_map joined (find (named fileName) (walk projectPath files))), w).
Proof.
  intros H. unfold findFileRecursively. now rewrite H, find_files_walk.
Qed.

Lemma resolve_not_empty (projectPath : string) (w : world) (n : node) :
  resolve projectPath w = Some n -> projectPath <> EmptyString.
Proof.
  unfold resolve. destruct (String.eqb_spec projectPath EmptyString); [discriminate|].
  now intros _.
Qed.

Lemma path_join_not_empty (directory file : string) :
  path_join directory file <> EmptyString.
Proof. unfold path_join. destruct directory; discriminate. Qed.

Lemma find_none_iff {A : Type} (f : A -> bool) (l : list A) :
  find f l = None <-> forall x, In x l -> f x = false.
Proof.
  split.
  - intros H x Hx. now apply (find_none f l H).
  - intros H. induction l as [|x l IH]; simpl; [reflexivity|].
    rewrite (H x (or_introl eq_refl)). apply IH. intros y Hy. apply H. now right.
Qed.

(** C2, as amended: [buildDockerImage] fails with [BuildFileNotFound]
    exactly when no file under the project tree has a name equal to
    [dockerfile] once its letters are lowered (a name that only ends in it
    does not count).  When there is such a file, the builder takes the
    first one of the depth-first walk and builds in the directory that
    holds it. *)
Theorem buildDockerImage_build_file (E : env)
  (projectPath projectName imageTag : string) (w : world)
  (files : list (string * node)) :
  resolve projectPath w = Some (Dir files) ->
  valid_node (Dir files) = true ->
  let built := buildDockerImage E projectPath projectName imageTag w in
  (fst built = Throw BuildFileNotFound
   <-> forall d f, In (d, f) (walk projectPath files) ->
                   toLowerCase f <> "dockerfile")
  /\ (forall d f,
        find (named "Dockerfile") (walk projectPath files) = Some (d, f) ->
        exists rest,
          since w (snd built)
          = ([Logged ("Starting Docker image build for project: " ++ projectName
                      ++ " with tag: " ++ imageTag);
              Logged ("Using Dockerfile located at: " ++ path_join d f);
              Logged ("Using build context: " ++ d);
              Ran ("docker build -t " ++ projectName ++ ":" ++ imageTag
                   ++ " " ++ d)] ++ rest)%list).
Proof.
  intros Hp Hvalid built. subst built. unfold buildDockerImage.
  assert (Hne := resolve_not_empty _ _ _ Hp).
  run_steps.
  match goal with
  | |- context [try_catch (bind (findFileRecursively _ _) ?k) ?h ?w'] =>
      set (K := k); set (H := h); set (W := w')
  end.
  assert (Hrun := findFileRecursively_run projectPath "Dockerfile" W files Hp).
  destruct (find (named "Dockerfile") (walk projectPath files)) as [[d f]|] eqn:Hfind.
  - (* a build file is found *)
    assert (Hin := find_some _ _ Hfind). destruct Hin as [Hin Hnamed].
    destruct (walk_valid _ _ _ _ Hvalid Hne Hin) as [Hf Hd].
    assert (Hctx : path_dirname (path_join d f) = d).
    { apply path_dirname_join; [exact Hd|].
      unfold valid_name in Hf. apply andb_true_iff in Hf as [_ Hf].
      apply negb_true_iff in Hf. unfold path_sep in Hf.
      now rewrite has_char_includes in Hf. }
    assert (Hbody :
      exists r rest,
        try_catch (bind (findFileRecursively projectPath "Dockerfile") K) H W
        = (r, with_events W
                ([Logged ("Using Dockerfile located at: " ++ path_join d f);
                  Logged ("Using build context: " ++ d);
                  Ran ("docker build -t " ++ projectName ++ ":" ++ imageTag
                       ++ " " ++ d)] ++ rest))
        /\ r <> Throw BuildFileNotFound).
    { unfold try_catch. rewrite (bind_run _ _ _ _ _ Hrun). subst K. cbn [option_map].
      change (joined (d, f)) with (path_join d f).
      destruct (path_join d f) as [|c p] eqn:Hj; [now apply path_join_not_empty in Hj|].
      rewrite Hctx. run_steps.
      destruct (code (exec E (issued _) _) =? 0)%Z.
      - run_steps. eexists _, _. split; [reflexivity | discriminate].
      - run_steps. cbn [throw]. subst H. cbv beta. run_steps. cbn [throw].
        eexists _, _. split; [reflexivity|]. unfold BuildFailed, BuildFileNotFound.
        simpl. discriminate. }
    destruct Hbody as [r [rest [Hbody Hr]]]. rewrite Hbody. cbn [fst snd]. split.
    + split; [intros Heq; contradiction|].
      intros Hall. specialize (Hall d f Hin). unfold named in Hnamed.
      simpl in Hnamed. apply String.eqb_eq in Hnamed. contradiction.
    + intros d' f' Heq. injection Heq as <- <-. exists rest.
      subst W. rewrite with_events_app, since_with_events. reflexivity.
  - (* no build file *)
    assert (Hbody :
      try_catch (bind (findFileRecursively projectPath "Dockerfile") K) H W
      = (Throw BuildFileNotFound,
         with_events W
           [Logged ("Failed to build Docker image for " ++ projectName ++ ":"
                    ++ imageTag ++ ": " ++ message BuildFileNotFound)])).
    { unfold try_catch. rewrite (bind_run _ _ _ _ _ Hrun). subst K H.
      cbn [option_map throw]. run_steps. reflexivity. }
    rewrite Hbody. cbn [fst snd]. split.
    + split; [|reflexivity]. intros _ d f Hin Hlow.
      apply (proj1 (find_none_iff _ _) Hfind) in Hin. unfold named in Hin.
      simpl in Hin. rewrite Hlow in Hin. discriminate.
    + intros d f Heq. discriminate.
Qed.

Lemma pathExists_at_root_run (name : string) (w : world)
  (files : list (string * node)) :
  project w = Some (Dir files) ->
  pathExists_at_root name w
  = (Ok (match lookup name files with Some _ => true | None => false end), w).
Proof. intros H. unfold pathExists_at_root. now rewrite H. Qed.

Lemma readFile_at_root_run (projectPath name content : string) (w : world)
  (files : list (string * node)) :
  project w = Some (Dir files) -> lookup name files = Some (File content) ->
  readFile_at_root projectPath name w = (Ok content, w).
Proof. intros H H'. unfold readFile_at_root. now rewrite H, H'. Qed.

Lemma writeFile_at_root_run (projectPath name content : string) (w : world)
  (files : list (string * node)) :
  project w = Some (Dir files) ->
  (forall sub, lookup name files <> Some (Dir sub)) ->
  writeFile_at_root projectPath name content w
  = (Ok tt,
     {| project := Some (Dir (assign name (File content) files));
        cwd_files := cwd_files w;
        events := (events w ++ [Wrote (path_join projectPath name) content])%list;
        clock := clock w |}).
Proof.
  intros H H'. unfold writeFile_at_root. rewrite H.
  destruct (lookup name files) as [[c | sub]|]; try reflexivity.
  now destruct (H' sub).
Qed.

(** The world [w] with the file [name] of the project root written. *)
Lemma analyzeNodeProject_run (E : env) (projectPath packageJson indexJs : string)
  (data : value) (w : world) (files : list (string * node)) :
  project w = Some (Dir files) ->
  lookup "package.json" files = Some (File packageJson) ->
  JSON_parse E packageJson = Some data ->
  lookup "index.js" files = Some (File indexJs) ->
  analyzeNodeProject E projectPath w = (Ok (data, indexJs), w).
Proof.
  intros Hp Hpkg Hparse Hidx. unfold analyzeNodeProject.
  rewrite (bind_run _ _ _ _ _ (pathExists_at_root_run _ _ _ Hp)), Hpkg.
  rewrite bind_bind.
  rewrite (bind_run _ _ _ _ _ (readFile_at_root_run _ _ _ _ _ Hp Hpkg)), Hparse.
  unfold bind at 1, ret at 1.
  rewrite (bind_run _ _ _ _ _ (pathExists_at_root_run _ _ _ Hp)), Hidx.
  rewrite (bind_run _ _ _ _ _ (readFile_at_root_run _ _ _ _ _ Hp Hidx)).
  reflexivity.
Qed.

(** C7, as amended: for a nodejs project without build file whose
    [package.json] gives express as a dependency with a value that
    JavaScript takes for true (a version that is not the empty string),
    and whose [index.js] holds [app.listen(8000)], the build file written
    is the nodejs template with [EXPOSE 3000] replaced by [EXPOSE 8000]
    and [CMD ["npm", "start"]] by [CMD ["node", "index.js"]], trimmed;
    the second substitution of the port leaves the text as the first one
    made it.  The template, which the project reads from its templates
    directory, declares the port [EXPOSE 3000] once at most. *)
Theorem generateDockerfile_express_8000 (E : env) (projectPath : string)
  (w : world) (files : list (string * node))
  (packageJson indexJs template : string) (data dependencies version : value) :
  project w = Some (Dir files) ->
  lookup "Dockerfile" files = None ->
  lookup "package.json" files = Some (File packageJson) ->
  JSON_parse E packageJson = Some data ->
  get (Some data) "dependencies" = Ok (Some dependencies) ->
  get (Some dependencies) "express" = Ok (Some version) ->
  truthy (Some version) = true ->
  lookup "index.js" files = Some (File indexJs) ->
  includes indexJs "app.listen(8000)" = true ->
  templates E "nodejs" = Some template ->
  occurrences "EXPOSE 3000" template <= 1 ->
  let substituted :=
    replace
      ("CMD [" ++ dquote ++ "npm" ++ dquote ++ ", " ++ dquote ++ "start"
       ++ dquote ++ "]")
      ("CMD [" ++ dquote ++ "node" ++ dquote ++ ", " ++ dquote ++ "index.js"
       ++ dquote ++ "]")
      (replace "EXPOSE 3000" "EXPOSE 8000" template) in
  let generated := generateDockerfile E "nodejs" projectPath w in
  fst generated = Ok (path_join projectPath "Dockerfile")
  /\ root_file "Dockerfile" (snd generated) = Some (trim substituted)
  /\ In (Wrote (path_join projectPath "Dockerfile") (trim substituted))
       (since w (snd generated))
  /\ replace "EXPOSE 3000" "EXPOSE 8000" substituted = substituted.
Proof.
  intros Hp Hnone Hpkg Hparse Hdeps Hexpress Hversion Hidx Hlisten Htemplate Hocc
    substituted generated.
  change "EXPOSE 3000" with EXPOSE_3000 in *.
  change "EXPOSE 8000" with EXPOSE_8000 in *.
  change (replace _ _ (replace EXPOSE_3000 EXPOSE_8000 template))
    with (replace CMD_npm_start CMD_node_index
            (replace EXPOSE_3000 EXPOSE_8000 template)) in substituted.
  assert (Hsame : replace EXPOSE_3000 EXPOSE_8000 substituted = substituted).
  { apply replace_absent. subst substituted.
    now apply no_port_after_command, no_port_after_first. }
  assert (Htruthy : truthy (Some dependencies) = true).
  { destruct dependencies; try discriminate; reflexivity. }
  subst generated. unfold generateDockerfile.
  rewrite (bind_run _ _ _ _ _ (pathExists_at_root_run _ _ _ Hp)), Hnone.
  run_steps.
  change ("nodejs" =? "nodejs") with true. cbv iota.
  match goal with
  | |- context [bind (try_catch ?m ?h) ?k ?w'] =>
      assert (Hbody : m w'
        = (Ok tt,
           with_events
             {| project := Some (Dir (assign "Dockerfile"
                                        (File (trim substituted)) files));
                cwd_files := cwd_files w;
                events := events w;
                clock := clock w |}
             [Logged "Generating Dockerfile for project type: nodejs";
              Logged "Analyzing Node.js project...";
              Logged ("Dependencies found: " ++ JSON_stringify E dependencies);
              Logged "Port 8000 detected in index.js.";
              Logged "Writing the customized Dockerfile...";
              Wrote (path_join projectPath "Dockerfile") (trim substituted);
              Logged ("Dockerfile generated at " ++ path_join projectPath "Dockerfile")]))
  end.
  { run_steps.
    match goal with
    | |- bind _ _ ?w' = _ =>
        rewrite (bind_run _ _ _ _ _
                   (analyzeNodeProject_run E projectPath _ _ _ w' files
                      Hp Hpkg Hparse Hidx))
    end.
    unfold readTemplate. rewrite Htemplate. run_steps.
    rewrite Hdeps. run_steps. rewrite Htruthy. run_steps.
    rewrite Hexpress. run_steps. rewrite Hversion. run_steps.
    rewrite Hlisten. run_steps. fold substituted. rewrite Hsame. run_steps.
    assert (Hfree : forall sub, lookup "Dockerfile" files <> Some (Dir sub))
      by (intros sub; rewrite Hnone; discriminate).
    match goal with
    | |- bind _ _ ?w' = _ =>
        rewrite (bind_run _ _ _ _ _
                   (writeFile_at_root_run projectPath "Dockerfile" _ w' files Hp Hfree))
    end.
    run_steps. unfold with_events. cbn [project cwd_files events clock].
    rewrite <- !app_assoc. reflexivity. }
  rewrite (bind_run _ _ _ _ _ (try_catch_ok _ _ _ _ _ Hbody)).
  cbn [ret fst snd]. split; [reflexivity|]. split.
  - unfold root_file. cbn [project with_events]. now rewrite lookup_assign.
  - split; [|exact Hsame]. unfold since, with_events.
    cbn [events]. rewrite skipn_app, skipn_all, Nat.sub_diag. simpl. auto 10.
Qed.

Lemma try_catch_bind_run {A B : Type} (m : M A) (k : A -> M B)
  (h : error -> M B) (w w1 : world) (a : A) :
  m w = (Ok a, w1) -> try_catch (bind m k) h w = try_catch (k a) h w1.
Proof. intros H. unfold try_catch. now rewrite (bind_run _ _ _ _ _ H). Qed.

Lemma changes_with_events kp kc allowed (w : world) (evs : list event) :
  forallb allowed evs = true -> changes kp kc allowed w (with_events w evs).
Proof. intros H. repeat split. now exists evs. Qed.

Lemma generateDockerfile_existing (E : env) (projectType projectPath : string)
  (w : world) (files : list (string * node)) (n : node) :
  project w = Some (Dir files) ->
  lookup "Dockerfile" files = Some n ->
  generateDockerfile E projectType projectPath w
  = (Ok (path_join projectPath "Dockerfile"),
     with_events w [Logged "Existing Dockerfile found, skipping generation."]).
Proof.
  intros Hp Hn. unfold generateDockerfile.
  rewrite (bind_run _ _ _ _ _ (pathExists_at_root_run _ _ _ Hp)), Hn.
  run_steps. reflexivity.
Qed.

Lemma build_file_in_walk (projectPath content : string)
  (files : list (string * node)) :
  lookup "Dockerfile" files = Some (File content) ->
  existsb (fun file => endsWith (toLowerCase file) "dockerfile")
    (list_files projectPath files) = true.
Proof.
  intros H. apply existsb_exists. exists (path_join projectPath "Dockerfile").
  split; [eapply lookup_list_files; eauto|].
  unfold path_join. rewrite <- append_assoc, toLowerCase_app.
  now apply endsWith_app.
Qed.

(** A scan that meets a build file writes nothing. *)
Lemma scanProject_with_build_file (E : env)
  (projectPath projectName imageTag : string) (w : world)
  (files : list (string * node)) :
  project w = Some (Dir files) ->
  existsb (fun file => endsWith (toLowerCase file) "dockerfile")
    (list_files projectPath files) = true ->
  changes true true no_write w
    (snd (scanProject E projectPath projectName imageTag w)).
Proof.
  intros Hp Hfound. unfold scanProject. run_steps.
  rewrite try_catch_bind_run with (1 := log_run _ _). run_steps.
  destruct (resolve projectPath w) as [n|] eqn:Hres.
  - assert (n = Dir files) as ->.
    { unfold resolve in Hres. destruct (projectPath =? EmptyString); congruence. }
    erewrite try_catch_bind_run
      by (unfold stat; rewrite resolve_with_events, Hres; reflexivity).
    cbn [isDirectory negb].
    match goal with
    | |- context [try_catch _ _ ?w'] =>
        rewrite try_catch_bind_run
          with (1 := scanEntireDirectory_run projectPath w' files Hres);
        destruct (classify_run (list_files projectPath files) (false, false) w')
          as [found [Hrun Hrep]]
    end.
    rewrite try_catch_bind_run with (1 := Hrun).
    rewrite Hfound. cbn [fst snd orb negb]. rewrite with_events_app.
    match goal with
    | |- changes _ _ _ _ (snd (?m (with_events w ?evs))) =>
        apply changes_trans with (b := with_events w evs);
        [ apply changes_with_events
        | assert (Hm : respects (changes true true no_write) m);
          [| apply Hm ] ]
    end.
    + rewrite forallb_app. simpl.
      apply forallb_forall. intros e He.
      rewrite forallb_forall in Hrep. specialize (Hrep e He).
      now destruct e.
    + footprint; apply respects_buildDockerImage; auto.
  - erewrite try_catch_throw
      by (unfold bind, stat; rewrite resolve_with_events, Hres; reflexivity).
    run_steps. cbn [throw snd]. now apply changes_with_events.
Qed.

(** C8: when the project root holds a build file, [generateDockerfile]
    returns its path and writes nothing; a scan of such a directory writes
    nothing either and leaves the content of the build file as it is, so
    that a second scan keeps the build file the first one found or
    wrote. *)
Theorem synthesis_idempotent (E : env)
  (projectType projectPath projectName imageTag : string) (w : world)
  (files : list (string * node)) (n : node) :
  project w = Some (Dir files) ->
  lookup "Dockerfile" files = Some n ->
  generateDockerfile E projectType projectPath w
  = (Ok (path_join projectPath "Dockerfile"),
     with_events w [Logged "Existing Dockerfile found, skipping generation."])
  /\ (forall content, n = File content ->
      let w' := snd (scanProject E projectPath projectName imageTag w) in
      changes true true no_write w w'
      /\ root_file "Dockerfile" w' = Some content)
  /\ (forall w0 content,
      let w1 := snd (scanProject E projectPath projectName imageTag w0) in
      let w2 := snd (scanProject E projectPath projectName imageTag w1) in
      root_file "Dockerfile" w1 = Some content ->
      project w2 = project w1 /\ root_file "Dockerfile" w2 = Some content).
Proof.
  intros Hp Hn. split; [exact (generateDockerfile_existing _ _ _ _ files n Hp Hn)|].
  assert (Hscan : forall v content,
    root_file "Dockerfile" v = Some content ->
    changes true true no_write v
      (snd (scanProject E projectPath projectName imageTag v))).
  { intros v content Hroot. unfold root_file in Hroot.
    destruct (project v) as [[c | fs]|] eqn:Hv; try discriminate.
    destruct (lookup "Dockerfile" fs) as [[c | sub]|] eqn:Hl; try discriminate.
    apply scanProject_with_build_file with (files := fs); [exact Hv|].
    now apply build_file_in_walk with (content := c). }
  split.
  - intros content -> w'. subst w'.
    assert (Hroot : root_file "Dockerfile" w = Some content)
      by (unfold root_file; now rewrite Hp, Hn).
    split; [now apply Hscan with (content := content)|].
    destruct (Hscan w content Hroot) as [Hproject _].
    unfold root_file in *. now rewrite (Hproject eq_refl).
  - intros w0 content w1 w2 Hroot.
    destruct (Hscan w1 content Hroot) as [Hproject _].
    split; [now apply Hproject|].
    unfold root_file in *. subst w2. now rewrite (Hproject eq_refl).
Qed.

(** ** The readiness poll *)

Lemma is_running_iff (podStatus : option string) :
  is_running podStatus = true <-> podStatus = Some "Running".
Proof.
  destruct podStatus as [s|]; simpl.
  - rewrite String.eqb_eq. split; congruence.
  - split; discriminate.
Qed.

(** The loop over the lines finds no pod that is not running exactly
    when the status column of every row reads [Running]. *)
Lemma first_not_running_none (lines : list string) :
  first_not_running lines = None
  <-> Forall (fun row => column 2 row = Some "Running")
        (filter (fun line => negb (trim line =? EmptyString)) lines).
Proof.
  induction lines as [|line rest IH]; simpl.
  - split; [constructor | reflexivity].
  - destruct (trim line =? EmptyString); simpl; [exact IH|].
    destruct (is_running (column 2 line)) eqn:Hr.
    + rewrite IH. apply is_running_iff in Hr. split.
      * intros H. now constructor.
      * intros H. now inversion H.
    + split; [discriminate|]. intros H. inversion H as [|? ? Hrow _].
      apply is_running_iff in Hrow. congruence.
Qed.

Lemma allPodsReady_iff (podsOutput : string) :
  allPodsReady podsOutput = true
  <-> Forall (fun row => column 2 row = Some "Running") (table_rows podsOutput).
Proof.
  unfold allPodsReady, table_rows. rewrite <- first_not_running_none.
  destruct (first_not_running _); split; congruence.
Qed.

Lemma allPodsReady_false_iff (podsOutput : string) :
  allPodsReady podsOutput = false
  <-> Exists (fun row => column 2 row <> Some "Running") (table_rows podsOutput).
Proof.
  rewrite <- not_true_iff_false, allPodsReady_iff. symmetry.
  apply Exists_Forall_neg. intros row.
  destruct (column 2 row) as [s|]; [|right; discriminate].
  destruct (String.string_dec s "Running") as [-> | Hne]; [now left|].
  right. congruence.
Qed.

Section Poll.

Variable E : env.
Variables (namespace : string) (timeout startTime : Z).

Lemma poll_late (fuel : nat) (w : world) :
  (clock w - startTime <? timeout * 1000)%Z = false ->
  fst (poll E (S fuel) namespace timeout startTime w) = Throw ReadinessTimeout.
Proof.
  intros H. cbn [poll]. unfold bind at 1, Date_now at 1. rewrite H.
  run_steps. reflexivity.
Qed.

Lemma poll_failed (fuel : nat) (w : world) :
  (clock w - startTime <? timeout * 1000)%Z = true ->
  failed (exec E (issued w) (poll_command namespace)) = true ->
  fst (poll E (S fuel) namespace timeout startTime w)
  = Throw (Error (stderr (exec E (issued w) (poll_command namespace)))).
Proof.
  intros H Hf. cbn [poll]. unfold bind at 1, Date_now at 1. rewrite H.
  erewrite bind_throw; [reflexivity|].
  erewrite try_catch_throw by (run_steps; rewrite Hf; run_steps; reflexivity).
  run_steps. reflexivity.
Qed.

Lemma poll_ready (fuel : nat) (w : world) :
  (clock w - startTime <? timeout * 1000)%Z = true ->
  failed (exec E (issued w) (poll_command namespace)) = false ->
  allPodsReady (stdout (exec E (issued w) (poll_command namespace))) = true ->
  fst (poll E (S fuel) namespace timeout startTime w) = Ok tt.
Proof.
  intros H Hf Hr. cbn [poll]. unfold bind at 1, Date_now at 1. rewrite H.
  unfold allPodsReady in Hr.
  destruct (first_not_running _) eqn:Hfirst; [discriminate|].
  erewrite bind_run.
  2:{ apply try_catch_ok. run_steps. rewrite Hf. run_steps. rewrite Hfirst.
      run_steps. reflexivity. }
  reflexivity.
Qed.

Lemma poll_again (fuel : nat) (w : world) :
  (clock w - startTime <? timeout * 1000)%Z = true ->
  failed (exec E (issued w) (poll_command namespace)) = false ->
  allPodsReady (stdout (exec E (issued w) (poll_command namespace))) = false ->
  exists w',
    poll E (S fuel) namespace timeout startTime w
    = poll E fuel namespace timeout startTime w'
    /\ issued w' = issued w + 1
    /\ clock w' = (clock w + 5000)%Z.
Proof.
  intros H Hf Hr. cbn [poll]. unfold bind at 1, Date_now at 1. rewrite H.
  unfold allPodsReady in Hr.
  destruct (first_not_running _) as [[podName podStatus]|] eqn:Hfirst;
    [|discriminate].
  erewrite bind_run.
  2:{ apply try_catch_ok. run_steps. rewrite Hf. run_steps. rewrite Hfirst.
      run_steps. reflexivity. }
  cbv iota. unfold bind at 1, sleep at 1.
  eexists. split; [reflexivity|]. split.
  - unfold issued. cbn [events with_events].
    rewrite !filter_app, !length_app. simpl. lia.
  - reflexivity.
Qed.

(** Turn [k] of the poll starts [5000 * k] milliseconds after the start;
    with fuel for the turns that are left, the poll ends as its samples
    say. *)
Lemma poll_outcome (fuel : nat) :
  forall (w : world) (k : nat),
    (clock w - startTime = 5000 * Z.of_nat k)%Z ->
    (timeout * 1000 <= 5000 * (Z.of_nat k + Z.of_nat fuel) - 5000)%Z ->
    (1 <= fuel)%nat ->
    let sample j := exec E (issued w + j) (poll_command namespace) in
    let result := fst (poll E fuel namespace timeout startTime w) in
    (result = Ok tt
     <-> exists j,
           (5000 * Z.of_nat (k + j) < timeout * 1000)%Z
           /\ failed (sample j) = false
           /\ allPodsReady (stdout (sample j)) = true
           /\ forall i, (i < j)%nat -> failed (sample i) = false)
    /\ ((forall j, (5000 * Z.of_nat (k + j) < timeout * 1000)%Z ->
                   failed (sample j) = false
                   /\ allPodsReady (stdout (sample j)) = false) ->
        result = Throw ReadinessTimeout)
    /\ result <> Throw Unfinished.
Proof.
  induction fuel as [|fuel IH]; intros w k Hclock Hfuel Hpos sample result;
    [lia|].
  subst result.
  destruct (clock w - startTime <? timeout * 1000)%Z eqn:Htime.
  - apply Z.ltb_lt in Htime as Hlt.
    assert (H0 : sample 0 = exec E (issued w) (poll_command namespace))
      by (unfold sample; now rewrite Nat.add_0_r).
    destruct (failed (sample 0)) eqn:Hf.
    + rewrite H0 in Hf. rewrite (poll_failed _ _ Htime Hf). split; [|split].
      * split; [discriminate|]. intros [j [_ [Hj [_ Hbefore]]]].
        destruct j as [|j].
        -- rewrite H0 in Hj. congruence.
        -- specialize (Hbefore 0%nat ltac:(lia)). rewrite H0 in Hbefore. congruence.
      * intros Hall. destruct (Hall 0%nat) as [Hx _].
        -- rewrite Nat.add_0_r. lia.
        -- rewrite H0 in Hx. congruence.
      * discriminate.
    + rewrite H0 in Hf.
      destruct (allPodsReady (stdout (sample 0))) eqn:Hr; rewrite H0 in Hr.
      * rewrite (poll_ready _ _ Htime Hf Hr). split; [|split].
        -- split; [|reflexivity]. intros _. exists 0%nat.
           rewrite H0. repeat split; auto; [rewrite Nat.add_0_r; lia | lia].
        -- intros Hall. destruct (Hall 0%nat) as [_ Hx].
           ++ rewrite Nat.add_0_r. lia.
           ++ rewrite H0 in Hx. congruence.
        -- discriminate.
      * destruct (poll_again fuel w Htime Hf Hr) as [w' [Hstep [Hissued Hclock']]].
        rewrite Hstep.
        assert (Hsample : forall j, exec E (issued w' + j) (poll_command namespace) = sample (S j)).
        { intros j. unfold sample. f_equal. lia. }
        destruct (IH w' (S k)) as [IHok [IHlate IHfin]]; [lia | lia | lia |].
        split; [|split].
        -- rewrite IHok. split.
           ++ intros [j [Hj [Hfj [Hrj Hbefore]]]]. exists (S j).
              rewrite Hsample in Hfj, Hrj.
              repeat split; auto; [lia|].
              intros [|i] Hi.
              ** now rewrite H0.
              ** rewrite <- Hsample. apply Hbefore. lia.
           ++ intros [[|j] [Hj [Hfj [Hrj Hbefore]]]].
              ** rewrite H0 in Hrj. congruence.
              ** exists j. rewrite !Hsample. repeat split; auto; [lia|].
                 intros i Hi. rewrite Hsample. apply Hbefore. lia.
        -- intros Hall. apply IHlate. intros j Hj. rewrite Hsample.
           apply Hall. lia.
        -- exact IHfin.
  - apply Z.ltb_ge in Htime as Hge.
    rewrite (poll_late _ _ Htime). split; [|split].
    + split; [discriminate|]. intros [j [Hj _]]. lia.
    + reflexivity.
    + discriminate.
Qed.

End Poll.

(** C4: with a sample of the pods taken every five seconds from the
    start, [waitForPodsReady] returns success exactly when some sample
    taken before [timeout] seconds have passed, and reached without a
    failed query, has the status column of every row equal to [Running];
    it fails with [ReadinessTimeout] when every sample taken in time has
    a row whose status is not [Running].  The poll always ends. *)
Theorem waitForPodsReady_outcome (E : env) (namespace : string)
  (timeout : Z) (w : world) :
  let sample k := exec E (issued w + k) (poll_command namespace) in
  let in_time k := (5000 * Z.of_nat k < timeout * 1000)%Z in
  let running row := column 2 row = Some "Running" in
  let result := fst (waitForPodsReady E namespace timeout w) in
  (result = Ok tt
   <-> exists k,
         in_time k
         /\ failed (sample k) = false
         /\ Forall running (table_rows (stdout (sample k)))
         /\ forall j, (j < k)%nat -> failed (sample j) = false)
  /\ ((forall k, in_time k ->
         failed (sample k) = false
         /\ Exists (fun row => ~ running row) (table_rows (stdout (sample k)))) ->
      result = Throw ReadinessTimeout)
  /\ result <> Throw Unfinished.
Proof.
  intros sample in_time running result. subst result.
  unfold waitForPodsReady. run_steps.
  unfold bind at 1, Date_now at 1. cbn [clock with_events].
  set (w' := with_events w [Spinner Start "Waiting for pods to become ready..."]).
  assert (Hissued : issued w' = issued w).
  { unfold w'. rewrite issued_with_events. simpl. lia. }
  destruct (poll_outcome E namespace timeout (clock w) (poll_fuel timeout) w' 0)
    as [Hok [Hlate Hfin]].
  - simpl. lia.
  - unfold poll_fuel. rewrite Nat2Z.inj_add.
    pose proof (Z.div_mod (timeout * 1000) 5000 ltac:(lia)) as Hdiv.
    pose proof (Z.mod_pos_bound (timeout * 1000) 5000 ltac:(lia)) as Hmod.
    lia.
  - unfold poll_fuel. lia.
  - rewrite Hissued in *. fold sample in Hok, Hlate. split; [|split].
    + rewrite Hok. split; intros [k [Hk [Hf [Hr Hbefore]]]]; exists k;
        (repeat split; [exact Hk | exact Hf | | exact Hbefore]).
      * now apply allPodsReady_iff.
      * now apply allPodsReady_iff.
    + intros Hall. apply Hlate. intros j Hj. destruct (Hall j Hj) as [Hf Hex].
      split; [exact Hf|]. now apply allPodsReady_false_iff.
    + exact Hfin.
Qed.

(** ** The orchestrator driver *)

Lemma since_events (w w' : world) (evs : list event) :
  events w' = (events w ++ evs)%list -> since w w' = evs.
Proof.
  intros H. unfold since. rewrite H, skipn_app, skipn_all, Nat.sub_diag.
  reflexivity.
Qed.

Lemma trimStart_length (s : string) :
  String.length (trimStart s) <= String.length s.
Proof.
  induction s as [|x s IH]; simpl; [lia|].
  destruct (is_space x); simpl; lia.
Qed.

Lemma trimStart_app (text s : string) :
  trimStart text = text -> text <> EmptyString -> trimStart (text ++ s) = text ++ s.
Proof.
  intros Hs Hne. destruct text as [|c t]; [congruence|].
  simpl in *. destruct (is_space c); [|reflexivity].
  pose proof (trimStart_length t) as Hlen. rewrite Hs in Hlen.
  simpl in Hlen. lia.
Qed.

Lemma trim_enclosed (text : string) :
  trimStart text = text -> trimEnd text = text -> text <> EmptyString ->
  trim (nl ++ text ++ nl) = text.
Proof.
  intros Hs He Hne. unfold trim.
  change (trimStart (nl ++ text ++ nl)) with (trimStart (text ++ nl)).
  rewrite trimStart_app by assumption.
  unfold nl. now rewrite trimEnd_space.
Qed.

Lemma trimEnd_append (a s : string) :
  trimEnd s = s -> s <> EmptyString -> trimEnd (a ++ s) = a ++ s.
Proof. intros H Hne. rewrite trimEnd_app; rewrite H; congruence. Qed.

Lemma append_not_empty_r (a s : string) : s <> EmptyString -> a ++ s <> EmptyString.
Proof. intros H Ha. apply append_eq_nil in Ha as [_ Ha]. contradiction. Qed.

(** The text kept by [trim] is the template between its two line feeds. *)
Lemma deployment_text_tight (projectName imageTag : string) :
  trimEnd (deployment_text projectName imageTag) = deployment_text projectName imageTag
  /\ deployment_text projectName imageTag <> EmptyString.
Proof.
  unfold deployment_text.
  assert (H : forall a s, (trimEnd s = s /\ s <> EmptyString) ->
                          trimEnd (a ++ s) = a ++ s /\ a ++ s <> EmptyString).
  { intros a s [H1 H2]. split; [now apply trimEnd_append | now apply append_not_empty_r]. }
  repeat apply H. split; [reflexivity | discriminate].
Qed.

Lemma service_text_tight (projectName : string) :
  trimEnd (service_text projectName) = service_text projectName
  /\ service_text projectName <> EmptyString.
Proof.
  unfold service_text.
  assert (H : forall a s, (trimEnd s = s /\ s <> EmptyString) ->
                          trimEnd (a ++ s) = a ++ s /\ a ++ s <> EmptyString).
  { intros a s [H1 H2]. split; [now apply trimEnd_append | now apply append_not_empty_r]. }
  repeat apply H. split; [reflexivity | discriminate].
Qed.

Lemma trim_deploymentYAML (projectName imageTag : string) :
  trim (deploymentYAML projectName imageTag) = deployment_text projectName imageTag.
Proof.
  destruct (deployment_text_tight projectName imageTag) as [H1 H2].
  unfold deploymentYAML. apply trim_enclosed; [reflexivity | exact H1 | exact H2].
Qed.

Lemma trim_serviceYAML (projectName : string) :
  trim (serviceYAML projectName) = service_text projectName.
Proof.
  destruct (service_text_tight projectName) as [H1 H2].
  unfold serviceYAML. apply trim_enclosed; [reflexivity | exact H1 | exact H2].
Qed.

Lemma path_join_eqb_empty (directory file : string) :
  (path_join directory file =? EmptyString) = false.
Proof. apply String.eqb_neq, path_join_not_empty. Qed.

Lemma existsb_assign {A : Type} (g : string -> bool) (k : string) (a : A)
  (l : list (string * A)) :
  existsb (fun f => g (fst f)) (assign k a l)
  = g k || existsb (fun f => g (fst f)) l.
Proof.
  induction l as [|[k' a'] rest IH]; simpl.
  - reflexivity.
  - destruct (String.eqb_spec k' k) as [-> | Hne]; simpl.
    + now destruct (g k).
    + rewrite IH. destruct (g k'), (g k); reflexivity.
Qed.

(** One turn of an apply loop on a file that exists. *)
Lemma applyYAML_run (E : env) (kind Kind projectPath file : string) (w : world) :
  file <> EmptyString ->
  fst (pathExists E projectPath file w) = Ok true ->
  let r := exec E (issued w) (apply_command file) in
  applyYAML E kind Kind projectPath file w
  = if failed r
    then (Throw (ExecError (apply_command file) (code r) (stderr r)),
          with_events w
            [Logged ("Applying " ++ kind ++ " YAML: " ++ file);
             Spinner Text ("Applying " ++ kind ++ " YAML: " ++ file);
             Ran (apply_command file);
             Logged ("Error applying " ++ kind ++ " YAML file " ++ file ++ ": "
                     ++ stderr r);
             Spinner Failure ("Failed to apply " ++ kind ++ ": " ++ stderr r)])
    else (Ok tt,
          with_events w
            [Logged ("Applying " ++ kind ++ " YAML: " ++ file);
             Spinner Text ("Applying " ++ kind ++ " YAML: " ++ file);
             Ran (apply_command file);
             Logged (Kind ++ " YAML applied successfully: " ++ file);
             Logged (Kind ++ " applied: " ++ stdout r);
             Spinner Succeed (Kind ++ " applied: " ++ file)]).
Proof.
  intros Hne Hex r. unfold applyYAML.
  apply String.eqb_neq in Hne. rewrite Hne. run_steps.
  assert (Hex' : pathExists E projectPath file
                   (with_events w [Logged ("Applying " ++ kind ++ " YAML: " ++ file)])
                 = (Ok true, with_events w [Logged ("Applying " ++ kind ++ " YAML: " ++ file)])).
  { unfold pathExists in *. cbn [fst project cwd_files with_events] in *.
    injection Hex as ->. reflexivity. }
  rewrite (bind_run _ _ _ _ _ Hex'). cbn [negb]. run_steps.
  rewrite issued_with_events. cbn [filter is_Ran List.length]. rewrite Nat.add_0_r.
  fold r.
  destruct (failed r); run_steps; reflexivity.
Qed.

Lemma pathExists_in_cwd (E : env) (projectPath name content : string) (w : world)
  (l : list (string * string)) :
  cwd_files w = assign name content l \/
  (exists name' content', cwd_files w = assign name' content' (assign name content l)) ->
  fst (pathExists E projectPath (path_join (cwd E) name) w) = Ok true.
Proof.
  intros H. unfold pathExists. cbn [fst]. f_equal.
  apply orb_true_iff. right.
  pose (g := fun k => path_join (cwd E) name =? path_join (cwd E) k).
  change (existsb (fun f => g (fst f)) (cwd_files w) = true).
  destruct H as [-> | [name' [content' ->]]]; rewrite !existsb_assign;
    unfold g; rewrite String.eqb_refl; now rewrite ?orb_true_r.
Qed.

Lemma writeFile_in_cwd_run (E : env) (name content : string) (w : world) :
  includes name path_sep = false ->
  writeFile_in_cwd E name content w
  = (Ok tt,
     with_events (with_cwd w (assign name content (cwd_files w)))
       [Wrote (path_join (cwd E) name) content]).
Proof. intros H. unfold writeFile_in_cwd. now rewrite H. Qed.

Lemma writeFile_in_cwd_below (E : env) (name content : string) (w : world) :
  includes name path_sep = true ->
  writeFile_in_cwd E name content w
  = (Throw (ENOENT (path_join (cwd E) name)), w).
Proof. intros H. unfold writeFile_in_cwd. now rewrite H. Qed.

(** A name without separator keeps none when a suffix without separator
    is put after it. *)
Lemma plain_name_app (name suffix : string) :
  includes name path_sep = false ->
  includes suffix path_sep = false ->
  includes (name ++ suffix) path_sep = false.
Proof.
  unfold path_sep. rewrite !has_char_includes, has_char_app.
  now intros -> ->.
Qed.

Lemma with_cwd_events (w : world) (evs : list event) (l : list (string * string)) :
  with_cwd (with_events w evs) l = with_events (with_cwd w l) evs.
Proof. reflexivity. Qed.

Lemma with_cwd_twice (w : world) (l l' : list (string * string)) :
  with_cwd (with_cwd w l) l' = with_cwd w l'.
Proof. reflexivity. Qed.

Lemma changes_since kp kc allowed (w W w' : world) (pre : list event) :
  events W = (events w ++ pre)%list ->
  changes kp kc allowed W w' ->
  exists evs, since w w' = (pre ++ evs)%list /\ forallb allowed evs = true.
Proof.
  intros HW [_ [_ [evs [Hevs Hall]]]]. exists evs. split; [|exact Hall].
  apply since_events. now rewrite Hevs, HW, app_assoc.
Qed.

(** The driver after the classification has found nothing: the two
    manifests are written, and the apply loops run on them. *)
Lemma deployClassified_empty_steps (E : env) (projectName projectPath : string)
  (w : world) :
  includes projectName path_sep = false ->
  let deployment := path_join (cwd E) (projectName ++ "-deployment.yaml") in
  let service := path_join (cwd E) (projectName ++ "-service.yaml") in
  deployClassified E projectName projectPath ([], []) w
  = bind (applyAll E "deployment" "Deployment" projectPath [deployment])
      (fun _ =>
         bind (applyAll E "service" "Service" projectPath [service])
           (fun _ =>
              bind (waitForPodsReady E "default" 300)
                (fun _ => reportStatus E projectName)))
      (with_events
         (with_cwd w
            (assign (projectName ++ "-service.yaml") (service_text projectName)
               (assign (projectName ++ "-deployment.yaml")
                  (deployment_text projectName "latest") (cwd_files w))))
         [Logged ("Service YAMLs found: " ++ JSON_stringify E (VArr []));
          Logged ("Deployment YAMLs found: " ++ JSON_stringify E (VArr []));
          Logged "No Kubernetes YAML files found. Generating default YAML files...";
          Wrote deployment (deployment_text projectName "latest");
          Wrote service (service_text projectName);
          Logged "Generated Kubernetes YAML files for Deployment and Service."]).
Proof.
  intros Hplain deployment service.
  assert (Hd : includes (projectName ++ "-deployment.yaml") path_sep = false)
    by (now apply plain_name_app).
  assert (Hs : includes (projectName ++ "-service.yaml") path_sep = false)
    by (now apply plain_name_app).
  unfold deployClassified. cbn [List.length Nat.eqb andb map List.app].
  run_steps. unfold generateKubernetesYAML.
  rewrite trim_deploymentYAML, trim_serviceYAML. run_steps.
  rewrite (bind_run _ _ _ _ _ (writeFile_in_cwd_run _ _ _ _ Hd)).
  rewrite bind_bind.
  rewrite (bind_run _ _ _ _ _ (writeFile_in_cwd_run _ _ _ _ Hs)).
  cbn [cwd_files with_events with_cwd]. run_steps.
  f_equal. unfold with_events, with_cwd. cbn [project cwd_files events clock].
  f_equal. rewrite <- !app_assoc. reflexivity.
Qed.

(** The branch of the driver that writes the default manifests, were it
    entered: with both buckets empty and a project name that is a file
    name, the body of the driver after the classification writes exactly
    two files into the working directory, [<project>-deployment.yaml]
    (one replica, container port 80) and [<project>-service.yaml] (a
    NodePort service, port 80 to target port 80), with the text of the two
    templates, and then applies them: the deployment manifest first and,
    once that has succeeded, the service manifest; a failure of the first
    apply is raised.  No run of [deployKubernetes] enters the branch, as
    is shown after the rewrite of the image. *)
Lemma deployClassified_default_manifests (E : env)
  (projectName projectPath : string) (w : world) :
  includes projectName path_sep = false ->
  let deployment := path_join (cwd E) (projectName ++ "-deployment.yaml") in
  let service := path_join (cwd E) (projectName ++ "-service.yaml") in
  let apply_deployment := "kubectl apply -f " ++ dquote ++ deployment ++ dquote in
  let apply_service := "kubectl apply -f " ++ dquote ++ service ++ dquote in
  let first := exec E (issued w) apply_deployment in
  let run := deployClassified E projectName projectPath ([], []) w in
  exists tail,
    since w (snd run)
    = ([Logged ("Service YAMLs found: " ++ JSON_stringify E (VArr []));
        Logged ("Deployment YAMLs found: " ++ JSON_stringify E (VArr []));
        Logged "No Kubernetes YAML files found. Generating default YAML files...";
        Wrote deployment (deployment_text projectName "latest");
        Wrote service (service_text projectName);
        Logged "Generated Kubernetes YAML files for Deployment and Service.";
        Logged ("Applying deployment YAML: " ++ deployment);
        Spinner Text ("Applying deployment YAML: " ++ deployment);
        Ran apply_deployment] ++ tail)%list
    /\ forallb no_write tail = true
    /\ cwd_files (snd run)
       = assign (projectName ++ "-service.yaml") (service_text projectName)
           (assign (projectName ++ "-deployment.yaml")
              (deployment_text projectName "latest") (cwd_files w))
    /\ project (snd run) = project w
    /\ (failed first = false ->
        exists tail',
          tail
          = ([Logged ("Deployment YAML applied successfully: " ++ deployment);
              Logged ("Deployment applied: " ++ stdout first);
              Spinner Succeed ("Deployment applied: " ++ deployment);
              Logged ("Applying service YAML: " ++ service);
              Spinner Text ("Applying service YAML: " ++ service);
              Ran apply_service] ++ tail')%list)
    /\ (failed first = true ->
        fst run = Throw (ExecError apply_deployment (code first) (stderr first))).
Proof.
  intros Hplain deployment service apply_deployment apply_service first run.
  change apply_deployment with (apply_command deployment) in *.
  change apply_service with (apply_command service) in *.
  clear apply_deployment apply_service. subst run.
  rewrite (deployClassified_empty_steps _ _ _ _ Hplain).
  fold deployment. fold service.
  set (files := assign (projectName ++ "-service.yaml") (service_text projectName)
                  (assign (projectName ++ "-deployment.yaml")
                     (deployment_text projectName "latest") (cwd_files w))).
  set (pre := [Logged ("Service YAMLs found: " ++ JSON_stringify E (VArr []));
               Logged ("Deployment YAMLs found: " ++ JSON_stringify E (VArr []));
               Logged "No Kubernetes YAML files found. Generating default YAML files...";
               Wrote deployment (deployment_text projectName "latest");
               Wrote service (service_text projectName);
               Logged "Generated Kubernetes YAML files for Deployment and Service."]).
  set (W0 := with_events (with_cwd w files) pre).
  assert (Hissued : issued W0 = issued w) by (unfold issued; cbn; rewrite filter_app; cbn; now rewrite app_nil_r).
  assert (Hfirst : applyYAML E "deployment" "Deployment" projectPath deployment W0 = _)
    by (apply applyYAML_run;
        [ apply path_join_not_empty
        | apply pathExists_in_cwd with (content := deployment_text projectName "latest")
            (l := cwd_files w); right; eexists _, _; reflexivity ]).
  rewrite Hissued in Hfirst. fold first in Hfirst.
  cbn [applyAll]. rewrite bind_bind.
  destruct (failed first) eqn:Hfailed.
  - rewrite (bind_throw _ _ _ _ _ Hfirst). cbn [fst snd].
    eexists. split; [apply since_events; unfold W0; cbn [events with_events with_cwd];
                     rewrite <- app_assoc; reflexivity|].
    split; [reflexivity|]. split; [reflexivity|]. split; [reflexivity|].
    split; [discriminate | reflexivity].
  - rewrite (bind_run _ _ _ _ _ Hfirst). run_steps. rewrite ?bind_bind.
    set (W1 := with_events W0 _).
    assert (Hsecond : applyYAML E "service" "Service" projectPath service W1 = _)
      by (apply applyYAML_run;
          [ apply path_join_not_empty
          | apply pathExists_in_cwd with (content := service_text projectName)
              (l := assign (projectName ++ "-deployment.yaml")
                      (deployment_text projectName "latest") (cwd_files w));
            left; reflexivity ]).
    cbv zeta in Hsecond.
    match type of Hsecond with
    | _ = if ?b then (_, ?wa) else (_, ?wb) =>
        assert (Hrest : exists r W2 evs,
          applyYAML E "service" "Service" projectPath service W1 = (r, W2)
          /\ W2 = with_events W1
                    ([Logged ("Applying service YAML: " ++ service);
                      Spinner Text ("Applying service YAML: " ++ service);
                      Ran (apply_command service)] ++ evs)
          /\ forallb no_write evs = true)
          by (destruct b; eexists _, _, _;
              (split; [exact Hsecond | split; [reflexivity | reflexivity]]))
    end.
    destruct Hrest as [r [W2 [evs [Hrun [HW2 Hevs]]]]]. clear Hsecond.
    match goal with
    | |- context [bind (applyYAML E "service" "Service" projectPath service) ?k W1] =>
        assert (Hend : exists final,
                  bind (applyYAML E "service" "Service" projectPath service) k W1
                  = final
                  /\ changes true true no_write W2 (snd final))
    end.
    { destruct r as [[]|e].
      - rewrite (bind_run _ _ _ _ _ Hrun). eexists. split; [reflexivity|].
        match goal with
        | |- changes _ _ _ _ (snd (?m W2)) =>
            assert (Hm : respects (changes true true no_write) m); [|apply Hm]
        end.
        footprint;
          [ apply respects_waitForPodsReady | apply respects_reportStatus ]; auto.
      - rewrite (bind_throw _ _ _ _ _ Hrun). eexists. split; [reflexivity|].
        apply changes_refl. }
    destruct Hend as [final [Hfinal Hk]]. rewrite Hfinal.
    destruct Hk as [Hproject [Hcwd [more [Hmore Hallowed]]]].
    exists ([Logged ("Deployment YAML applied successfully: " ++ deployment);
             Logged ("Deployment applied: " ++ stdout first);
             Spinner Succeed ("Deployment applied: " ++ deployment);
             Logged ("Applying service YAML: " ++ service);
             Spinner Text ("Applying service YAML: " ++ service);
             Ran (apply_command service)] ++ evs ++ more)%list.
    split; [|split; [|split; [|split; [|split]]]].
    + apply since_events. rewrite Hmore, HW2. unfold W1, W0.
      cbn [events with_events with_cwd]. rewrite <- !app_assoc. reflexivity.
    + cbn [List.app forallb no_write is_Wrote negb andb].
      now rewrite forallb_app, Hevs, Hallowed.
    + rewrite (Hcwd eq_refl), HW2. reflexivity.
    + rewrite (Hproject eq_refl), HW2. reflexivity.
    + intros _. now exists (evs ++ more)%list.
    + discriminate.
Qed.

Lemma respects_deployClassified (E : env) (projectName projectPath : string)
  (buckets : list string * list string) (kc : bool) :
  kc = false \/ snd buckets <> [] ->
  respects (changes true kc any_event)
    (deployClassified E projectName projectPath buckets).
Proof.
  intros H. unfold deployClassified. destruct buckets as [services deployments].
  assert (Hgen : kc = false ->
                 respects (changes true kc any_event)
                   (generateKubernetesYAML E projectName "latest")).
  { intros ->. unfold generateKubernetesYAML. footprint;
      apply respects_writeFile_in_cwd; reflexivity. }
  destruct services, deployments; cbn [List.length Nat.eqb andb]; footprint;
    try (apply respects_applyAll; auto);
    try (apply respects_waitForPodsReady; auto);
    try (apply respects_reportStatus; auto).
  apply Hgen. destruct H as [H | H]; [exact H | now simpl in H].
Qed.

Lemma respects_updateWebDeploymentImage (E : env)
  (projectPath projectName imageTag : string) :
  respects (changes false true any_event)
    (updateWebDeploymentImage E projectPath projectName imageTag).
Proof.
  unfold updateWebDeploymentImage. footprint;
    try (apply respects_update_containers; auto);
    try (apply respects_writeFile_at_root; reflexivity).
Qed.

Lemma update_containers_run (newImage : string) (containers : list value) :
  Forall is_object containers ->
  forall w, exists evs,
    update_containers newImage containers w
    = (Ok (map (with_image newImage) containers), with_events w evs)
    /\ forallb report_only evs = true.
Proof.
  induction 1 as [|c rest Hc _ IH]; intros w.
  - exists []. now rewrite with_events_nil.
  - destruct c as [| | | | |props]; try contradiction.
    cbn [update_containers update_container get set with_image map].
    run_steps.
    destruct (IH (with_events w
      [Logged ("Updated image from " ++ show (lookup "image" props) ++ " to "
               ++ newImage ++ " in web-deployment.yaml")])) as [evs [Hrun Hrep]].
    rewrite (bind_run _ _ _ _ _ Hrun). run_steps.
    eexists. split; [reflexivity | exact Hrep].
Qed.

Lemma containers_of_inv (manifest : value) (containers : list value) :
  containers_of manifest = Some containers ->
  exists spec template podSpec,
    get (Some manifest) "spec" = Ok spec
    /\ get spec "template" = Ok template
    /\ get template "spec" = Ok podSpec
    /\ get podSpec "containers" = Ok (Some (VArr containers)).
Proof.
  unfold containers_of. intros H.
  destruct (get (Some manifest) "spec") as [spec|] eqn:H1; [|discriminate].
  destruct (get spec "template") as [template|] eqn:H2; [|discriminate].
  destruct (get template "spec") as [podSpec|] eqn:H3; [|discriminate].
  destruct (get podSpec "containers") as [[[]|]|] eqn:H4; try discriminate.
  injection H as ->. now exists spec, template, podSpec.
Qed.

Lemma get_object (v : option value) (k : string) (x : value) :
  get v k = Ok (Some x) ->
  exists props, v = Some (VObj props) /\ lookup k props = Some x.
Proof.
  destruct v as [[| | | | |props]|]; simpl; try discriminate.
  intros H. injection H as H. now exists props.
Qed.

(** The document written back holds the containers the loop has updated. *)
Lemma put_path_containers (manifest : value) (containers updated : list value) :
  containers_of manifest = Some containers ->
  containers_of (put_path containers_path (VArr updated) manifest) = Some updated.
Proof.
  intros H. apply containers_of_inv in H
    as [spec [template [podSpec [H1 [H2 [H3 H4]]]]]].
  apply get_object in H4 as [p3 [-> L3]].
  apply get_object in H3 as [p2 [-> L2]].
  apply get_object in H2 as [p1 [-> L1]].
  apply get_object in H1 as [p0 [Hm L0]]. injection Hm as ->.
  unfold containers_of, containers_path.
  cbn [put_path]. rewrite L0. cbn [put_path]. rewrite L1.
  cbn [put_path]. rewrite L2. cbn [put_path]. rewrite L3.
  cbn [get]. rewrite lookup_assign. cbn [get]. rewrite lookup_assign.
  cbn [get]. rewrite lookup_assign. cbn [get]. now rewrite lookup_assign.
Qed.

Lemma with_image_get (image : string) (container : value) :
  is_object container ->
  get (Some (with_image image container)) "image" = Ok (Some (VStr image))
  /\ get (Some (with_image image container)) "imagePullPolicy"
     = Ok (Some (VStr "IfNotPresent")).
Proof.
  destruct container as [| | | | |props]; try contradiction. intros _.
  cbn [with_image get]. split.
  - rewrite lookup_assign_other by discriminate. now rewrite lookup_assign.
  - now rewrite lookup_assign.
Qed.

Lemma updateWebDeploymentImage_run (E : env)
  (projectPath projectName imageTag content : string) (w : world)
  (files : list (string * node)) (manifest : value) (containers : list value) :
  project w = Some (Dir files) ->
  lookup "web-deployment.yaml" files = Some (File content) ->
  yaml_load E content = Some manifest ->
  containers_of manifest = Some containers ->
  Forall is_object containers ->
  exists w1,
    updateWebDeploymentImage E projectPath projectName imageTag w = (Ok tt, w1)
    /\ project w1
       = Some (Dir (assign "web-deployment.yaml"
                      (File (yaml_dump E
                               (put_path containers_path
                                  (VArr (map (with_image (projectName ++ ":" ++ imageTag))
                                           containers))
                                  manifest)))
                      files)).
Proof.
  intros Hp Hfile Hload Hcontainers Hobjects.
  apply containers_of_inv in Hcontainers
    as [spec [template [podSpec [H1 [H2 [H3 H4]]]]]].
  destruct (update_containers_run (projectName ++ ":" ++ imageTag) containers
              Hobjects w) as [evs [Hrun Hrep]].
  assert (Hfree : forall sub, lookup "web-deployment.yaml" files <> Some (Dir sub))
    by (intros sub; rewrite Hfile; discriminate).
  unfold updateWebDeploymentImage.
  eexists. split.
  - apply try_catch_ok.
    rewrite (bind_run _ _ _ _ _ (readFile_at_root_run _ _ _ _ _ Hp Hfile)).
    rewrite Hload. run_steps. rewrite H1. run_steps. rewrite H2. run_steps.
    rewrite H3. run_steps. rewrite H4. run_steps. cbn [iterate]. run_steps.
    rewrite (bind_run _ _ _ _ _ Hrun).
    rewrite (bind_run _ _ _ _ _
               (writeFile_at_root_run projectPath "web-deployment.yaml" _
                  (with_events w evs) files Hp Hfree)).
    rewrite log_run. reflexivity.
  - reflexivity.
Qed.

Lemma scanYAMLFiles_run (projectPath : string) (w : world)
  (files : list (string * node)) :
  resolve projectPath w = Some (Dir files) ->
  scanYAMLFiles projectPath w
  = (Ok (classify_yaml (list_files projectPath files)), w).
Proof.
  intros H. unfold scanYAMLFiles.
  assert (Hne : (projectPath =? EmptyString) = false)
    by (unfold resolve in H; destruct (projectPath =? EmptyString); [discriminate | reflexivity]).
  rewrite Hne. now rewrite (bind_run _ _ _ _ _ (scanEntireDirectory_run _ _ _ H)).
Qed.

Lemma classify_yaml_deployment (file : string) (allFiles : list string) :
  In file allFiles ->
  endsWith file "service.yaml" = false ->
  endsWith file "deployment.yaml" = true ->
  In file (snd (classify_yaml allFiles)).
Proof.
  intros Hin Hs Hd. induction allFiles as [|f rest IH]; [contradiction|].
  cbn [classify_yaml]. destruct (classify_yaml rest) as [s d]. simpl in IH.
  destruct Hin as [-> | Hin].
  - rewrite Hs, Hd. now left.
  - destruct (endsWith f "service.yaml"); [now apply IH|].
    destruct (endsWith f "deployment.yaml"); [right|]; now apply IH.
Qed.

(** The well-known manifest falls into the deployment bucket. *)
Lemma manifest_classified (projectPath content : string)
  (files : list (string * node)) :
  lookup "web-deployment.yaml" files = Some (File content) ->
  In (path_join projectPath "web-deployment.yaml")
    (snd (classify_yaml (list_files projectPath files))).
Proof.
  intros H. apply classify_yaml_deployment.
  - eapply lookup_list_files; eauto.
  - now rewrite endsWith_join.
  - now rewrite endsWith_join.
Qed.

(** The driver after the image has been rewritten leaves the project tree
    as the rewrite left it. *)
Lemma deployKubernetes_after_rewrite (E : env) (projectName projectPath : string)
  (w w1 : world) :
  projectPath <> EmptyString ->
  updateWebDeploymentImage E projectPath projectName "latest"
    (with_events w [Spinner Start "Deploying to Kubernetes..."]) = (Ok tt, w1) ->
  project (snd (deployKubernetes E projectName projectPath w)) = project w1.
Proof.
  intros Hne Hrun. unfold deployKubernetes. run_steps.
  apply String.eqb_neq in Hne. rewrite Hne.
  rewrite try_catch_bind_run with (1 := ret_run tt _).
  rewrite try_catch_bind_run with (1 := Hrun).
  match goal with
  | |- project (snd (?m w1)) = _ =>
      assert (Hm : respects (changes true false any_event) m)
  end.
  { footprint.
    - apply respects_scanYAMLFiles.
    - apply respects_deployClassified. now left. }
  destruct (Hm w1) as [Hproject _]. now apply Hproject.
Qed.

(** C5: whatever image tag the operator has asked for, the orchestrator
    deployment rewrites the image of every container of
    [web-deployment.yaml] to [<name>:latest] and sets its pull policy to
    [IfNotPresent]; the tag asked for plays no part. *)
Theorem deploy_k8s_rewrites_images (E : env) (projectPath : string)
  (a : answers) (w : world) (files : list (string * node)) (content : string)
  (manifest : value) (containers : list value) :
  toLowerCase (deployOption a) = "yes" ->
  deployType a = "k8s" ->
  projectPath <> EmptyString ->
  project w = Some (Dir files) ->
  lookup "web-deployment.yaml" files = Some (File content) ->
  yaml_load E content = Some manifest ->
  containers_of manifest = Some containers ->
  Forall is_object containers ->
  let image := projectName_answer a ++ ":latest" in
  let updated := map (with_image image) containers in
  let rewritten := put_path containers_path (VArr updated) manifest in
  root_file "web-deployment.yaml" (snd (deploy E projectPath a w))
  = Some (yaml_dump E rewritten)
  /\ containers_of rewritten = Some updated
  /\ Forall (fun container =>
               get (Some container) "image" = Ok (Some (VStr image))
               /\ get (Some container) "imagePullPolicy"
                  = Ok (Some (VStr "IfNotPresent")))
       updated.
Proof.
  intros Hyes Hk8s Hne Hp Hfile Hload Hcontainers Hobjects image updated rewritten.
  split; [|split].
  - unfold deploy. rewrite Hyes, Hk8s.
    change ("yes" =? "yes") with true. change ("k8s" =? "local") with false.
    change ("k8s" =? "remote") with false. change ("k8s" =? "k8s") with true.
    cbv iota.
    destruct (updateWebDeploymentImage_run E projectPath (projectName_answer a)
                "latest" content
                (with_events w [Spinner Start "Deploying to Kubernetes..."])
                files manifest containers Hp Hfile Hload Hcontainers Hobjects)
      as [w1 [Hrun Hproject]].
    unfold root_file.
    rewrite (deployKubernetes_after_rewrite _ _ _ _ _ Hne Hrun), Hproject.
    now rewrite lookup_assign.
  - now apply put_path_containers with (containers := containers).
  - subst updated. apply Forall_map.
    eapply Forall_impl; [|exact Hobjects]. intros c Hc.
    now apply with_image_get.
Qed.

Lemma updateWebDeploymentImage_missing (E : env)
  (projectPath projectName imageTag : string) (w : world) :
  root_file "web-deployment.yaml" w = None ->
  exists e,
    updateWebDeploymentImage E projectPath projectName imageTag w
    = (Throw e,
       with_events w [Logged ("Error updating web-deployment.yaml: " ++ message e)]).
Proof.
  intros Hroot. unfold updateWebDeploymentImage, root_file in *.
  assert (Hread : exists e,
    readFile_at_root projectPath "web-deployment.yaml" w = (Throw e, w)).
  { unfold readFile_at_root.
    destruct (project w) as [[c | files]|]; try (eexists; reflexivity).
    destruct (lookup "web-deployment.yaml" files) as [[c | sub]|];
      try discriminate; eexists; reflexivity. }
  destruct Hread as [e Hread]. exists e.
  rewrite try_catch_throw with (1 := bind_throw _ _ _ _ _ Hread).
  run_steps. reflexivity.
Qed.

Lemma updateWebDeploymentImage_ok (E : env)
  (projectPath projectName imageTag : string) (w w1 : world) :
  updateWebDeploymentImage E projectPath projectName imageTag w = (Ok tt, w1) ->
  exists content, root_file "web-deployment.yaml" w1 = Some content.
Proof.
  unfold updateWebDeploymentImage, try_catch. intros H.
  match type of H with
  | (let (_, _) := ?body w in _) = _ =>
      destruct (body w) as [[[]|e] w'] eqn:Hbody
  end.
  2:{ revert H. run_steps. cbn [throw]. discriminate. }
  injection H as ->. revert Hbody.
  unfold bind at 1.
  destruct (readFile_at_root projectPath "web-deployment.yaml" w)
    as [[content|e] w0] eqn:Hread; [|discriminate].
  assert (Hw0 : w0 = w /\ exists files c,
            project w = Some (Dir files)
            /\ lookup "web-deployment.yaml" files = Some (File c)).
  { unfold readFile_at_root in Hread.
    destruct (project w) as [[c | files]|]; try discriminate.
    destruct (lookup "web-deployment.yaml" files) as [[c | sub]|] eqn:Hl;
      try discriminate.
    injection Hread as _ <-. split; [reflexivity|]. now exists files, c. }
  destruct Hw0 as [-> [files [c [Hp Hfile]]]].
  destruct (yaml_load E content) as [manifest|]; [|discriminate]. run_steps.
  destruct (get (Some manifest) "spec") as [spec|]; [|discriminate]. run_steps.
  destruct (get spec "template") as [template|]; [|discriminate]. run_steps.
  destruct (get template "spec") as [podSpec|]; [|discriminate]. run_steps.
  destruct (get podSpec "containers") as [containers|]; [|discriminate]. run_steps.
  destruct (iterate containers) as [items|]; [|discriminate]. run_steps.
  unfold bind at 1.
  destruct (update_containers (projectName ++ ":" ++ imageTag) items w)
    as [[updated|e] w2] eqn:Hupdate; [|discriminate].
  pose proof (respects_update_containers true true any_event
                (fun e _ => eq_refl) (projectName ++ ":" ++ imageTag) items w)
    as [Hsame _].
  rewrite Hupdate in Hsame. cbn [snd] in Hsame. specialize (Hsame eq_refl).
  assert (Hfree : forall sub, lookup "web-deployment.yaml" files <> Some (Dir sub))
    by (intros sub; rewrite Hfile; discriminate).
  rewrite Hp in Hsame.
  rewrite (bind_run _ _ _ _ _
             (writeFile_at_root_run projectPath "web-deployment.yaml" _
                w2 files Hsame Hfree)).
  rewrite log_run. intros Heq. injection Heq as <-.
  unfold root_file. cbn [project with_events]. rewrite lookup_assign.
  eexists. reflexivity.
Qed.

(** C10, as amended: for a project path that is not empty, when the
    project root holds no file [web-deployment.yaml], [deployKubernetes]
    raises the error of the image rewrite before anything is classified,
    written or applied (an empty path is refused by the guard of the
    driver before the rewrite is tried).  The rewrite succeeds only with
    that file in place, the file falls into the deployment bucket, and so
    the driver never writes the default manifests. *)
Theorem deployKubernetes_needs_manifest (E : env)
  (projectName projectPath : string) (w : world) :
  projectPath <> EmptyString ->
  (root_file "web-deployment.yaml" w = None ->
   exists e,
     fst (updateWebDeploymentImage E projectPath projectName "latest"
            (with_events w [Spinner Start "Deploying to Kubernetes..."]))
     = Throw e
     /\ deployKubernetes E projectName projectPath w
        = (Throw e,
           with_events w
             [Spinner Start "Deploying to Kubernetes...";
              Logged ("Error updating web-deployment.yaml: " ++ message e);
              Logged ("Failed to deploy on Kubernetes: " ++ message e)]))
  /\ (forall w0 w1,
        updateWebDeploymentImage E projectPath projectName "latest" w0
        = (Ok tt, w1) ->
        exists content, root_file "web-deployment.yaml" w1 = Some content)
  /\ (forall files content,
        lookup "web-deployment.yaml" files = Some (File content) ->
        In (path_join projectPath "web-deployment.yaml")
          (snd (classify_yaml (list_files projectPath files))))
  /\ cwd_files (snd (deployKubernetes E projectName projectPath w)) = cwd_files w.
Proof.
  intros Hne. apply String.eqb_neq in Hne as Hneb.
  split; [|split; [|split]].
  - intros Hroot.
    destruct (updateWebDeploymentImage_missing E projectPath projectName "latest"
                (with_events w [Spinner Start "Deploying to Kubernetes..."]) Hroot)
      as [e Hrun].
    exists e. rewrite Hrun. split; [reflexivity|].
    unfold deployKubernetes. run_steps. rewrite Hneb.
    rewrite try_catch_bind_run with (1 := ret_run tt _).
    rewrite try_catch_throw with (1 := bind_throw _ _ _ _ _ Hrun).
    run_steps. reflexivity.
  - intros w0 w1. apply updateWebDeploymentImage_ok.
  - intros files content. apply manifest_classified.
  - unfold deployKubernetes. run_steps. rewrite Hneb.
    rewrite try_catch_bind_run with (1 := ret_run tt _).
    set (W := with_events w [Spinner Start "Deploying to Kubernetes..."]).
    change (cwd_files w) with (cwd_files W).
    destruct (updateWebDeploymentImage E projectPath projectName "latest" W)
      as [[[]|e] W1] eqn:Hrun.
    + pose proof (respects_updateWebDeploymentImage E projectPath projectName
                    "latest" W) as [_ [Hcwd _]].
      rewrite Hrun in Hcwd. cbn [snd] in Hcwd. rewrite <- (Hcwd eq_refl).
      destruct (updateWebDeploymentImage_ok _ _ _ _ _ _ Hrun) as [content Hroot].
      unfold root_file in Hroot.
      destruct (project W1) as [[c | files]|] eqn:HW1; try discriminate.
      destruct (lookup "web-deployment.yaml" files) as [[c | sub]|] eqn:Hl;
        try discriminate.
      rewrite try_catch_bind_run with (1 := Hrun).
      rewrite try_catch_bind_run with (1 := log_run _ _).
      assert (Hres : resolve projectPath
                (with_events W1
                   [Logged ("Starting deployment to Kubernetes for project: "
                            ++ projectName ++ " at path: " ++ projectPath)])
              = Some (Dir files))
        by (unfold resolve; now rewrite Hneb).
      rewrite try_catch_bind_run with (1 := scanYAMLFiles_run _ _ _ Hres).
      match goal with
      | |- cwd_files (snd (?m ?w')) = _ =>
          assert (Hm : respects (changes true true any_event) m);
          [|destruct (Hm w') as [_ [Hkeep _]]; now rewrite (Hkeep eq_refl)]
      end.
      footprint. apply respects_deployClassified. right.
      intros Hempty. pose proof (manifest_classified projectPath c files Hl) as Hin.
      rewrite Hempty in Hin. contradiction.
    + pose proof (respects_updateWebDeploymentImage E projectPath projectName
                    "latest" W) as [_ [Hcwd _]].
      rewrite Hrun in Hcwd. cbn [snd] in Hcwd. rewrite <- (Hcwd eq_refl).
      rewrite try_catch_throw with (1 := bind_throw _ _ _ _ _ Hrun).
      run_steps. reflexivity.
Qed.

(** C1: no run of the driver writes the default manifests.  On a project
    tree whose classification yields no file ending in [deployment.yaml]
    and none ending in [service.yaml], [deployKubernetes] raises the
    error of the image rewrite, which wants [web-deployment.yaml] at the
    project root before anything is classified: nothing is written into
    the working directory and no command is issued. *)
Theorem deployKubernetes_never_synthesizes (E : env)
  (projectName projectPath : string) (w : world) :
  scanYAMLFiles projectPath w = (Ok ([], []), w) ->
  exists e,
    deployKubernetes E projectName projectPath w
    = (Throw e,
       with_events w
         [Spinner Start "Deploying to Kubernetes...";
          Logged ("Error updating web-deployment.yaml: " ++ message e);
          Logged ("Failed to deploy on Kubernetes: " ++ message e)]).
Proof.
  intros Hscan. unfold scanYAMLFiles in Hscan.
  destruct (projectPath =? EmptyString) eqn:Hneb; [discriminate|].
  assert (Hroot : root_file "web-deployment.yaml" w = None).
  { unfold root_file.
    destruct (project w) as [[c | files]|] eqn:Hp; try reflexivity.
    destruct (lookup "web-deployment.yaml" files) as [[c | sub]|] eqn:Hl;
      try reflexivity.
    assert (Hres : resolve projectPath w = Some (Dir files))
      by (unfold resolve; now rewrite Hneb).
    rewrite (bind_run _ _ _ _ _ (scanEntireDirectory_run _ _ _ Hres)) in Hscan.
    unfold ret in Hscan. injection Hscan as Hclass.
    pose proof (manifest_classified projectPath c files Hl) as Hin.
    rewrite Hclass in Hin. contradiction. }
  destruct (updateWebDeploymentImage_missing E projectPath projectName "latest"
              (with_events w [Spinner Start "Deploying to Kubernetes..."]) Hroot)
    as [e Hrun].
  exists e. unfold deployKubernetes. run_steps. rewrite Hneb.
  rewrite try_catch_bind_run with (1 := ret_run tt _).
  rewrite try_catch_throw with (1 := bind_throw _ _ _ _ _ Hrun).
  run_steps. reflexivity.
Qed.

(** ** The theorems on the sample data *)

(** C2: a file whose name only ends in [dockerfile] is no build file for
    the builder. *)
Lemma buildDockerImage_suffix_counterexample :
  In ("/proj/docker", "app.dockerfile")
    (walk "/proj" [("package.json", File "{}");
                   ("docker", Dir [("app.dockerfile", File "FROM node:18")])])
  /\ endsWith (toLowerCase "app.dockerfile") "dockerfile" = true
  /\ fst (buildDockerImage Demo.E "/proj" "demo" "latest"
            (Demo.world_of (Some Demo.suffix_project)))
     = Throw BuildFileNotFound.
Proof. split; [simpl; auto | split; reflexivity]. Qed.

Lemma buildDockerImage_build_file_witness :
  resolve "/proj" (Demo.world_of (Some Demo.nested_project))
  = Some (Dir [("README.md", File "demo");
               ("api", Dir [("DOCKERFILE", File "FROM node:18");
                            ("package.json", File "{}")]);
               ("Dockerfile", File "FROM node:20")])
  /\ valid_node Demo.nested_project = true
  /\ find (named "Dockerfile")
       (walk "/proj" [("README.md", File "demo");
                      ("api", Dir [("DOCKERFILE", File "FROM node:18");
                                   ("package.json", File "{}")]);
                      ("Dockerfile", File "FROM node:20")])
     = Some ("/proj/api", "DOCKERFILE")
  /\ exists rest,
       since (Demo.world_of (Some Demo.nested_project))
         (snd (buildDockerImage Demo.E "/proj" "demo" "v1"
                 (Demo.world_of (Some Demo.nested_project))))
       = ([Logged "Starting Docker image build for project: demo with tag: v1";
           Logged "Using Dockerfile located at: /proj/api/DOCKERFILE";
           Logged "Using build context: /proj/api";
           Ran "docker build -t demo:v1 /proj/api"] ++ rest)%list.
Proof.
  split; [reflexivity|]. split; [reflexivity|]. split; [reflexivity|].
  apply (proj2 (buildDockerImage_build_file Demo.E "/proj" "demo" "v1"
                  (Demo.world_of (Some Demo.nested_project)) _
                  eq_refl eq_refl) "/proj/api" "DOCKERFILE").
  reflexivity.
Defined.

(** C3: scanning a path that is a file returns normally. *)
Lemma scanProject_file_counterexample :
  resolve "/proj/notes.txt" (Demo.world_of (Some (File "notes")))
  = Some (File "notes")
  /\ fst (scanProject Demo.E "/proj/notes.txt" "demo" "latest"
            (Demo.world_of (Some (File "notes")))) = Ok tt
  /\ forall e, fst (scanProject Demo.E "/proj/notes.txt" "demo" "latest"
                      (Demo.world_of (Some (File "notes")))) <> Throw e.
Proof. split; [reflexivity|]. split; [reflexivity|]. intros e. discriminate. Qed.

Lemma scanProject_not_a_directory_witness :
  resolve "/proj/notes.txt" (Demo.world_of (Some (File "notes")))
  = Some (File "notes")
  /\ scanProject Demo.E "/proj/notes.txt" "demo" "latest"
       (Demo.world_of (Some (File "notes")))
     = (Ok tt,
        with_events (Demo.world_of (Some (File "notes")))
          [Logged "Received projectName: demo, imageTag: latest";
           Spinner Start "Starting the project scan...";
           Logged "Scanning directory: /proj/notes.txt";
           Spinner Failure "Error: /proj/notes.txt is not a directory";
           Logged "Provided path is not a directory: /proj/notes.txt"]).
Proof.
  split; [reflexivity|].
  apply (scanProject_not_a_directory Demo.E "/proj/notes.txt" "demo" "latest"
           "notes" (Demo.world_of (Some (File "notes")))).
  reflexivity.
Defined.

Lemma deploy_k8s_rewrites_images_witness :
  toLowerCase (deployOption (Demo.k8s_answers "v7")) = "yes"
  /\ deployType (Demo.k8s_answers "v7") = "k8s"
  /\ "/proj" <> EmptyString
  /\ root_file "web-deployment.yaml" (Demo.world_of (Some Demo.k8s_project))
     = Some "manifest"
  /\ yaml_load Demo.E "manifest" = Some Demo.manifest
  /\ containers_of Demo.manifest
     = Some [Demo.container "web" "web:1.4"; Demo.container "log" "fluentd:v2"]
  /\ root_file "web-deployment.yaml"
       (snd (deploy Demo.E "/proj" (Demo.k8s_answers "v7")
               (Demo.world_of (Some Demo.k8s_project))))
     = Some (yaml_dump Demo.E
               (put_path containers_path
                  (VArr (map (with_image "demo:latest")
                           [Demo.container "web" "web:1.4";
                            Demo.container "log" "fluentd:v2"]))
                  Demo.manifest)).
Proof.
  split; [reflexivity|]. split; [reflexivity|]. split; [discriminate|].
  split; [reflexivity|]. split; [reflexivity|]. split; [reflexivity|].
  apply (deploy_k8s_rewrites_images Demo.E "/proj" (Demo.k8s_answers "v7")
           (Demo.world_of (Some Demo.k8s_project)) _ "manifest" Demo.manifest
           [Demo.container "web" "web:1.4"; Demo.container "log" "fluentd:v2"]
           eq_refl eq_refl ltac:(discriminate) eq_refl eq_refl eq_refl eq_refl).
  repeat constructor.
Defined.

Lemma scanProject_unknown_type_witness :
  resolve "/proj" (Demo.world_of (Some Demo.python_project))
  = Some (Dir [("app.py", File "print(1)"); ("requirements.txt", File "flask")])
  /\ (forall d f,
        In (d, f) (walk "/proj" [("app.py", File "print(1)");
                                 ("requirements.txt", File "flask")]) ->
        endsWith f "package.json" = false)
  /\ exists found,
       scanProject Demo.E "/proj" "demo" "v1"
         (Demo.world_of (Some Demo.python_project))
       = (Ok tt,
          with_events (Demo.world_of (Some Demo.python_project))
            ([Logged "Received projectName: demo, imageTag: v1";
              Spinner Start "Starting the project scan...";
              Logged "Scanning directory: /proj"]
             ++ found
             ++ [Spinner Text "Scanning project at /proj...";
                 Spinner Failure "Unable to determine the project type";
                 Logged "Failed to determine project type. No known configuration files found.";
                 Spinner Succeed "Project scan and Docker image creation completed."]))
       /\ forallb report_only found = true.
Proof.
  assert (H : forall d f,
            In (d, f) (walk "/proj" [("app.py", File "print(1)");
                                     ("requirements.txt", File "flask")]) ->
            endsWith f "package.json" = false).
  { intros d f [Heq | [Heq | []]]; injection Heq as <- <-; reflexivity. }
  split; [reflexivity|]. split; [exact H|].
  exact (scanProject_unknown_type Demo.E "/proj" "demo" "v1"
           (Demo.world_of (Some Demo.python_project)) _ eq_refl H).
Defined.

(** C7: a manifest that names express with the empty string for version
    declares the dependency, and [index.js] holds [app.listen(8000)]; yet
    the test of the script, which asks whether the value is true, fails on
    the empty string: the build file written has the port of [index.js]
    and keeps [CMD ["npm", "start"]]. *)
Lemma generateDockerfile_express_counterexample :
  lookup "Dockerfile"
    [("package.json", File "{express: ''}");
     ("index.js", File "const app = express(); app.listen(8000)")] = None
  /\ JSON_parse Demo.E "{express: ''}" = Some Demo.package_unversioned
  /\ get (Some Demo.package_unversioned) "dependencies"
     = Ok (Some (VObj [("express", VStr EmptyString)]))
  /\ get (Some (VObj [("express", VStr EmptyString)])) "express"
     = Ok (Some (VStr EmptyString))
  /\ includes "const app = express(); app.listen(8000)" "app.listen(8000)" = true
  /\ templates Demo.E "nodejs" = Some Demo.nodejs_template
  /\ occurrences "EXPOSE 3000" Demo.nodejs_template = 1
  /\ root_file "Dockerfile"
       (snd (generateDockerfile Demo.E "nodejs" "/proj"
               (Demo.world_of (Some Demo.unversioned_project))))
     = Some ("FROM node:18" ++ nl ++
             "WORKDIR /app" ++ nl ++
             "COPY package*.json ./" ++ nl ++
             "RUN npm install" ++ nl ++
             "COPY . ." ++ nl ++
             "EXPOSE 8000" ++ nl ++
             "CMD [" ++ dquote ++ "npm" ++ dquote ++ ", " ++ dquote ++ "start"
             ++ dquote ++ "]")
  /\ root_file "Dockerfile"
       (snd (generateDockerfile Demo.E "nodejs" "/proj"
               (Demo.world_of (Some Demo.unversioned_project))))
     <> Some (trim
                (replace
                   ("CMD [" ++ dquote ++ "npm" ++ dquote ++ ", " ++ dquote
                    ++ "start" ++ dquote ++ "]")
                   ("CMD [" ++ dquote ++ "node" ++ dquote ++ ", " ++ dquote
                    ++ "index.js" ++ dquote ++ "]")
                   (replace "EXPOSE 3000" "EXPOSE 8000" Demo.nodejs_template))).
Proof.
  repeat (split; [reflexivity|]). vm_compute. discriminate.
Qed.

Lemma generateDockerfile_express_8000_witness :
  project (Demo.world_of (Some Demo.express_project)) = Some Demo.express_project
  /\ JSON_parse Demo.E "{express}" = Some Demo.package
  /\ get (Some Demo.package) "dependencies"
     = Ok (Some (VObj [("express", VStr "4.x")]))
  /\ get (Some (VObj [("express", VStr "4.x")])) "express" = Ok (Some (VStr "4.x"))
  /\ truthy (Some (VStr "4.x")) = true
  /\ includes "const app = express(); app.listen(8000)" "app.listen(8000)" = true
  /\ templates Demo.E "nodejs" = Some Demo.nodejs_template
  /\ occurrences "EXPOSE 3000" Demo.nodejs_template <= 1
  /\ root_file "Dockerfile"
       (snd (generateDockerfile Demo.E "nodejs" "/proj"
               (Demo.world_of (Some Demo.express_project))))
     = Some ("FROM node:18" ++ nl ++
             "WORKDIR /app" ++ nl ++
             "COPY package*.json ./" ++ nl ++
             "RUN npm install" ++ nl ++
             "COPY . ." ++ nl ++
             "EXPOSE 8000" ++ nl ++
             "CMD [" ++ dquote ++ "node" ++ dquote ++ ", " ++ dquote ++ "index.js"
             ++ dquote ++ "]").
Proof.
  split; [reflexivity|]. split; [reflexivity|]. split; [reflexivity|].
  split; [reflexivity|]. split; [reflexivity|]. split; [reflexivity|].
  split; [reflexivity|]. split; [vm_compute; lia|].
  exact (proj1 (proj2 (generateDockerfile_express_8000 Demo.E "/proj"
           (Demo.world_of (Some Demo.express_project)) _
           "{express}" "const app = express(); app.listen(8000)"
           Demo.nodejs_template Demo.package
           (VObj [("express", VStr "4.x")]) (VStr "4.x")
           eq_refl eq_refl eq_refl eq_refl eq_refl eq_refl eq_refl eq_refl
           eq_refl eq_refl ltac:(vm_compute; lia)))).
Defined.

Lemma synthesis_idempotent_witness :
  project (Demo.world_of (Some Demo.k8s_project)) = Some Demo.k8s_project
  /\ root_file "Dockerfile" (Demo.world_of (Some Demo.k8s_project))
     = Some "FROM node:18"
  /\ generateDockerfile Demo.E "nodejs" "/proj"
       (Demo.world_of (Some Demo.k8s_project))
     = (Ok "/proj/Dockerfile",
        with_events (Demo.world_of (Some Demo.k8s_project))
          [Logged "Existing Dockerfile found, skipping generation."])
  /\ root_file "Dockerfile"
       (snd (scanProject Demo.E "/proj" "demo" "v1"
               (Demo.world_of (Some Demo.k8s_project))))
     = Some "FROM node:18".
Proof.
  split; [reflexivity|]. split; [reflexivity|].
  pose proof (synthesis_idempotent Demo.E "nodejs" "/proj" "demo" "v1"
                (Demo.world_of (Some Demo.k8s_project)) _ (File "FROM node:18")
                eq_refl eq_refl) as [Hgen [Hscan _]].
  split; [exact Hgen|].
  exact (proj2 (Hscan "FROM node:18" eq_refl)).
Defined.

(** C10: with an empty project path the guard of the driver raises, not
    the rewrite of the image, whose handler would have logged its error. *)
Lemma deployKubernetes_guard_counterexample :
  root_file "web-deployment.yaml" (Demo.world_of (Some Demo.python_project)) = None
  /\ deployKubernetes Demo.E "demo" EmptyString (Demo.world_of (Some Demo.python_project))
     = (Throw InvalidProjectPath,
        with_events (Demo.world_of (Some Demo.python_project))
          [Spinner Start "Deploying to Kubernetes...";
           Logged "Failed to deploy on Kubernetes: projectPath is undefined or invalid."])
  /\ forall reason,
       ~ In (Logged ("Error updating web-deployment.yaml: " ++ reason))
           (events (snd (deployKubernetes Demo.E "demo" EmptyString
                           (Demo.world_of (Some Demo.python_project))))).
Proof.
  split; [reflexivity|]. split; [reflexivity|].
  intros reason [H | [H | []]]; discriminate.
Qed.

Lemma deployKubernetes_needs_manifest_witness :
  "/proj" <> EmptyString
  /\ root_file "web-deployment.yaml" (Demo.world_of (Some Demo.python_project))
     = None
  /\ exists e,
       fst (updateWebDeploymentImage Demo.E "/proj" "demo" "latest"
              (with_events (Demo.world_of (Some Demo.python_project))
                 [Spinner Start "Deploying to Kubernetes..."]))
       = Throw e
       /\ deployKubernetes Demo.E "demo" "/proj"
            (Demo.world_of (Some Demo.python_project))
          = (Throw e,
             with_events (Demo.world_of (Some Demo.python_project))
               [Spinner Start "Deploying to Kubernetes...";
                Logged ("Error updating web-deployment.yaml: " ++ message e);
                Logged ("Failed to deploy on Kubernetes: " ++ message e)]).
Proof.
  split; [discriminate|]. split; [reflexivity|].
  apply (proj1 (deployKubernetes_needs_manifest Demo.E "demo" "/proj"
                  (Demo.world_of (Some Demo.python_project))
                  ltac:(discriminate))).
  reflexivity.
Defined.

Lemma deployKubernetes_never_synthesizes_witness :
  scanYAMLFiles "/proj" (Demo.world_of (Some Demo.python_project))
  = (Ok ([], []), Demo.world_of (Some Demo.python_project))
  /\ (exists e,
        deployKubernetes Demo.E "demo" "/proj"
          (Demo.world_of (Some Demo.python_project))
        = (Throw e,
           with_events (Demo.world_of (Some Demo.python_project))
             [Spinner Start "Deploying to Kubernetes...";
              Logged ("Error updating web-deployment.yaml: " ++ message e);
              Logged ("Failed to deploy on Kubernetes: " ++ message e)]))
  /\ fst (deployKubernetes Demo.E "demo" "/proj"
            (Demo.world_of (Some Demo.python_project)))
     = Throw (ENOENT "/proj/web-deployment.yaml")
  /\ cwd_files (snd (deployKubernetes Demo.E "demo" "/proj"
                       (Demo.world_of (Some Demo.python_project)))) = [].
Proof.
  split; [reflexivity|]. split; [|split; reflexivity].
  apply (deployKubernetes_never_synthesizes Demo.E "demo" "/proj"
           (Demo.world_of (Some Demo.python_project))).
  reflexivity.
Defined.

Lemma deployClassified_default_manifests_witness :
  cwd_files
    (snd (deployClassified Demo.E "demo" "/proj" ([], [])
            (Demo.world_of (Some Demo.python_project))))
  = [("demo-deployment.yaml",
      "apiVersion: apps/v1
kind: Deployment
metadata:
  name: demo-deployment
spec:
  replicas: 1
  selector:
    matchLabels:
      app: demo
  template:
    metadata:
      labels:
        app: demo
    spec:
      containers:
      - name: demo
        image: demo:latest
        ports:
        - containerPort: 80");
     ("demo-service.yaml",
      "apiVersion: v1
kind: Service
metadata:
  name: demo-service
spec:
  selector:
    app: demo
  type: NodePort
  ports:
  - protocol: TCP
    port: 80
    targetPort: 80")]
  /\ exists tail,
       filter is_Ran
         (since (Demo.world_of (Some Demo.python_project))
            (snd (deployClassified Demo.E "demo" "/proj" ([], [])
                    (Demo.world_of (Some Demo.python_project)))))
       = (Ran ("kubectl apply -f " ++ dquote ++ "/work/demo-deployment.yaml"
               ++ dquote)
            :: Ran ("kubectl apply -f " ++ dquote ++ "/work/demo-service.yaml"
                    ++ dquote)
            :: tail)%list.
Proof.
  destruct (deployClassified_default_manifests Demo.E "demo" "/proj"
              (Demo.world_of (Some Demo.python_project)) eq_refl)
    as [tail [Hsince [_ [Hcwd [_ [Hnext _]]]]]].
  split; [exact Hcwd|].
  destruct (Hnext eq_refl) as [tail' ->].
  exists (filter is_Ran tail'). rewrite Hsince. reflexivity.
Defined.

Lemma waitForPodsReady_outcome_witness :
  allPodsReady Demo.pods_pending = false
  /\ allPodsReady Demo.pods_running = true
  /\ fst (waitForPodsReady Demo.E "default" 300 (Demo.world_of None)) = Ok tt
  /\ fst (waitForPodsReady (Demo.env_with (fun _ _ => Demo.done Demo.pods_pending))
            "default" 300 (Demo.world_of None))
     = Throw ReadinessTimeout.
Proof.
  split; [reflexivity|]. split; [reflexivity|]. split.
  - apply (proj1 (waitForPodsReady_outcome Demo.E "default" 300
                    (Demo.world_of None))).
    exists 2%nat. split; [lia|]. split; [reflexivity|]. split.
    + vm_compute. repeat constructor.
    + intros j _. reflexivity.
  - apply (proj1 (proj2 (waitForPodsReady_outcome
                           (Demo.env_with (fun _ _ => Demo.done Demo.pods_pending))
                           "default" 300 (Demo.world_of None)))).
    intros k _. split; [reflexivity|].
    vm_compute. apply Exists_cons_tl, Exists_cons_hd. discriminate.
Defined.

Lemma deployDocker_fire_and_forget_witness :
  fst (deployDocker "/proj" "demo" "v1" None None None
         (Demo.world_of (Some Demo.k8s_project))) = Ok tt
  /\ snd (fst (deployDocker_run Demo.E_broken "/proj" "demo" "v1" None None None
                 (Demo.world_of (Some Demo.k8s_project))))
     = Throw (ExecError "docker run -d -p 8000:8000 demo:v1" 1 "cannot connect").
Proof.
  destruct (deployDocker_fire_and_forget Demo.E_broken "/proj" "demo" "v1"
              None None None (Demo.world_of (Some Demo.k8s_project)))
    as [Hreturned [_ [_ Hfailed]]].
  split; [exact Hreturned|]. exact (proj1 (Hfailed eq_refl)).
Defined.

(** * Further proofs *)

(** ** The scan command *)

Lemma scanProject_missing_run (E : env)
  (projectPath projectName imageTag : string) (w : world) :
  resolve projectPath w = None ->
  scanProject E projectPath projectName imageTag w
  = (Throw (ENOENT projectPath),
     with_events w
       [Logged ("Received projectName: " ++ projectName ++ ", imageTag: " ++ imageTag);
        Spinner Start "Starting the project scan...";
        Logged ("Scanning directory: " ++ projectPath);
        Logged ("Error scanning project or building Docker image: "
                ++ message (ENOENT projectPath));
        Spinner Failure "Error scanning project or building Docker image"]).
Proof.
  intros Hres. unfold scanProject. run_steps.
  rewrite try_catch_bind_run with (1 := log_run _ _).
  rewrite with_events_app. cbn [List.app].
  unfold try_catch. unfold bind at 1, stat.
  rewrite resolve_with_events, Hres. run_steps. reflexivity.
Qed.

(** X1: a scan of a path that does not exist raises the error of
    [fs.stat] to the command line, after it has been logged and the
    spinner has failed; the command stops there: it neither announces the
    end of the build nor deploys anything. *)
Theorem scanCommand_missing_path (E : env) (projectPath : string)
  (a : answers) (w : world) :
  resolve projectPath w = None ->
  scanCommand E projectPath a w
  = (Throw (ENOENT projectPath),
     with_events w
       [Console ("User entered Docker image name: " ++ projectName_answer a);
        Console ("User entered Docker image tag: " ++ imageTag_answer a);
        Logged ("Received projectName: " ++ projectName_answer a
                ++ ", imageTag: " ++ imageTag_answer a);
        Spinner Start "Starting the project scan...";
        Logged ("Scanning directory: " ++ projectPath);
        Logged ("Error scanning project or building Docker image: "
                ++ message (ENOENT projectPath));
        Spinner Failure "Error scanning project or building Docker image"]).
Proof.
  intros Hres. unfold scanCommand. run_steps.
  erewrite bind_throw
    by (apply scanProject_missing_run; rewrite resolve_with_events; exact Hres).
  now rewrite with_events_app.
Qed.

(** ** The image build *)

Lemma log_lines_app (a b : list event) :
  log_lines (a ++ b) = (log_lines a ++ log_lines b)%list.
Proof.
  induction a as [|e a IH]; [reflexivity|].
  destruct e; simpl; now rewrite IH.
Qed.

Lemma commands_app (a b : list event) :
  commands (a ++ b) = (commands a ++ commands b)%list.
Proof.
  induction a as [|e a IH]; [reflexivity|].
  destruct e; simpl; now rewrite IH.
Qed.

Lemma writes_app (a b : list event) :
  writes (a ++ b) = (writes a ++ writes b)%list.
Proof.
  induction a as [|e a IH]; [reflexivity|].
  destruct e; simpl; now rewrite IH.
Qed.

Lemma commands_report_only (evs : list event) :
  forallb report_only evs = true -> commands evs = [] /\ writes evs = [].
Proof.
  induction evs as [|e evs IH]; [now split|].
  simpl. intros H. apply andb_true_iff in H as [He H].
  destruct e; try discriminate; now apply IH.
Qed.

Lemma issued_commands (w : world) :
  issued w = List.length (commands (events w)).
Proof.
  unfold issued. induction (events w) as [|e evs IH]; [reflexivity|].
  destruct e; simpl; now rewrite ?IH.
Qed.

Lemma issued_report_only (w : world) (evs : list event) :
  forallb report_only evs = true -> issued (with_events w evs) = issued w.
Proof.
  intros H. rewrite !issued_commands. cbn [events with_events].
  rewrite commands_app. destruct (commands_report_only _ H) as [-> _].
  now rewrite app_nil_r.
Qed.

(** The whole run of the builder once it has found its build file. *)
Lemma buildDockerImage_run (E : env)
  (projectPath projectName imageTag : string) (w : world)
  (files : list (string * node)) (d f : string) :
  resolve projectPath w = Some (Dir files) ->
  valid_node (Dir files) = true ->
  find (named "Dockerfile") (walk projectPath files) = Some (d, f) ->
  let command := build_command projectName imageTag d in
  let r := exec E (issued w) command in
  let start :=
    [Logged ("Starting Docker image build for project: " ++ projectName
             ++ " with tag: " ++ imageTag);
     Logged ("Using Dockerfile located at: " ++ path_join d f);
     Logged ("Using build context: " ++ d);
     Ran command; Console (stdout r); Console (stderr r)] in
  buildDockerImage E projectPath projectName imageTag w
  = if (code r =? 0)%Z
    then (Ok tt,
          with_events w
            (start ++ [Logged ("Docker image '" ++ projectName ++ ":" ++ imageTag
                               ++ "' built successfully.")]))
    else (Throw (BuildFailed (code r)),
          with_events w
            (start ++ [Logged ("Docker build failed with exit code "
                               ++ string_of_Z (code r) ++ ".");
                       Logged ("Failed to build Docker image for " ++ projectName
                               ++ ":" ++ imageTag ++ ": "
                               ++ message (BuildFailed (code r)))])).
Proof.
  intros Hp Hvalid Hfind command r start.
  assert (Hne := resolve_not_empty _ _ _ Hp).
  destruct (find_some _ _ Hfind) as [Hin _].
  destruct (walk_valid _ _ _ _ Hvalid Hne Hin) as [Hf Hd].
  assert (Hctx : path_dirname (path_join d f) = d).
  { apply path_dirname_join; [exact Hd|].
    unfold valid_name in Hf. apply andb_true_iff in Hf as [_ Hf].
    apply negb_true_iff in Hf. unfold path_sep in Hf.
    now rewrite has_char_includes in Hf. }
  unfold buildDockerImage. run_steps.
  match goal with
  | |- try_catch _ _ ?w' = _ =>
      rewrite try_catch_bind_run
        with (1 := findFileRecursively_run projectPath "Dockerfile" w' files Hp)
  end.
  rewrite Hfind. cbn [option_map].
  change (joined (d, f)) with (path_join d f).
  destruct (path_join d f) as [|c p] eqn:Hj; [now apply path_join_not_empty in Hj|].
  rewrite Hctx. unfold try_catch. run_steps.
  rewrite issued_with_events. cbn [filter is_Ran List.length]. rewrite Nat.add_0_r.
  fold (build_command projectName imageTag d). fold command. fold r.
  destruct (code r =? 0)%Z; run_steps; cbn [throw]; run_steps; reflexivity.
Qed.

(** X2: once [buildDockerImage] has found its build file, it issues one
    command, [docker build -t <name>:<tag> <directory of the build file>],
    and the exit code of that command decides the outcome: zero returns
    normally, any other code [c] raises [BuildFailed c] after the log has
    recorded the code and the failure. *)
Theorem buildDockerImage_exit_code (E : env)
  (projectPath projectName imageTag : string) (w : world)
  (files : list (string * node)) (d f : string) :
  resolve projectPath w = Some (Dir files) ->
  valid_node (Dir files) = true ->
  find (named "Dockerfile") (walk projectPath files) = Some (d, f) ->
  let command := build_command projectName imageTag d in
  let r := exec E (issued w) command in
  let built := buildDockerImage E projectPath projectName imageTag w in
  let starting :=
    "Starting Docker image build for project: " ++ projectName
    ++ " with tag: " ++ imageTag in
  let located := "Using Dockerfile located at: " ++ path_join d f in
  let context := "Using build context: " ++ d in
  let succeeded :=
    "Docker image '" ++ projectName ++ ":" ++ imageTag ++ "' built successfully." in
  let exited :=
    "Docker build failed with exit code " ++ string_of_Z (code r) ++ "." in
  let failure :=
    "Failed to build Docker image for " ++ projectName ++ ":" ++ imageTag
    ++ ": Docker build failed with exit code " ++ string_of_Z (code r) in
  fst built = (if (code r =? 0)%Z then Ok tt else Throw (BuildFailed (code r)))
  /\ commands (since w (snd built)) = [command]
  /\ writes (since w (snd built)) = []
  /\ log_lines (since w (snd built))
     = if (code r =? 0)%Z
       then [starting; located; context; succeeded]
       else [starting; located; context; exited; failure].
Proof.
  intros Hp Hvalid Hfind command r built. subst built. cbv zeta.
  rewrite (buildDockerImage_run E _ projectName imageTag _ _ _ _ Hp Hvalid Hfind).
  fold command. fold r.
  destruct (code r =? 0)%Z; cbn [fst snd]; rewrite since_with_events;
    repeat split; reflexivity.
Qed.

Lemma append_same_length (a b s t : string) :
  a ++ s = b ++ t -> String.length s = String.length t -> s = t.
Proof.
  revert b. induction a as [|x a IH]; intros b H Hlen.
  - destruct b as [|y b]; [exact H|].
    simpl in H. rewrite H in Hlen. simpl in Hlen. rewrite length_append in Hlen. lia.
  - destruct b as [|y b].
    + simpl in H. rewrite <- H in Hlen. simpl in Hlen. rewrite length_append in Hlen. lia.
    + simpl in H. injection H as _ H. now apply (IH b).
Qed.

(** A path that ends in [package.json] does not end in [dockerfile]. *)
Lemma manifest_is_no_build_file (file : string) :
  endsWith file "package.json" = true ->
  endsWith (toLowerCase file) "dockerfile" = false.
Proof.
  intros H. apply endsWith_iff in H as [pre ->].
  rewrite toLowerCase_app.
  destruct (endsWith _ "dockerfile") eqn:Hd; [|reflexivity].
  apply endsWith_iff in Hd as [pre' Hd]. exfalso.
  change (toLowerCase "package.json") with ("pa" ++ "ckage.json") in Hd.
  rewrite <- append_assoc in Hd.
  apply append_same_length in Hd; [discriminate | reflexivity].
Qed.

Lemma manifest_in_listing (projectPath : string) (files : list (string * node))
  (d f : string) :
  In (d, f) (walk projectPath files) ->
  endsWith f "package.json" = true ->
  existsb (fun file => negb (endsWith (toLowerCase file) "dockerfile")
                       && endsWith file "package.json")
    (list_files projectPath files) = true.
Proof.
  intros Hin Hf. apply existsb_exists. exists (path_join d f). split.
  - rewrite list_files_walk. apply in_map_iff. now exists (d, f).
  - assert (Hp : endsWith (path_join d f) "package.json" = true)
      by (now rewrite endsWith_join).
    now rewrite (manifest_is_no_build_file _ Hp), Hp.
Qed.

Lemma build_file_in_listing (projectPath : string) (files : list (string * node))
  (d f : string) :
  find (named "Dockerfile") (walk projectPath files) = Some (d, f) ->
  existsb (fun file => endsWith (toLowerCase file) "dockerfile")
    (list_files projectPath files) = true.
Proof.
  intros H. apply find_some in H as [Hin Hnamed].
  apply existsb_exists. exists (path_join d f). split.
  - rewrite list_files_walk. apply in_map_iff. now exists (d, f).
  - unfold named in Hnamed. simpl in Hnamed. apply String.eqb_eq in Hnamed.
    unfold path_join. rewrite <- append_assoc, toLowerCase_app, Hnamed.
    apply endsWith_app. reflexivity.
Qed.

(** The scan of a nodejs project that has a build file: the files are
    reported, then the image is built. *)
Lemma scanProject_build_run (E : env)
  (projectPath projectName imageTag : string) (w : world)
  (files : list (string * node)) (d f : string) :
  resolve projectPath w = Some (Dir files) ->
  valid_node (Dir files) = true ->
  find (named "Dockerfile") (walk projectPath files) = Some (d, f) ->
  existsb (fun file => negb (endsWith (toLowerCase file) "dockerfile")
                       && endsWith file "package.json")
    (list_files projectPath files) = true ->
  let command := build_command projectName imageTag d in
  let r := exec E (issued w) command in
  exists before after,
    scanProject E projectPath projectName imageTag w
    = (if (code r =? 0)%Z then Ok tt else Throw (BuildFailed (code r)),
       with_events w (before ++ Ran command :: after))
    /\ forallb report_only before = true
    /\ forallb report_only after = true.
Proof.
  intros Hp Hvalid Hfind Hpkg command r.
  pose proof (build_file_in_listing _ _ _ _ Hfind) as Hbuild.
  unfold scanProject. run_steps.
  rewrite try_catch_bind_run with (1 := log_run _ _). run_steps.
  erewrite try_catch_bind_run
    by (unfold stat; rewrite resolve_with_events, Hp; reflexivity).
  cbn [isDirectory negb].
  match goal with
  | |- context [try_catch _ _ ?w'] =>
      rewrite try_catch_bind_run
        with (1 := scanEntireDirectory_run projectPath w' files Hp);
      destruct (classify_run (list_files projectPath files) (false, false) w')
        as [found [Hrun Hrep]]
  end.
  rewrite try_catch_bind_run with (1 := Hrun).
  rewrite Hbuild, Hpkg. cbn [fst snd orb negb]. rewrite with_events_app.
  rewrite try_catch_bind_run with (1 := spinner_run _ _ _).
  rewrite with_events_app.
  unfold try_catch. run_steps.
  match goal with
  | |- context [bind _ _ (with_events w ?evs)] =>
      set (pre := evs);
      assert (Hpre : forallb report_only pre = true)
  end.
  { subst pre. cbn [forallb report_only andb].
    rewrite !forallb_app, Hrep. reflexivity. }
  pose proof (buildDockerImage_run E projectPath projectName imageTag
                (with_events w pre) files d f Hp Hvalid Hfind) as Hb.
  cbv zeta in Hb. rewrite (issued_report_only _ _ Hpre) in Hb.
  fold command in Hb. fold r in Hb.
  destruct (code r =? 0)%Z.
  - rewrite (bind_run _ _ _ _ _ Hb). run_steps.
    eexists (pre ++ [_; _; _])%list, _.
    split; [rewrite <- app_assoc; reflexivity|].
    split; [rewrite forallb_app, Hpre; reflexivity | reflexivity].
  - rewrite (bind_throw _ _ _ _ _ Hb). run_steps. cbn [throw].
    eexists (pre ++ [_; _; _])%list, _.
    split; [rewrite <- app_assoc; reflexivity|].
    split; [rewrite forallb_app, Hpre; reflexivity | reflexivity].
Qed.

(** X3: in a project that has a build file ([Dockerfile], whatever the
    case of its letters) and a file whose name ends in [package.json], the
    scan generates nothing and issues one command, the image build; it
    returns normally when the build exits with code zero and raises
    [BuildFailed] otherwise.  A build that fails stops the scan command:
    the error reaches the command line and nothing is deployed, whatever
    the answers on deployment would be. *)
Theorem scan_with_build_file (E : env) (projectPath : string) (a : answers)
  (w : world) (files : list (string * node)) (d f d' f' : string) :
  resolve projectPath w = Some (Dir files) ->
  valid_node (Dir files) = true ->
  find (named "Dockerfile") (walk projectPath files) = Some (d, f) ->
  In (d', f') (walk projectPath files) ->
  endsWith f' "package.json" = true ->
  let projectName := projectName_answer a in
  let imageTag := imageTag_answer a in
  let command := build_command projectName imageTag d in
  let r := exec E (issued w) command in
  let scanned := scanProject E projectPath projectName imageTag w in
  let ended := scanCommand E projectPath a w in
  fst scanned = (if (code r =? 0)%Z then Ok tt else Throw (BuildFailed (code r)))
  /\ commands (since w (snd scanned)) = [command]
  /\ writes (since w (snd scanned)) = []
  /\ ((code r =? 0)%Z = false ->
      fst ended = Throw (BuildFailed (code r))
      /\ commands (since w (snd ended)) = [command]
      /\ writes (since w (snd ended)) = []).
Proof.
  intros Hp Hvalid Hfind Hin Hf' projectName imageTag command r scanned ended.
  pose proof (manifest_in_listing _ _ _ _ Hin Hf') as Hpkg.
  assert (Hevs : forall before after,
    forallb report_only before = true -> forallb report_only after = true ->
    commands (before ++ Ran command :: after) = [command]
    /\ writes (before ++ Ran command :: after) = []).
  { intros before after Hb Ha. rewrite commands_app, writes_app. cbn [commands writes].
    destruct (commands_report_only _ Hb) as [-> ->].
    destruct (commands_report_only _ Ha) as [-> ->]. now split. }
  split; [|split; [|split]].
  - subst scanned.
    destruct (scanProject_build_run E projectPath projectName imageTag w files d f
                Hp Hvalid Hfind Hpkg) as [before [after [Hrun _]]].
    now rewrite Hrun.
  - subst scanned.
    destruct (scanProject_build_run E projectPath projectName imageTag w files d f
                Hp Hvalid Hfind Hpkg) as [before [after [Hrun [Hb Ha]]]].
    rewrite Hrun. cbn [snd]. rewrite since_with_events. now apply Hevs.
  - subst scanned.
    destruct (scanProject_build_run E projectPath projectName imageTag w files d f
                Hp Hvalid Hfind Hpkg) as [before [after [Hrun [Hb Ha]]]].
    rewrite Hrun. cbn [snd]. rewrite since_with_events. now apply Hevs.
  - intros Hcode. subst ended. unfold scanCommand. run_steps.
    match goal with
    | |- context [bind (scanProject E projectPath _ _) _ (with_events w ?evs)] =>
        set (pre := evs);
        assert (Hpre : forallb report_only pre = true) by reflexivity
    end.
    destruct (scanProject_build_run E projectPath projectName imageTag
                (with_events w pre) files d f Hp Hvalid Hfind Hpkg)
      as [before [after [Hrun [Hb Ha]]]].
    rewrite (issued_report_only _ _ Hpre) in Hrun.
    fold command in Hrun. fold r in Hrun. rewrite Hcode in Hrun.
    fold projectName. fold imageTag.
    rewrite (bind_throw _ _ _ _ _ Hrun). cbn [fst snd].
    rewrite with_events_app, since_with_events.
    split; [reflexivity|].
    rewrite commands_app, writes_app.
    destruct (commands_report_only _ Hpre) as [-> ->]. cbn [List.app].
    now apply Hevs.
Qed.

(** ** What a scan does to the world *)

Lemma respects_classify_report (kp kc : bool) (allowed : event -> bool)
  (allFiles : list string) (flags : bool * bool) :
  (forall e, report_only e = true -> allowed e = true) ->
  respects (changes kp kc allowed) (classify allFiles flags).
Proof.
  intros Hallowed w.
  destruct (classify_run allFiles flags w) as [found [Hrun Hrep]].
  rewrite Hrun. cbn [snd]. apply changes_with_events.
  rewrite forallb_forall in *. auto.
Qed.

Lemma respects_generateDockerfile (E : env) (kc : bool)
  (projectType projectPath : string) :
  respects (changes false kc (scan_event projectPath))
    (generateDockerfile E projectType projectPath).
Proof.
  unfold generateDockerfile, analyzeNodeProject. footprint.
  all: apply respects_writeFile_at_root;
    [reflexivity | cbn [scan_event]; apply String.eqb_refl].
Qed.

Lemma respects_buildDockerImage_scan (E : env) (kp kc : bool)
  (projectPath projectName imageTag : string) :
  respects (changes kp kc (scan_event projectPath))
    (buildDockerImage E projectPath projectName imageTag).
Proof. unfold buildDockerImage. footprint. Qed.

Lemma respects_scanProject (E : env) (projectPath projectName imageTag : string) :
  respects (changes false true (scan_event projectPath))
    (scanProject E projectPath projectName imageTag).
Proof.
  unfold scanProject. footprint.
  - unfold scanEntireDirectory. destruct (projectPath =? EmptyString); [footprint|].
    pure_step.
  - apply respects_classify_report. now intros [].
  - apply respects_generateDockerfile.
  - apply respects_buildDockerImage_scan.
Qed.

Lemma commands_allowed (allowed : event -> bool) (evs : list event) (c : string) :
  forallb allowed evs = true -> In c (commands evs) -> allowed (Ran c) = true.
Proof.
  induction evs as [|e evs IH]; [contradiction|].
  simpl. intros H Hin. apply andb_true_iff in H as [He H].
  destruct e; simpl in Hin; auto.
  destruct Hin as [<- | Hin]; auto.
Qed.

Lemma writes_allowed (allowed : event -> bool) (evs : list event)
  (p content : string) :
  forallb allowed evs = true -> In (p, content) (writes evs) ->
  allowed (Wrote p content) = true.
Proof.
  induction evs as [|e evs IH]; [contradiction|].
  simpl. intros H Hin. apply andb_true_iff in H as [He H].
  destruct e; simpl in Hin; auto.
  destruct Hin as [Heq | Hin]; auto. now injection Heq as <- <-.
Qed.

(** X4: whatever the project and the answers of the tools, every command
    a scan issues is a [docker build], the only file it writes, its log
    apart, is the [Dockerfile] of the project root, and it never waits. *)
Theorem scanProject_footprint (E : env)
  (projectPath projectName imageTag : string) (w : world) :
  let w' := snd (scanProject E projectPath projectName imageTag w) in
  (forall command, In command (commands (since w w')) ->
                   startsWith command "docker build -t " = true)
  /\ (forall p content, In (p, content) (writes (since w w')) ->
                        p = path_join projectPath "Dockerfile")
  /\ (forall ms, ~ In (Slept ms) (since w w')).
Proof.
  intros w'. subst w'.
  destruct (respects_scanProject E projectPath projectName imageTag w)
    as [_ [_ [evs [Hevs Hall]]]].
  rewrite (since_events _ _ _ Hevs).
  split; [|split].
  - intros command Hin. exact (commands_allowed _ _ _ Hall Hin).
  - intros p content Hin. apply String.eqb_eq.
    exact (writes_allowed _ _ _ _ Hall Hin).
  - intros ms Hin. rewrite forallb_forall in Hall.
    specialize (Hall _ Hin). discriminate.
Qed.

(** ** A scan that writes the build file *)









Lemma issued_no_command (w w' : world) (evs : list event) :
  events w' = (events w ++ evs)%list -> commands evs = [] -> issued w' = issued w.
Proof.
  intros H Hc. rewrite !issued_commands, H, commands_app, Hc. now rewrite app_nil_r.
Qed.




(** ** The classification of the manifests *)

(** A path cannot end in [service.yaml] and in [deployment.yaml]. *)
Lemma service_is_no_deployment (file : string) :
  endsWith file "service.yaml" = true -> endsWith file "deployment.yaml" = false.
Proof.
  intros H. apply endsWith_iff in H as [pre ->].
  destruct (endsWith _ "deployment.yaml") eqn:Hd; [|reflexivity].
  apply endsWith_iff in Hd as [pre' Hd]. exfalso.
  change "deployment.yaml" with ("dep" ++ "loyment.yaml") in Hd.
  rewrite <- append_assoc in Hd.
  apply append_same_length in Hd; [discriminate | reflexivity].
Qed.

Lemma classify_yaml_filters (allFiles : list string) :
  classify_yaml allFiles
  = (filter (fun file => endsWith file "service.yaml") allFiles,
     filter (fun file => endsWith file "deployment.yaml") allFiles).
Proof.
  induction allFiles as [|file rest IH]; [reflexivity|].
  cbn [classify_yaml filter]. rewrite IH.
  destruct (endsWith file "service.yaml") eqn:Hs.
  - now rewrite (service_is_no_deployment _ Hs).
  - now destruct (endsWith file "deployment.yaml").
Qed.

(** X6: [scanYAMLFiles] fails as [scanEntireDirectory] does and, where
    that returns a listing, returns two sublists of it in its order: the
    paths that end in [service.yaml] and the paths that end in
    [deployment.yaml] (letter case respected).  No path is in both, so
    that the order of the two tests plays no part. *)
Theorem scanYAMLFiles_buckets (directory : string) (w : world) :
  match scanEntireDirectory directory w with
  | (Ok listing, _) =>
      scanYAMLFiles directory w
      = (Ok (filter (fun file => endsWith file "service.yaml") listing,
             filter (fun file => endsWith file "deployment.yaml") listing), w)
      /\ forall file,
           ~ (endsWith file "service.yaml" = true
              /\ endsWith file "deployment.yaml" = true)
  | (Throw e, _) => scanYAMLFiles directory w = (Throw e, w)
  end.
Proof.
  unfold scanYAMLFiles, scanEntireDirectory.
  destruct (directory =? EmptyString); [reflexivity|].
  unfold bind.
  destruct (project w) as [[content | files]|]; try reflexivity.
  split; [now rewrite classify_yaml_filters|].
  intros file [Hs Hd]. rewrite (service_is_no_deployment _ Hs) in Hd. discriminate.
Qed.

(** ** The apply loops *)

Lemma applicable_with_events (E : env) (projectPath : string) (w : world)
  (evs : list event) :
  applicable E projectPath (with_events w evs) = applicable E projectPath w.
Proof. reflexivity. Qed.

Lemma one_command (before after : list event) (command : string) :
  forallb report_only before = true -> forallb report_only after = true ->
  commands (before ++ Ran command :: after) = [command]
  /\ writes (before ++ Ran command :: after) = []
  /\ forallb no_write (before ++ Ran command :: after) = true.
Proof.
  intros Hb Ha. rewrite commands_app, writes_app, forallb_app.
  cbn [commands writes forallb].
  destruct (commands_report_only _ Hb) as [-> ->].
  destruct (commands_report_only _ Ha) as [-> ->].
  assert (Hrn : forall l, forallb report_only l = true -> forallb no_write l = true).
  { intros l Hl. rewrite forallb_forall in *. intros e He.
    specialize (Hl e He). now destruct e. }
  rewrite (Hrn _ Hb), (Hrn _ Ha). now repeat split.
Qed.

(** A turn of an apply loop on a file it skips. *)
Lemma applyYAML_skip (E : env) (kind Kind projectPath file : string) (w : world) :
  applicable E projectPath w file = false ->
  exists evs,
    applyYAML E kind Kind projectPath file w = (Ok tt, with_events w evs)
    /\ forallb report_only evs = true.
Proof.
  unfold applicable, applyYAML. destruct (file =? EmptyString).
  - intros _. eexists. rewrite log_run. split; reflexivity.
  - cbn [negb andb]. intros H. run_steps.
    unfold bind at 1. unfold pathExists in *. cbn [fst] in H.
    cbn [project cwd_files with_events]. rewrite H. cbn [negb].
    rewrite log_run, with_events_app. eexists. split; reflexivity.
Qed.

Lemma applyYAML_applies (E : env) (kind Kind projectPath file : string) (w : world) :
  applicable E projectPath w file = true ->
  let command := apply_command file in
  let r := exec E (issued w) command in
  exists before after,
    applyYAML E kind Kind projectPath file w
    = (if failed r then Throw (ExecError command (code r) (stderr r)) else Ok tt,
       with_events w (before ++ Ran command :: after))
    /\ forallb report_only before = true
    /\ forallb report_only after = true.
Proof.
  intros H command r. unfold applicable in H.
  apply andb_true_iff in H as [Hne Hex].
  apply negb_true_iff in Hne. apply String.eqb_neq in Hne.
  assert (Hex' : fst (pathExists E projectPath file w) = Ok true).
  { unfold pathExists in *. cbn [fst] in *. now rewrite Hex. }
  rewrite (applyYAML_run E kind Kind projectPath file w Hne Hex').
  fold command. fold r.
  destruct (failed r);
    (exists [Logged ("Applying " ++ kind ++ " YAML: " ++ file);
             Spinner Text ("Applying " ++ kind ++ " YAML: " ++ file)];
     eexists; split; [reflexivity | split; reflexivity]).
Qed.

Lemma applyAll_app (E : env) (kind Kind projectPath : string)
  (l1 l2 : list string) (w : world) :
  applyAll E kind Kind projectPath (l1 ++ l2) w
  = bind (applyAll E kind Kind projectPath l1)
      (fun _ => applyAll E kind Kind projectPath l2) w.
Proof.
  revert w. induction l1 as [|file rest IH]; intros w; [reflexivity|].
  cbn [List.app applyAll]. rewrite bind_bind.
  destruct (applyYAML E kind Kind projectPath file w) as [[[]|e] w1] eqn:H.
  - rewrite !(bind_run _ _ _ _ _ H). apply IH.
  - now rewrite !(bind_throw _ _ _ _ _ H).
Qed.

(** The loop on files whose apply commands succeed. *)
Lemma applyAll_run (E : env) (kind Kind projectPath : string) (files : list string) :
  (forall n file, In file files -> failed (exec E n (apply_command file)) = false) ->
  forall w, exists evs,
    applyAll E kind Kind projectPath files w = (Ok tt, with_events w evs)
    /\ commands evs = map apply_command (filter (applicable E projectPath w) files)
    /\ writes evs = []
    /\ forallb no_write evs = true.
Proof.
  induction files as [|file rest IH]; intros Hok w.
  - exists []. rewrite with_events_nil. now repeat split.
  - cbn [applyAll filter].
    assert (Hrest : forall n f, In f rest -> failed (exec E n (apply_command f)) = false)
      by (intros n f Hf; apply Hok; now right).
    destruct (applicable E projectPath w file) eqn:Happ.
    + destruct (applyYAML_applies E kind Kind projectPath file w Happ)
        as [before [after [Hrun [Hb Ha]]]].
      rewrite (Hok _ file (or_introl eq_refl)) in Hrun.
      rewrite (bind_run _ _ _ _ _ Hrun).
      destruct (IH Hrest (with_events w (before ++ Ran (apply_command file) :: after)))
        as [evs [Hrest_run [Hc [Hw Hn]]]].
      rewrite Hrest_run, with_events_app. eexists. split; [reflexivity|].
      destruct (one_command before after (apply_command file) Hb Ha) as [H1 [H2 H3]].
      rewrite commands_app, writes_app, forallb_app, H1, H2, H3, Hc, Hw, Hn.
      rewrite applicable_with_events. now repeat split.
    + destruct (applyYAML_skip E kind Kind projectPath file w Happ) as [skipped [Hrun Hs]].
      rewrite (bind_run _ _ _ _ _ Hrun).
      destruct (IH Hrest (with_events w skipped)) as [evs [Hrest_run [Hc [Hw Hn]]]].
      rewrite Hrest_run, with_events_app. eexists. split; [reflexivity|].
      destruct (commands_report_only _ Hs) as [Hsc Hsw].
      rewrite !commands_app, !writes_app, Hsc, Hsw, Hc, Hw.
      rewrite applicable_with_events.
      repeat split; try reflexivity.
      rewrite forallb_app, Hn.
      assert (Hrn : forallb no_write skipped = true).
      { rewrite forallb_forall in *. intros e He. specialize (Hs e He). now destruct e. }
      now rewrite Hrn.
Qed.


(** X8: an apply loop stops at the first command that fails: the files
    before it have been applied, the error of the failed command is
    raised, and no file after it is applied; what has been applied stays
    applied. *)
Theorem applyAll_stops_at_failure (E : env) (kind Kind projectPath : string)
  (before after : list string) (file : string) (w : world) :
  (forall n f, In f before -> failed (exec E n (apply_command f)) = false) ->
  applicable E projectPath w file = true ->
  let earlier := filter (applicable E projectPath w) before in
  let command := apply_command file in
  let r := exec E (issued w + List.length earlier) command in
  failed r = true ->
  let applied := applyAll E kind Kind projectPath (before ++ file :: after) w in
  fst applied = Throw (ExecError command (code r) (stderr r))
  /\ commands (since w (snd applied))
     = (map apply_command earlier ++ [command])%list.
Proof.
  intros Hok Happ earlier command r Hfailed applied. subst applied.
  rewrite applyAll_app.
  destruct (applyAll_run E kind Kind projectPath before Hok w)
    as [evs [Hrun [Hc [Hw _]]]].
  rewrite (bind_run _ _ _ _ _ Hrun). cbn [applyAll].
  destruct (applyYAML_applies E kind Kind projectPath file (with_events w evs))
    as [pre [post [Hfile [Hpre Hpost]]]];
    [now rewrite applicable_with_events|].
  assert (Hissued : issued (with_events w evs) = issued w + List.length earlier).
  { rewrite !issued_commands. cbn [events with_events].
    rewrite commands_app, length_app, Hc, length_map. reflexivity. }
  rewrite Hissued in Hfile. fold command in Hfile. fold r in Hfile.
  rewrite Hfailed in Hfile.
  rewrite (bind_throw _ _ _ _ _ Hfile). cbn [fst snd].
  rewrite with_events_app, since_with_events. split; [reflexivity|].
  destruct (one_command pre post command Hpre Hpost) as [H1 _].
  now rewrite commands_app, Hc, H1.
Qed.

(** ** The driver of the orchestrator on the manifests of the tree *)

Lemma list_files_assign_file (directory name content content' : string)
  (files : list (string * node)) :
  lookup name files = Some (File content) ->
  list_files directory (assign name (File content') files)
  = list_files directory files.
Proof.
  induction files as [|[f n] rest IH]; [discriminate|].
  simpl. destruct (String.eqb_spec f name) as [-> | Hne].
  - intros H. injection H as ->. reflexivity.
  - intros H. simpl. now rewrite IH.
Qed.

Lemma paths_node_Dir (fullPath : string) (files : list (string * node)) :
  paths_node fullPath (Dir files)
  = fullPath :: flat_map (fun e => paths_node (path_join fullPath (fst e)) (snd e)) files.
Proof.
  cbn [paths_node]. f_equal.
  induction files as [|[f n] rest IH]; [reflexivity|].
  cbn [flat_map fst snd]. now rewrite <- IH.
Qed.

Lemma list_files_flat_map (fullPath : string) (files : list (string * node)) :
  list_files fullPath files
  = flat_map (fun e => list_node (path_join fullPath (fst e)) (snd e)) files.
Proof.
  induction files as [|[f n] rest IH]; [reflexivity|].
  cbn [list_files flat_map fst snd]. now rewrite IH.
Qed.

(** Every path [scanEntireDirectory] lists is a path of the tree. *)
Lemma list_node_paths (n : node) :
  forall fullPath p, In p (list_node fullPath n) -> In p (paths_node fullPath n).
Proof.
  induction n as [content | files IH] using node_induction; intros fullPath p Hin.
  - exact Hin.
  - rewrite list_node_Dir, list_files_flat_map in Hin. rewrite paths_node_Dir.
    right. apply in_flat_map in Hin as [[f n] [Hf Hp]].
    apply in_flat_map. exists (f, n). split; [exact Hf|].
    rewrite Forall_forall in IH. exact (IH (f, n) Hf _ _ Hp).
Qed.

Lemma listed_applicable (E : env) (projectPath : string) (w : world)
  (files : list (string * node)) (p : string) :
  project w = Some (Dir files) ->
  In p (list_files projectPath files) ->
  applicable E projectPath w p = true.
Proof.
  intros Hp Hin. unfold applicable, pathExists. cbn [fst]. rewrite Hp.
  assert (Hne : (p =? EmptyString) = false).
  { rewrite list_files_walk in Hin. apply in_map_iff in Hin as [[d f] [<- _]].
    apply path_join_eqb_empty. }
  rewrite Hne. cbn [negb andb]. apply orb_true_iff. left.
  apply existsb_exists. exists p. split; [|apply String.eqb_refl].
  apply list_node_paths. now rewrite list_node_Dir.
Qed.


Lemma respects_update_containers_report (kp kc : bool) (newImage : string)
  (containers : list value) :
  respects (changes kp kc report_only) (update_containers newImage containers).
Proof.
  induction containers as [|c rest IH]; simpl; footprint. exact IH.
Qed.

(** The rewrite of the manifest: what it reads, what it writes. *)
Lemma updateWebDeploymentImage_steps (E : env)
  (projectPath projectName imageTag content : string) (w : world)
  (files : list (string * node)) (manifest : value) (containers : list value) :
  project w = Some (Dir files) ->
  lookup "web-deployment.yaml" files = Some (File content) ->
  yaml_load E content = Some manifest ->
  containers_of manifest = Some containers ->
  Forall is_object containers ->
  let rewritten :=
    yaml_dump E
      (put_path containers_path
         (VArr (map (with_image (projectName ++ ":" ++ imageTag)) containers))
         manifest) in
  exists w1 evs,
    updateWebDeploymentImage E projectPath projectName imageTag w = (Ok tt, w1)
    /\ project w1 = Some (Dir (assign "web-deployment.yaml" (File rewritten) files))
    /\ cwd_files w1 = cwd_files w
    /\ events w1
       = (events w ++ evs
            ++ [Wrote (path_join projectPath "web-deployment.yaml") rewritten;
                Logged ("Updated web-deployment.yaml with new image: "
                        ++ projectName ++ ":" ++ imageTag)])%list
    /\ forallb report_only evs = true.
Proof.
  intros Hp Hfile Hload Hcontainers Hobjects rewritten.
  apply containers_of_inv in Hcontainers
    as [spec [template [podSpec [H1 [H2 [H3 H4]]]]]].
  destruct (update_containers_run (projectName ++ ":" ++ imageTag) containers
              Hobjects w) as [evs [Hrun Hrep]].
  assert (Hfree : forall sub, lookup "web-deployment.yaml" files <> Some (Dir sub))
    by (intros sub; rewrite Hfile; discriminate).
  unfold updateWebDeploymentImage.
  eexists _, evs. split.
  - apply try_catch_ok.
    rewrite (bind_run _ _ _ _ _ (readFile_at_root_run _ _ _ _ _ Hp Hfile)).
    rewrite Hload. run_steps. rewrite H1. run_steps. rewrite H2. run_steps.
    rewrite H3. run_steps. rewrite H4. run_steps. cbn [iterate]. run_steps.
    rewrite (bind_run _ _ _ _ _ Hrun).
    rewrite (bind_run _ _ _ _ _
               (writeFile_at_root_run projectPath "web-deployment.yaml" _
                  (with_events w evs) files Hp Hfree)).
    rewrite log_run. reflexivity.
  - cbn [project cwd_files events with_events]. repeat split; try assumption.
    now rewrite <- !app_assoc.
Qed.






(** ** The port of the service *)

Lemma take_digits_spec (s : string) :
  s = fst (take_digits s) ++ snd (take_digits s)
  /\ all_digits (fst (take_digits s)) = true.
Proof.
  induction s as [|c s [IH1 IH2]]; [now split|].
  cbn [take_digits]. destruct (is_digit c) eqn:Hc; [|now split].
  destruct (take_digits s) as [d r]. cbn [fst snd] in *. split.
  - simpl. now rewrite <- IH1.
  - simpl. now rewrite Hc.
Qed.

Lemma take_digits_app (digits rest : string) :
  all_digits digits = true -> startsWith rest "/" = true ->
  take_digits (digits ++ rest) = (digits, rest).
Proof.
  intros Hd Hr. induction digits as [|c d IH].
  - destruct rest as [|x r]; [discriminate|].
    cbn [startsWith] in Hr. apply andb_true_iff in Hr as [Hx _].
    apply Ascii.eqb_eq in Hx. subst x. reflexivity.
  - simpl in Hd. apply andb_true_iff in Hd as [Hc Hd].
    simpl. rewrite Hc, (IH Hd). reflexivity.
Qed.

(** X10: the port read in the [PORT(S)] column is the digits of a colon,
    a run of digits that is not empty, a slash: [port_match] finds a port
    exactly when the text holds such a part, and the port it returns is
    one of them (as [32441] in [80:32441/TCP]); a column without node
    port, as [80/TCP], gives none. *)
Theorem port_match_spec (portInfo : string) :
  (forall port,
     port_match portInfo = Some port ->
     port <> EmptyString /\ all_digits port = true
     /\ includes portInfo (":" ++ port ++ "/") = true)
  /\ (port_match portInfo <> None
      <-> exists before port after,
            port <> EmptyString /\ all_digits port = true
            /\ portInfo = before ++ ":" ++ port ++ "/" ++ after).
Proof.
  assert (Hsound : forall s port,
    port_match s = Some port ->
    port <> EmptyString /\ all_digits port = true
    /\ exists before after, s = before ++ ":" ++ port ++ "/" ++ after).
  { induction s as [|c s IH]; intros port H; [discriminate|].
    cbn [port_match] in H.
    assert (Hrest : port_match s = Some port ->
              port <> EmptyString /\ all_digits port = true
              /\ exists before after, String c s = before ++ ":" ++ port ++ "/" ++ after).
    { intros Hs. destruct (IH port Hs) as [H1 [H2 [before [after ->]]]].
      split; [exact H1|]. split; [exact H2|]. now exists (String c before), after. }
    destruct (Ascii.eqb_spec c ":"%char) as [-> | Hc]; [|now apply Hrest].
    destruct (take_digits_spec s) as [Hs Hd].
    destruct (take_digits s) as [digits rest]. cbn [fst snd] in *.
    destruct (negb (digits =? EmptyString) && startsWith rest "/") eqn:Hok;
      [|now apply Hrest].
    injection H as <-. apply andb_true_iff in Hok as [Hne Hslash].
    apply negb_true_iff, String.eqb_neq in Hne.
    apply startsWith_iff in Hslash as [after ->].
    split; [exact Hne|]. split; [exact Hd|].
    exists EmptyString, after. now rewrite Hs. }
  split.
  - intros port H. destruct (Hsound _ _ H) as [H1 [H2 [before [after ->]]]].
    split; [exact H1|]. split; [exact H2|].
    apply includes_iff. exists before, after. now rewrite !append_assoc.
  - split.
    + destruct (port_match portInfo) as [port|] eqn:H; [|congruence]. intros _.
      destruct (Hsound _ _ H) as [H1 [H2 [before [after ->]]]].
      now exists before, port, after.
    + intros [before [port [after [Hne [Hd ->]]]]].
      induction before as [|c before IH].
      * cbn [append port_match]. change (Ascii.eqb ":" ":") with true. cbv iota.
        rewrite take_digits_app by (try assumption; reflexivity).
        apply String.eqb_neq in Hne. rewrite Hne. cbn. discriminate.
      * change (String c before ++ ":" ++ port ++ "/" ++ after)
          with (String c (before ++ ":" ++ port ++ "/" ++ after)).
        cbn [port_match].
        destruct (Ascii.eqb c ":"); [|exact IH].
        destruct (take_digits _) as [digits rest].
        destruct (negb (digits =? EmptyString) && startsWith rest "/");
          [discriminate | exact IH].
Qed.

Lemma servicePort_app (projectName : string) (l1 l2 : list string) :
  forall found,
    servicePort projectName (l1 ++ l2) found
    = match servicePort projectName l1 found with
      | Ok found' => servicePort projectName l2 found'
      | Throw e => Throw e
      end.
Proof.
  induction l1 as [|line rest IH]; intros found; [reflexivity|].
  cbn [List.app servicePort].
  destruct (trim line =? EmptyString); [apply IH|].
  destruct ((show_string (column 0 line) =? projectName ++ "-service")
            || (show_string (column 0 line) =? "web-service")); [|apply IH].
  destruct (column 4 line) as [portInfo|]; [|reflexivity].
  destruct (port_match portInfo); apply IH.
Qed.

Lemma servicePort_other_rows (projectName : string) (lines : list string) :
  (forall line, In line lines -> service_row projectName line = false) ->
  forall found, servicePort projectName lines found = Ok found.
Proof.
  induction lines as [|line rest IH]; intros H found; [reflexivity|].
  cbn [servicePort].
  assert (Hrest : forall l, In l rest -> service_row projectName l = false)
    by (intros l Hl; apply H; now right).
  specialize (H line (or_introl eq_refl)). unfold service_row in H.
  destruct (trim line =? EmptyString); [now apply IH|].
  cbn [negb andb] in H. rewrite H. now apply IH.
Qed.

(** X11: the loop of [deployKubernetes] over the table of services passes
    over the rows of other services; among the rows of the service of the
    project and of [web-service] the last one whose [PORT(S)] column holds
    a node port decides, whatever the rows before it gave; and such a row
    with fewer than five columns raises a [TypeError]. *)
Theorem servicePort_last_row (projectName : string)
  (before after : list string) (row : string) (found earlier : option string) :
  servicePort projectName before found = Ok earlier ->
  service_row projectName row = true ->
  (forall line, In line after -> service_row projectName line = false) ->
  (forall portInfo port,
     column 4 row = Some portInfo -> port_match portInfo = Some port ->
     servicePort projectName (before ++ row :: after) found = Ok (Some port))
  /\ (forall portInfo,
        column 4 row = Some portInfo -> port_match portInfo = None ->
        servicePort projectName (before ++ row :: after) found = Ok earlier)
  /\ (column 4 row = None ->
      servicePort projectName (before ++ row :: after) found
      = Throw (TypeError "Cannot read properties of undefined (reading 'match')")).
Proof.
  intros Hbefore Hrow Hafter. unfold service_row in Hrow.
  apply andb_true_iff in Hrow as [Hblank Hname].
  apply negb_true_iff in Hblank.
  split; [|split].
  - intros portInfo port Hcol Hport.
    rewrite servicePort_app, Hbefore. cbn [servicePort].
    rewrite Hblank, Hname, Hcol, Hport. now apply servicePort_other_rows.
  - intros portInfo Hcol Hport.
    rewrite servicePort_app, Hbefore. cbn [servicePort].
    rewrite Hblank, Hname, Hcol, Hport. now apply servicePort_other_rows.
  - intros Hcol. rewrite servicePort_app, Hbefore. cbn [servicePort].
    now rewrite Hblank, Hname, Hcol.
Qed.

(** ** The time the readiness poll takes *)

Section PollTime.

Variable E : env.
Variables (namespace : string) (timeout startTime : Z).

Lemma sleeps_app (a b : list event) :
  sleeps (a ++ b) = (sleeps a ++ sleeps b)%list.
Proof.
  induction a as [|e a IH]; [reflexivity|].
  destruct e; simpl; now rewrite IH.
Qed.

Lemma turn_late (fuel : nat) (w : world) :
  (clock w - startTime <? timeout * 1000)%Z = false ->
  poll E (S fuel) namespace timeout startTime w
  = (Throw ReadinessTimeout,
     with_events w
       [Spinner Failure ("Pods did not become ready within "
                         ++ string_of_Z timeout ++ " seconds.")]).
Proof.
  intros H. cbn [poll]. unfold bind at 1, Date_now at 1. rewrite H.
  run_steps. reflexivity.
Qed.

Lemma turn_ready (fuel : nat) (w : world) :
  (clock w - startTime <? timeout * 1000)%Z = true ->
  failed (exec E (issued w) (poll_command namespace)) = false ->
  allPodsReady (stdout (exec E (issued w) (poll_command namespace))) = true ->
  poll E (S fuel) namespace timeout startTime w
  = (Ok tt,
     with_events w [Ran (poll_command namespace);
                    Spinner Succeed "All pods are running."]).
Proof.
  intros H Hf Hr. cbn [poll]. unfold bind at 1, Date_now at 1. rewrite H.
  unfold allPodsReady in Hr.
  destruct (first_not_running _) eqn:Hfirst; [discriminate|].
  erewrite bind_run.
  2:{ apply try_catch_ok. run_steps. rewrite Hf. run_steps. rewrite Hfirst.
      run_steps. reflexivity. }
  reflexivity.
Qed.

Lemma turn_again (fuel : nat) (w : world) :
  (clock w - startTime <? timeout * 1000)%Z = true ->
  failed (exec E (issued w) (poll_command namespace)) = false ->
  allPodsReady (stdout (exec E (issued w) (poll_command namespace))) = false ->
  exists text,
    poll E (S fuel) namespace timeout startTime w
    = poll E fuel namespace timeout startTime
        (turned w [Ran (poll_command namespace); Spinner Text text; Slept 5000]).
Proof.
  intros H Hf Hr. cbn [poll]. unfold bind at 1, Date_now at 1. rewrite H.
  unfold allPodsReady in Hr.
  destruct (first_not_running _) as [[podName podStatus]|] eqn:Hfirst;
    [|discriminate].
  erewrite bind_run.
  2:{ apply try_catch_ok. run_steps. rewrite Hf. run_steps. rewrite Hfirst.
      run_steps. reflexivity. }
  cbv iota. unfold bind at 1, sleep at 1. eexists.
  f_equal. unfold turned, with_events. cbn [project cwd_files events clock].
  now rewrite <- app_assoc.
Qed.

Lemma issued_turned (w : world) (text : string) :
  issued (turned w [Ran (poll_command namespace); Spinner Text text; Slept 5000])
  = S (issued w).
Proof.
  rewrite !issued_commands. cbn [events turned]. rewrite commands_app, length_app.
  simpl. lia.
Qed.

(** The poll from a world on: [k] samples that are not ready, then one
    that is. *)
Lemma poll_ready_after (k : nat) :
  forall (fuel : nat) (w : world),
    (k < fuel)%nat ->
    (clock w - startTime + 5000 * Z.of_nat k < timeout * 1000)%Z ->
    (0 <= clock w - startTime)%Z ->
    (forall j, (j < k)%nat ->
       failed (exec E (issued w + j) (poll_command namespace)) = false
       /\ allPodsReady (stdout (exec E (issued w + j) (poll_command namespace)))
          = false) ->
    failed (exec E (issued w + k) (poll_command namespace)) = false ->
    allPodsReady (stdout (exec E (issued w + k) (poll_command namespace))) = true ->
    exists w' evs,
      poll E fuel namespace timeout startTime w = (Ok tt, w')
      /\ clock w' = (clock w + 5000 * Z.of_nat k)%Z
      /\ events w' = (events w ++ evs)%list
      /\ commands evs = repeat (poll_command namespace) (S k)
      /\ writes evs = []
      /\ sleeps evs = repeat 5000%Z k.
Proof.
  induction k as [|k IH]; intros fuel w Hfuel Htime Hstart Hbefore Hf Hr;
    (destruct fuel as [|fuel]; [lia|]);
    rewrite Nat.add_0_r in * || idtac.
  - rewrite (turn_ready fuel w); [| apply Z.ltb_lt; lia | exact Hf | exact Hr].
    eexists _, _. split; [reflexivity|]. cbn [clock events with_events].
    split; [lia|]. now repeat split.
  - destruct (Hbefore 0%nat ltac:(lia)) as [Hf0 Hr0]. rewrite Nat.add_0_r in Hf0, Hr0.
    destruct (turn_again fuel w) as [text Hturn];
      [apply Z.ltb_lt; lia | exact Hf0 | exact Hr0 |].
    rewrite Hturn.
    set (w1 := turned w [Ran (poll_command namespace); Spinner Text text; Slept 5000]).
    assert (Hissued : issued w1 = S (issued w)) by apply issued_turned.
    destruct (IH fuel w1) as [w' [evs [Hrun [Hclock [Hevs [Hc [Hw Hs]]]]]]].
    + lia.
    + cbn [clock w1 turned]. lia.
    + cbn [clock w1 turned]. lia.
    + intros j Hj. rewrite Hissued.
      replace (S (issued w) + j)%nat with (issued w + S j)%nat by lia.
      apply Hbefore. lia.
    + rewrite Hissued.
      now replace (S (issued w) + k)%nat with (issued w + S k)%nat by lia.
    + rewrite Hissued.
      now replace (S (issued w) + k)%nat with (issued w + S k)%nat by lia.
    + exists w', ([Ran (poll_command namespace); Spinner Text text; Slept 5000] ++ evs)%list.
      split; [exact Hrun|]. split; [rewrite Hclock; cbn [clock w1 turned]; lia|].
      split; [rewrite Hevs; cbn [events w1 turned]; now rewrite <- app_assoc|].
      cbn [List.app commands writes sleeps repeat]. now rewrite Hc, Hw, Hs.
Qed.

(** The poll from a world on: [n] samples in time, none of them ready. *)
Lemma poll_gives_up (n : nat) :
  forall (fuel : nat) (w : world),
    (n < fuel)%nat ->
    (0 <= clock w - startTime)%Z ->
    (timeout * 1000 <= clock w - startTime + 5000 * Z.of_nat n)%Z ->
    (forall j, (j < n)%nat ->
       (clock w - startTime + 5000 * Z.of_nat j < timeout * 1000)%Z
       /\ failed (exec E (issued w + j) (poll_command namespace)) = false
       /\ allPodsReady (stdout (exec E (issued w + j) (poll_command namespace)))
          = false) ->
    exists w' evs,
      poll E fuel namespace timeout startTime w = (Throw ReadinessTimeout, w')
      /\ clock w' = (clock w + 5000 * Z.of_nat n)%Z
      /\ events w' = (events w ++ evs)%list
      /\ commands evs = repeat (poll_command namespace) n
      /\ writes evs = []
      /\ sleeps evs = repeat 5000%Z n.
Proof.
  induction n as [|n IH]; intros fuel w Hfuel Hstart Hlate Hsamples;
    (destruct fuel as [|fuel]; [lia|]).
  - rewrite (turn_late fuel w) by (apply Z.ltb_ge; lia).
    eexists _, _. split; [reflexivity|]. cbn [clock events with_events].
    split; [lia|]. now repeat split.
  - destruct (Hsamples 0%nat ltac:(lia)) as [Ht0 [Hf0 Hr0]].
    rewrite Nat.add_0_r in Hf0, Hr0.
    destruct (turn_again fuel w) as [text Hturn];
      [apply Z.ltb_lt; lia | exact Hf0 | exact Hr0 |].
    rewrite Hturn.
    set (w1 := turned w [Ran (poll_command namespace); Spinner Text text; Slept 5000]).
    assert (Hissued : issued w1 = S (issued w)) by apply issued_turned.
    destruct (IH fuel w1) as [w' [evs [Hrun [Hclock [Hevs [Hc [Hw Hs]]]]]]].
    + lia.
    + cbn [clock w1 turned]. lia.
    + cbn [clock w1 turned]. lia.
    + intros j Hj. rewrite Hissued.
      replace (S (issued w) + j)%nat with (issued w + S j)%nat by lia.
      destruct (Hsamples (S j) ltac:(lia)) as [Ht [Hf Hr]].
      split; [cbn [clock w1 turned]; lia | now split].
    + exists w', ([Ran (poll_command namespace); Spinner Text text; Slept 5000] ++ evs)%list.
      split; [exact Hrun|]. split; [rewrite Hclock; cbn [clock w1 turned]; lia|].
      split; [rewrite Hevs; cbn [events w1 turned]; now rewrite <- app_assoc|].
      cbn [List.app commands writes sleeps repeat]. now rewrite Hc, Hw, Hs.
Qed.

End PollTime.

Lemma waitForPodsReady_poll (E : env) (namespace : string) (timeout : Z) (w : world) :
  waitForPodsReady E namespace timeout w
  = poll E (poll_fuel timeout) namespace timeout (clock w)
      (with_events w [Spinner Start "Waiting for pods to become ready..."]).
Proof. reflexivity. Qed.

(** X12: when the samples of the pods are not ready [k] times and ready
    the next time, in time, [waitForPodsReady] returns normally after
    [k] waits of five seconds: it has issued [k + 1] queries and
    [5 * k] seconds have passed; a first sample that is ready (as a table
    without rows is) costs one query and no wait. *)
Theorem waitForPodsReady_ready_after (E : env) (namespace : string)
  (timeout : Z) (w : world) (k : nat) :
  let sample j := exec E (issued w + j) (poll_command namespace) in
  (5000 * Z.of_nat k < timeout * 1000)%Z ->
  (forall j, (j < k)%nat ->
     failed (sample j) = false /\ allPodsReady (stdout (sample j)) = false) ->
  failed (sample k) = false ->
  allPodsReady (stdout (sample k)) = true ->
  let waited := waitForPodsReady E namespace timeout w in
  fst waited = Ok tt
  /\ clock (snd waited) = (clock w + 5000 * Z.of_nat k)%Z
  /\ commands (since w (snd waited)) = repeat (poll_command namespace) (S k)
  /\ sleeps (since w (snd waited)) = repeat 5000%Z k.
Proof.
  intros sample Htime Hbefore Hf Hr waited. subst waited.
  rewrite waitForPodsReady_poll.
  set (w0 := with_events w [Spinner Start "Waiting for pods to become ready..."]).
  assert (Hissued : issued w0 = issued w).
  { unfold w0. rewrite issued_with_events. simpl. lia. }
  destruct (poll_ready_after E namespace timeout (clock w) k (poll_fuel timeout) w0)
    as [w' [evs [Hrun [Hclock [Hevs [Hc [Hw Hs]]]]]]].
  - unfold poll_fuel.
    pose proof (Z.div_mod (timeout * 1000) 5000 ltac:(lia)) as Hdiv.
    pose proof (Z.mod_pos_bound (timeout * 1000) 5000 ltac:(lia)) as Hmod.
    lia.
  - cbn [clock w0 with_events]. lia.
  - cbn [clock w0 with_events]. lia.
  - intros j Hj. rewrite Hissued. now apply Hbefore.
  - now rewrite Hissued.
  - now rewrite Hissued.
  - rewrite Hrun. cbn [fst snd]. split; [reflexivity|].
    split; [exact Hclock|].
    erewrite since_events by (rewrite Hevs; cbn [events w0 with_events];
                              rewrite <- app_assoc; reflexivity).
    cbn [List.app commands sleeps]. now split.
Qed.

(** X13: when the samples of the pods are answered and never ready,
    [waitForPodsReady] raises [ReadinessTimeout], and not before the time
    allowed has passed on its clock.  Each query it has issued was
    followed by one wait of five seconds, and the queries are no more
    than the periods of five seconds begun within the timeout.  With a
    timeout of zero or less it gives up at once, without a query. *)
Theorem waitForPodsReady_gives_up (E : env) (namespace : string)
  (timeout : Z) (w : world) :
  let sample j := exec E (issued w + j) (poll_command namespace) in
  let turns := Z.to_nat ((timeout * 1000 + 4999) / 5000) in
  (forall j, (j < turns)%nat ->
     failed (sample j) = false /\ allPodsReady (stdout (sample j)) = false) ->
  let waited := waitForPodsReady E namespace timeout w in
  fst waited = Throw ReadinessTimeout
  /\ (timeout * 1000 <= clock (snd waited) - clock w)%Z
  /\ exists n,
       (n <= turns)%nat
       /\ commands (since w (snd waited)) = repeat (poll_command namespace) n
       /\ sleeps (since w (snd waited)) = repeat 5000%Z n.
Proof.
  intros sample turns Hsamples waited. subst waited.
  rewrite waitForPodsReady_poll.
  set (w0 := with_events w [Spinner Start "Waiting for pods to become ready..."]).
  assert (Hissued : issued w0 = issued w).
  { unfold w0. rewrite issued_with_events. simpl. lia. }
  pose proof (Z.div_mod (timeout * 1000 + 4999) 5000 ltac:(lia)) as Hdiv.
  pose proof (Z.mod_pos_bound (timeout * 1000 + 4999) 5000 ltac:(lia)) as Hmod.
  pose proof (Z.div_mod (timeout * 1000) 5000 ltac:(lia)) as Hdiv'.
  pose proof (Z.mod_pos_bound (timeout * 1000) 5000 ltac:(lia)) as Hmod'.
  destruct (poll_gives_up E namespace timeout (clock w) turns (poll_fuel timeout) w0)
    as [w' [evs [Hrun [Hclock [Hevs [Hc [Hw Hs]]]]]]].
  - unfold poll_fuel, turns. lia.
  - cbn [clock w0 with_events]. lia.
  - cbn [clock w0 with_events]. unfold turns. lia.
  - intros j Hj.
    assert (Hin : (5000 * Z.of_nat j < timeout * 1000)%Z) by (unfold turns in Hj; lia).
    split; [cbn [clock w0 with_events]; lia|].
    rewrite Hissued. now apply Hsamples.
  - rewrite Hrun. cbn [fst snd]. split; [reflexivity|].
    split; [rewrite Hclock; cbn [clock w0 with_events]; unfold turns; lia|].
    exists turns. split; [lia|].
    erewrite since_events by (rewrite Hevs; cbn [events w0 with_events];
                              rewrite <- app_assoc; reflexivity).
    cbn [List.app commands sleeps]. now split.
Qed.

(** ** Failures that leave the files alone *)

Lemma fails_clean_respects {A : Type} (m : M A) :
  respects (changes true true report_only) m -> fails_clean m.
Proof.
  intros H w. specialize (H w). destruct (m w) as [[a | e] w']; [exact I | exact H].
Qed.

Lemma fails_clean_bind {A B : Type} (m : M A) (k : A -> M B) :
  respects (changes true true report_only) m ->
  (forall a, fails_clean (k a)) -> fails_clean (bind m k).
Proof.
  intros Hm Hk w. unfold bind. specialize (Hm w).
  destruct (m w) as [[a | e] w1]; cbn [snd] in Hm; [|exact Hm].
  specialize (Hk a w1). destruct (k a w1) as [[b | e] w2]; [exact I|].
  eapply changes_trans; eassumption.
Qed.

(** A write at the project root followed by a line in the log fails only
    where the write does, and then nothing is written. *)
Lemma fails_clean_write (projectPath name content line : string) :
  fails_clean (writeFile_at_root projectPath name content ;; log line).
Proof.
  intros w. unfold bind, writeFile_at_root.
  destruct (project w) as [[c | files]|]; try apply changes_refl.
  destruct (lookup name files) as [[c | sub]|]; try apply changes_refl; exact I.
Qed.

(** A handler that logs the error and throws it again. *)
Lemma rethrow_run {A : Type} (body : M A) (prefix : string) (w : world) (e : error) :
  fails_clean body ->
  fst (try_catch body (fun err => log (prefix ++ message err) ;; throw err) w)
  = Throw e ->
  exists evs,
    events (snd (try_catch body
                   (fun err => log (prefix ++ message err) ;; throw err) w))
    = (events w ++ evs ++ [Logged (prefix ++ message e)])%list
    /\ forallb report_only evs = true
    /\ project (snd (try_catch body
                       (fun err => log (prefix ++ message err) ;; throw err) w))
       = project w
    /\ cwd_files (snd (try_catch body
                         (fun err => log (prefix ++ message err) ;; throw err) w))
       = cwd_files w.
Proof.
  intros Hclean. specialize (Hclean w). unfold try_catch.
  destruct (body w) as [[a | e'] w1]; [discriminate|].
  run_steps. cbn [throw fst snd]. intros Heq. injection Heq as <-.
  destruct Hclean as [Hp [Hc [evs [Hevs Hrep]]]].
  exists evs. cbn [events project cwd_files with_events].
  rewrite Hevs, (Hp eq_refl), (Hc eq_refl), <- app_assoc. now repeat split.
Qed.

Lemma fails_clean_update_body (E : env) (projectPath projectName imageTag : string) :
  fails_clean
    (fileContents <- readFile_at_root projectPath "web-deployment.yaml" ;;
     deploymentYaml <-
       match yaml_load E fileContents with
       | Some d => ret d
       | None => throw (ParseError "YAMLException")
       end ;;
     spec <- lift (get (Some deploymentYaml) "spec") ;;
     template <- lift (get spec "template") ;;
     podSpec <- lift (get template "spec") ;;
     containers <- lift (get podSpec "containers") ;;
     items <- lift (iterate containers) ;;
     updated <- update_containers (projectName ++ ":" ++ imageTag) items ;;
     let deploymentYaml' :=
       match containers with
       | Some (VArr _) => put_path containers_path (VArr updated) deploymentYaml
       | _ => deploymentYaml
       end in
     let updatedYaml := yaml_dump E deploymentYaml' in
     writeFile_at_root projectPath "web-deployment.yaml" updatedYaml ;;
     log ("Updated web-deployment.yaml with new image: "
          ++ projectName ++ ":" ++ imageTag)).
Proof.
  repeat first [ apply fails_clean_write
               | apply fails_clean_bind; [footprint | intros ?] ].
  apply respects_update_containers_report.
Qed.

(** X14: when [updateWebDeploymentImage] fails, for whatever reason (the
    manifest is missing, is not YAML, has no list of containers, holds a
    container that is no object), the project tree is as it was: nothing
    has been written and no command issued, and the last event is the
    line of the log that reports the error, which is thrown again. *)
Theorem updateWebDeploymentImage_failure (E : env)
  (projectPath projectName imageTag : string) (w : world) (e : error) :
  let updated := updateWebDeploymentImage E projectPath projectName imageTag w in
  fst updated = Throw e ->
  project (snd updated) = project w
  /\ cwd_files (snd updated) = cwd_files w
  /\ commands (since w (snd updated)) = []
  /\ writes (since w (snd updated)) = []
  /\ last (since w (snd updated)) (Logged EmptyString)
     = Logged ("Error updating web-deployment.yaml: " ++ message e).
Proof.
  intros updated Hfail. subst updated.
  assert (Hrun : exists evs,
    events (snd (updateWebDeploymentImage E projectPath projectName imageTag w))
    = (events w ++ evs
         ++ [Logged ("Error updating web-deployment.yaml: " ++ message e)])%list
    /\ forallb report_only evs = true
    /\ project (snd (updateWebDeploymentImage E projectPath projectName imageTag w))
       = project w
    /\ cwd_files (snd (updateWebDeploymentImage E projectPath projectName imageTag w))
       = cwd_files w)
    by exact (rethrow_run _ _ w e
                (fails_clean_update_body E projectPath projectName imageTag) Hfail).
  destruct Hrun as [evs [Hevs [Hrep [Hp Hc]]]].
  rewrite (since_events _ _ _ Hevs), Hp, Hc.
  destruct (commands_report_only _ Hrep) as [Hcmd Hw].
  rewrite commands_app, writes_app, Hcmd, Hw, last_last. now repeat split.
Qed.

Lemma fails_clean_generate_body (E : env) (projectType projectPath : string) :
  fails_clean
    (dockerfileContent <-
       (if projectType =? "nodejs" then
          log "Analyzing Node.js project..." ;;
          analysis <- analyzeNodeProject E projectPath ;;
          let (packageJsonData, indexJsContent) := analysis : value * string in
          template <- readTemplate E "nodejs" ;;
          dependencies <- lift (get (Some packageJsonData) "dependencies") ;;
          content <-
            (if truthy dependencies then
               log ("Dependencies found: " ++
                    match dependencies with
                    | Some d => JSON_stringify E d
                    | None => "undefined"
                    end) ;;
               express <- lift (get dependencies "express") ;;
               if truthy express then
                 ret (replace CMD_npm_start CMD_node_index
                        (replace EXPOSE_3000 EXPOSE_8000 template))
               else ret template
             else ret template) ;;
          if includes indexJsContent "app.listen(8000)" then
            log "Port 8000 detected in index.js." ;;
            ret (replace EXPOSE_3000 EXPOSE_8000 content)
          else ret content
        else readTemplate E projectType) ;;
     log "Writing the customized Dockerfile..." ;;
     writeFile_at_root projectPath "Dockerfile" (trim dockerfileContent) ;;
     log ("Dockerfile generated at " ++ path_join projectPath "Dockerfile")).
Proof.
  apply fails_clean_bind; [unfold analyzeNodeProject; footprint | intros content].
  apply fails_clean_bind; [footprint | intros _].
  apply fails_clean_write.
Qed.

(** X15: when [generateDockerfile] fails, for whatever reason (the
    template is missing, [package.json] is not JSON or holds [null], an
    entry that should be a file is a directory), nothing has been written
    and no command issued: the project tree is as it was, and the last
    event is the line of the log that reports the error, which is thrown
    again. *)
Theorem generateDockerfile_failure (E : env) (projectType projectPath : string)
  (w : world) (e : error) :
  let generated := generateDockerfile E projectType projectPath w in
  fst generated = Throw e ->
  project (snd generated) = project w
  /\ cwd_files (snd generated) = cwd_files w
  /\ commands (since w (snd generated)) = []
  /\ writes (since w (snd generated)) = []
  /\ last (since w (snd generated)) (Logged EmptyString)
     = Logged ("Failed to generate Dockerfile: " ++ message e).
Proof.
  intros generated Hfail. subst generated.
  destruct (generateDockerfile E projectType projectPath w) as [r w1] eqn:Hgen.
  cbn [fst snd] in *. subst r. revert Hgen.
  unfold generateDockerfile.
  assert (Hexists : exists found, pathExists_at_root "Dockerfile" w = (Ok found, w)).
  { unfold pathExists_at_root. destruct (project w) as [[c | files]|];
      eexists; reflexivity. }
  destruct Hexists as [found Hfound]. rewrite (bind_run _ _ _ _ _ Hfound).
  destruct found; [run_steps; discriminate|].
  run_steps.
  set (W := with_events w [Logged ("Generating Dockerfile for project type: "
                                   ++ projectType)]).
  match goal with
  | |- bind (try_catch ?b ?h) ?k W = _ -> _ =>
      pose proof (rethrow_run b "Failed to generate Dockerfile: " W) as Hrun;
      destruct (try_catch b h W) as [[[] | e'] w2] eqn:Htry;
      [ rewrite (bind_run _ _ _ _ _ Htry); discriminate
      | rewrite (bind_throw _ _ _ _ _ Htry) ]
  end.
  intros Heq. injection Heq as -> ->.
  specialize (Hrun e (fails_clean_generate_body E projectType projectPath)).
  cbn [fst snd] in Hrun.
  destruct (Hrun eq_refl) as [evs [Hevs [Hrep [Hp Hc]]]].
  assert (Hsince : since w w1
                   = ([Logged ("Generating Dockerfile for project type: " ++ projectType)]
                        ++ evs ++ [Logged ("Failed to generate Dockerfile: " ++ message e)])%list).
  { apply since_events. rewrite Hevs. subst W. cbn [events with_events].
    now rewrite <- app_assoc. }
  rewrite Hsince, Hp, Hc.
  destruct (commands_report_only _ Hrep) as [Hcmd Hw].
  rewrite !commands_app, !writes_app, Hcmd, Hw.
  repeat split. cbn [List.app]. rewrite app_comm_cons. apply last_last.
Qed.

(** ** The rewrite of the manifest, run again *)

Lemma assign_between {A : Type} (k k' : string) (a b c : A) (l : list (string * A)) :
  k <> k' ->
  assign k b (assign k' c (assign k a l)) = assign k' c (assign k b l).
Proof.
  intros Hne. apply String.eqb_neq in Hne as Hkk'.
  assert (Hk'k : (k' =? k) = false) by (now rewrite String.eqb_sym).
  induction l as [|[x v] rest IH]; cbn [assign].
  - rewrite Hkk'. cbn [assign]. now rewrite String.eqb_refl.
  - destruct (String.eqb_spec x k) as [-> | Hxk]; cbn [assign].
    + rewrite Hkk'. cbn [assign]. now rewrite String.eqb_refl.
    + destruct (String.eqb_spec x k') as [-> | Hxk']; cbn [assign].
      * rewrite Hk'k. now rewrite assign_assign.
      * apply String.eqb_neq in Hxk. rewrite Hxk. now rewrite IH.
Qed.

(** The two assignments of the loop, made again with another image, leave
    what they would have left if made once. *)
Lemma with_image_again (image image' : string) (container : value) :
  with_image image' (with_image image container) = with_image image' container.
Proof.
  destruct container as [| | | | |props]; try reflexivity.
  cbn [with_image]. f_equal.
  rewrite (assign_between "image" "imagePullPolicy") by discriminate.
  apply assign_assign.
Qed.

Lemma with_image_object (image : string) (container : value) :
  is_object container -> is_object (with_image image container).
Proof. now destruct container. Qed.

Lemma put_path_again (manifest : value) (containers : list value) (x y : value) :
  containers_of manifest = Some containers ->
  put_path containers_path x (put_path containers_path y manifest)
  = put_path containers_path x manifest.
Proof.
  intros H. apply containers_of_inv in H
    as [spec [template [podSpec [H1 [H2 [H3 H4]]]]]].
  apply get_object in H4 as [p3 [-> L3]].
  apply get_object in H3 as [p2 [-> L2]].
  apply get_object in H2 as [p1 [-> L1]].
  apply get_object in H1 as [p0 [Hm L0]]. injection Hm as ->.
  unfold containers_path.
  do 8 (cbn [put_path]; rewrite ?L0, ?L1, ?L2, ?L3, ?lookup_assign).
  now rewrite !assign_assign.
Qed.

(** X16: provided the manifest that a first rewrite has written reads
    back as the document that was written, a second rewrite, for whatever
    name and tag, leaves [web-deployment.yaml] as a single rewrite for
    that name and tag would have left it; with the same name and tag the
    file does not change any more. *)
Theorem updateWebDeploymentImage_again (E : env)
  (projectPath projectName imageTag projectName' imageTag' content : string)
  (w : world) (files : list (string * node)) (manifest : value)
  (containers : list value) :
  project w = Some (Dir files) ->
  lookup "web-deployment.yaml" files = Some (File content) ->
  yaml_load E content = Some manifest ->
  containers_of manifest = Some containers ->
  Forall is_object containers ->
  let rewritten image :=
    put_path containers_path (VArr (map (with_image image) containers)) manifest in
  yaml_load E (yaml_dump E (rewritten (projectName ++ ":" ++ imageTag)))
  = Some (rewritten (projectName ++ ":" ++ imageTag)) ->
  let w1 := snd (updateWebDeploymentImage E projectPath projectName imageTag w) in
  let w2 := snd (updateWebDeploymentImage E projectPath projectName' imageTag' w1) in
  root_file "web-deployment.yaml" w1
  = Some (yaml_dump E (rewritten (projectName ++ ":" ++ imageTag)))
  /\ root_file "web-deployment.yaml" w2
     = Some (yaml_dump E (rewritten (projectName' ++ ":" ++ imageTag')))
  /\ root_file "web-deployment.yaml" w2
     = root_file "web-deployment.yaml"
         (snd (updateWebDeploymentImage E projectPath projectName' imageTag' w)).
Proof.
  intros Hp Hfile Hload Hcontainers Hobjects rewritten Hback w1 w2.
  destruct (updateWebDeploymentImage_run E projectPath projectName imageTag content
              w files manifest containers Hp Hfile Hload Hcontainers Hobjects)
    as [v1 [Hrun1 Hp1]].
  destruct (updateWebDeploymentImage_run E projectPath projectName' imageTag' content
              w files manifest containers Hp Hfile Hload Hcontainers Hobjects)
    as [v [Hrun Hpv]].
  fold (rewritten (projectName ++ ":" ++ imageTag)) in Hp1.
  fold (rewritten (projectName' ++ ":" ++ imageTag')) in Hpv.
  assert (Hw1 : w1 = v1) by (subst w1; now rewrite Hrun1).
  destruct (updateWebDeploymentImage_run E projectPath projectName' imageTag'
              (yaml_dump E (rewritten (projectName ++ ":" ++ imageTag)))
              v1 _ (rewritten (projectName ++ ":" ++ imageTag))
              (map (with_image (projectName ++ ":" ++ imageTag)) containers)
              Hp1 (lookup_assign _ _ _) Hback
              (put_path_containers _ _ _ Hcontainers))
    as [v2 [Hrun2 Hp2]].
  { apply Forall_map. eapply Forall_impl; [|exact Hobjects].
    intros c Hc. now apply with_image_object. }
  assert (Hw2 : w2 = v2) by (subst w2; now rewrite Hw1, Hrun2).
  rewrite map_map in Hp2.
  rewrite (map_ext _ _ (with_image_again _ _)) in Hp2.
  unfold rewritten in Hp2 at 1.
  rewrite (put_path_again _ _ _ _ Hcontainers) in Hp2.
  fold (rewritten (projectName' ++ ":" ++ imageTag')) in Hp2.
  rewrite assign_assign in Hp2.
  rewrite Hw1, Hw2, Hrun. cbn [snd]. unfold root_file.
  rewrite Hp1, Hp2, Hpv, !lookup_assign. now repeat split.
Qed.

(** ** The deployment the operator chooses *)

(** X17: a remote deployment issues one command and returns:
    [ssh <user>@<host> "docker run -d -p 8000:8000 <name>:<tag>"].  The
    password the operator was asked for is part of nothing, and an empty
    answer for the host makes the deployment a local one: the image is
    run on the machine of the operator. *)
Theorem deploy_remote (E : env) (projectPath : string) (a : answers) (w : world) :
  toLowerCase (deployOption a) = "yes" ->
  deployType a = "remote" ->
  let command :=
    if remoteHost a =? EmptyString
    then "docker run -d -p 8000:8000 "
         ++ projectName_answer a ++ ":" ++ imageTag_answer a
    else "ssh " ++ remoteUser a ++ "@" ++ remoteHost a ++ " " ++ dquote
         ++ "docker run -d -p 8000:8000 "
         ++ projectName_answer a ++ ":" ++ imageTag_answer a ++ dquote in
  deploy E projectPath a w
  = (Ok tt,
     with_events w [Logged ("Deploying with command: " ++ command); Ran command]).
Proof.
  intros Hyes Hremote command. unfold deploy. rewrite Hyes, Hremote.
  change ("yes" =? "yes") with true. change ("remote" =? "local") with false.
  change ("remote" =? "remote") with true. cbv iota.
  rewrite deployDocker_steps. subst command. unfold run_command.
  destruct (remoteHost a); reflexivity.
Qed.

(** The scan of a directory without manifest, step by step. *)
Lemma scanProject_unknown_run (E : env)
  (projectPath projectName imageTag : string) (w : world)
  (files : list (string * node)) :
  resolve projectPath w = Some (Dir files) ->
  (forall d f, In (d, f) (walk projectPath files) ->
               endsWith f "package.json" = false) ->
  exists evs,
    scanProject E projectPath projectName imageTag w = (Ok tt, with_events w evs)
    /\ forallb report_only evs = true.
Proof.
  intros Hres Hnone.
  destruct (classify_run (list_files projectPath files) (false, false)
              (with_events w
                 [Logged ("Received projectName: " ++ projectName
                          ++ ", imageTag: " ++ imageTag);
                  Spinner Start "Starting the project scan...";
                  Logged ("Scanning directory: " ++ projectPath)]))
    as [found [Hrun Hrep]].
  eexists. split.
  - unfold scanProject. run_steps.
    apply try_catch_ok. run_steps.
    unfold bind at 1, stat. rewrite resolve_with_events, Hres.
    cbn [isDirectory negb].
    match goal with
    | |- bind _ _ ?w' = _ =>
        rewrite (bind_run _ _ _ _ _ (scanEntireDirectory_run projectPath w' files Hres))
    end.
    rewrite (bind_run _ _ _ _ _ Hrun).
    rewrite (no_manifest_in_walk _ _ Hnone). cbn [fst snd orb].
    run_steps. reflexivity.
  - cbn [forallb report_only andb]. rewrite !forallb_app, Hrep. reflexivity.
Qed.

(** X18: the scan command on a directory without manifest goes on after
    the scan, which has built nothing: it announces the end of the build
    and, when the operator asks for a local deployment, issues
    [docker run] for an image that no command of the run has built. *)
Theorem scanCommand_runs_unbuilt_image (E : env) (projectPath : string)
  (a : answers) (w : world) (files : list (string * node)) :
  resolve projectPath w = Some (Dir files) ->
  (forall d f, In (d, f) (walk projectPath files) ->
               endsWith f "package.json" = false) ->
  toLowerCase (deployOption a) = "yes" ->
  deployType a = "local" ->
  let ended := scanCommand E projectPath a w in
  fst ended = Ok tt
  /\ commands (since w (snd ended))
     = ["docker run -d -p 8000:8000 "
        ++ projectName_answer a ++ ":" ++ imageTag_answer a]
  /\ writes (since w (snd ended)) = []
  /\ In (Console "Docker image build complete.") (since w (snd ended)).
Proof.
  intros Hres Hnone Hyes Hlocal ended. subst ended.
  unfold scanCommand. run_steps.
  match goal with
  | |- context [bind (scanProject E projectPath ?n ?t) _ ?w0] =>
      destruct (scanProject_unknown_run E projectPath n t w0 files)
        as [evs [Hrun Hrep]]; [exact Hres | exact Hnone |]
  end.
  rewrite (bind_run _ _ _ _ _ Hrun). run_steps.
  unfold deploy. rewrite Hyes, Hlocal.
  change ("yes" =? "yes") with true. change ("local" =? "local") with true.
  cbv iota. rewrite deployDocker_steps. cbn [fst snd].
  rewrite with_events_app, since_with_events.
  destruct (commands_report_only _ Hrep) as [Hc Hw].
  split; [reflexivity|].
  cbn [List.app commands writes]. rewrite !commands_app, !writes_app, Hc, Hw.
  cbn [List.app commands writes run_command].
  split; [reflexivity|]. split; [reflexivity|].
  cbn [In]. rewrite !in_app_iff. cbn [In]. auto 10.
Qed.

(** ** The Gemfile *)

Lemma split_at_length (sep : ascii -> bool) (s : string) :
  List.length (split_at sep s) = S (count_of sep s).
Proof.
  induction s as [|c s IH]; [reflexivity|].
  cbn [split_at count_of]. destruct (sep c).
  - simpl. now rewrite IH.
  - destruct (split_at sep s); simpl in *; [discriminate | exact IH].
Qed.

Lemma split_at_piece (sep : ascii -> bool) (a rest : string) (c : ascii) :
  count_of sep a = 0 -> sep c = true ->
  split_at sep (a ++ String c rest) = a :: split_at sep rest.
Proof.
  intros Ha Hc. induction a as [|x a IH].
  - cbn [append split_at]. now rewrite Hc.
  - cbn [count_of] in Ha. destruct (sep x) eqn:Hx; [discriminate|].
    change (String x a ++ String c rest) with (String x (a ++ String c rest)).
    cbn [split_at]. rewrite Hx, (IH Ha). reflexivity.
Qed.

Lemma split_newline_line (a rest : string) :
  has_char newline a = false ->
  split newline (a ++ nl ++ rest) = a :: split newline rest.
Proof.
  intros Ha. induction a as [|x a IH].
  - reflexivity.
  - cbn [has_char] in Ha. apply orb_false_iff in Ha as [Hx Ha].
    change (String x a ++ nl ++ rest) with (String x (a ++ nl ++ rest)).
    cbn [split]. rewrite Hx, (IH Ha). reflexivity.
Qed.

(** In a line of the usual form the third piece is what stands between
    the quote that closes the name and the comma: nothing. *)
Lemma gem_entry_line (entry : string * string) :
  count_of quote_or_comma (fst entry) = 0 ->
  gem_entry (gem_line entry) = Ok (trim (fst entry), EmptyString).
Proof.
  intros Hname. unfold gem_entry, gem_line.
  change ("gem '" ++ fst entry ++ "', '" ++ snd entry ++ "'")
    with ("gem " ++ String "'" (fst entry ++ String "'" (String "," (" '" ++ snd entry ++ "'")))).
  rewrite split_at_piece by reflexivity.
  rewrite split_at_piece by (try assumption; reflexivity).
  cbn [split_at quote_or_comma]. change (Ascii.eqb "," "'") with false.
  change (Ascii.eqb "," ",") with true. cbn [orb nth_error].
  reflexivity.
Qed.

Lemma gem_line_starts (entry : string * string) :
  startsWith (gem_line entry) "gem" = true.
Proof. reflexivity. Qed.

Lemma has_char_gem_line (entry : string * string) :
  has_char newline (fst entry) = false -> has_char newline (snd entry) = false ->
  has_char newline (gem_line entry) = false.
Proof.
  intros H1 H2. unfold gem_line.
  rewrite !has_char_app, H1, H2. reflexivity.
Qed.

(** X19: [parseGemfile] loses the versions.  On a Gemfile whose lines
    have the usual form [gem '<name>', '<version>'], it logs the names,
    trimmed, each with the empty string for version: the third piece of a
    line split at quotes and commas is the empty text between the quote
    that closes the name and the comma. *)
Theorem parseGemfile_loses_versions (E : env) (entries : list (string * string))
  (w : world) :
  Forall (fun entry =>
            count_of quote_or_comma (fst entry) = 0
            /\ has_char newline (fst entry) = false
            /\ has_char newline (snd entry) = false) entries ->
  parseGemfile E (gemfile entries) w
  = (Ok tt,
     with_events w
       [Logged "Starting to parse Gemfile...";
        Logged ("Parsed dependencies from Gemfile: "
                ++ JSON_stringify E
                     (VArr (map (fun entry =>
                                   dependency (trim (fst entry), EmptyString))
                              entries)))]).
Proof.
  intros Hall. unfold parseGemfile. run_steps.
  assert (Hentries :
    gem_entries (filter (fun line => startsWith line "gem")
                   (split newline (gemfile entries)))
    = Ok (map (fun entry => (trim (fst entry), EmptyString)) entries)).
  { induction Hall as [|entry rest [Hname [Hn Hv]] _ IH]; [reflexivity|].
    cbn [gemfile]. rewrite split_newline_line by now apply has_char_gem_line.
    cbn [filter]. rewrite gem_line_starts. cbn [gem_entries].
    rewrite (gem_entry_line _ Hname), IH. reflexivity. }
  rewrite Hentries. run_steps. rewrite map_map. reflexivity.
Qed.

Lemma gem_entry_ok (line : string) :
  (exists entry, gem_entry line = Ok entry) <-> 2 <= count_of quote_or_comma line.
Proof.
  unfold gem_entry.
  pose proof (split_at_length quote_or_comma line) as Hlen.
  destruct (split_at quote_or_comma line) as [|p0 [|p1 [|p2 rest]]];
    simpl in *.
  - discriminate.
  - split; [intros [entry H]; discriminate | lia].
  - split; [intros [entry H]; discriminate | lia].
  - split; [lia | intros _; eexists; reflexivity].
Qed.

Lemma gem_entry_error (line : string) (e : error) :
  gem_entry line = Throw e ->
  e = TypeError "Cannot read properties of undefined (reading 'trim')".
Proof.
  unfold gem_entry.
  destruct (nth_error _ 1); [destruct (nth_error _ 2)|]; congruence.
Qed.

Lemma gem_entries_ok (lines : list string) :
  (exists entries, gem_entries lines = Ok entries)
  <-> Forall (fun line => 2 <= count_of quote_or_comma line) lines.
Proof.
  induction lines as [|line rest IH]; cbn [gem_entries].
  - split; [constructor | intros _; now exists []].
  - split.
    + intros [entries H].
      destruct (gem_entry line) as [entry|] eqn:Hline; [|discriminate].
      destruct (gem_entries rest) as [more|] eqn:Hrest; [|discriminate].
      constructor.
      * apply gem_entry_ok. now exists entry.
      * apply IH. now exists more.
    + intros H. inversion H as [|? ? Hline Hrest]; subst.
      apply gem_entry_ok in Hline as [entry ->].
      apply IH in Hrest as [more ->]. now eexists.
Qed.

Lemma gem_entries_error (lines : list string) (e : error) :
  gem_entries lines = Throw e ->
  e = TypeError "Cannot read properties of undefined (reading 'trim')".
Proof.
  induction lines as [|line rest IH]; cbn [gem_entries]; [discriminate|].
  destruct (gem_entry line) eqn:Hline.
  - destruct (gem_entries rest); [discriminate|].
    intros H. injection H as <-. now apply IH.
  - intros H. injection H as <-. now apply gem_entry_error with (line := line).
Qed.

(** X20: [parseGemfile] returns normally exactly when every line that
    starts with [gem] holds two or more quotes or commas; otherwise (a
    line [gemspec], a name in double quotes) it raises a [TypeError]
    after its first line in the log, and logs no dependency at all. *)
Theorem parseGemfile_outcome (E : env) (gemfileContent : string) (w : world) :
  let parsed := parseGemfile E gemfileContent w in
  (fst parsed = Ok tt
   <-> Forall (fun line => startsWith line "gem" = true ->
                           2 <= count_of quote_or_comma line)
         (split newline gemfileContent))
  /\ (fst parsed <> Ok tt ->
      parsed
      = (Throw (TypeError "Cannot read properties of undefined (reading 'trim')"),
         with_events w [Logged "Starting to parse Gemfile..."])).
Proof.
  intros parsed. subst parsed. unfold parseGemfile. run_steps.
  set (lines := split newline gemfileContent).
  assert (Hfilter :
    Forall (fun line => 2 <= count_of quote_or_comma line)
      (filter (fun line => startsWith line "gem") lines)
    <-> Forall (fun line => startsWith line "gem" = true ->
                            2 <= count_of quote_or_comma line) lines).
  { rewrite !Forall_forall. split.
    - intros H line Hin Hgem. apply H. apply filter_In. now split.
    - intros H line Hin. apply filter_In in Hin as [Hin Hgem]. now apply H. }
  rewrite <- Hfilter, <- gem_entries_ok.
  destruct (gem_entries _) as [entries | e] eqn:Hentries.
  - run_steps. cbn [fst]. split.
    + split; [intros _; now exists entries | reflexivity].
    + intros H. now destruct H.
  - apply gem_entries_error in Hentries as Herror. subst e.
    cbn [lift]. unfold bind. cbn [fst]. split.
    + split; [discriminate | intros [entries H]; discriminate].
    + reflexivity.
Qed.

(** ** The proxy configuration *)

Lemma deployNginxConfig_steps (projectName : string) (w : world) :
  deployNginxConfig projectName w
  = (Ok tt, with_events w [Ran (nginx_copy projectName)]).
Proof. unfold deployNginxConfig. apply try_catch_ok. run_steps. reflexivity. Qed.

Ltac settle :=
  intros;
  repeat match goal with
         | H : _ /\ _ |- _ => destruct H
         | H : _ \/ _ |- _ => destruct H
         | H : False |- _ => destruct H
         end;
  try discriminate; try congruence.

(** X21: [deployNginxConfig] returns normally as soon as the copy is
    issued, whatever the commands answer.  The link is issued when the
    copy has succeeded and the reload when the link has succeeded, so
    that the commands issued are the copy, the link and the reload up to
    the first one that fails; the callbacks end normally, and the log
    says that the configuration is applied, exactly when the three
    commands succeed. *)
Theorem deployNginxConfig_chain (E : env) (projectName : string) (w : world) :
  let copied := exec E (issued w) (nginx_copy projectName) in
  let linked := exec E (issued w + 1) (nginx_link projectName) in
  let reloaded := exec E (issued w + 2) nginx_reload in
  let run := deployNginxConfig_run E projectName w in
  let all_succeed :=
    failed copied = false /\ failed linked = false /\ failed reloaded = false in
  fst (fst run) = Ok tt
  /\ commands (since w (snd run))
     = nginx_copy projectName
       :: (if failed copied then []
           else nginx_link projectName
                :: (if failed linked then [] else [nginx_reload]))
  /\ writes (since w (snd run)) = []
  /\ (snd (fst run) = Ok tt <-> all_succeed)
  /\ (In (Logged "Nginx configuration applied and server reloaded.")
        (since w (snd run)) <-> all_succeed).
Proof.
  intros copied linked reloaded run all_succeed. subst run all_succeed.
  unfold deployNginxConfig_run. rewrite deployNginxConfig_steps.
  fold copied. unfold deployNginxConfig_callback.
  assert (Hone : issued (with_events w [Ran (nginx_copy projectName)])
                 = issued w + 1).
  { rewrite issued_with_events. reflexivity. }
  destruct (failed copied) eqn:Hc.
  { run_steps. cbn [throw fst snd]. rewrite since_with_events.
    cbn [commands writes In append].
    repeat split; settle. }
  run_steps.
  rewrite issued_with_events. cbn [filter is_Ran List.length]. fold linked.
  destruct (failed linked) eqn:Hl.
  { run_steps. cbn [throw fst snd]. rewrite since_with_events.
    cbn [commands writes In append].
    repeat split; settle. }
  run_steps.
  rewrite issued_with_events. cbn [filter is_Ran List.length]. fold reloaded.
  destruct (failed reloaded) eqn:Hr.
  { run_steps. cbn [throw fst snd]. rewrite since_with_events.
    cbn [commands writes In append].
    repeat split; settle. }
  run_steps. cbn [fst snd]. rewrite since_with_events.
  cbn [commands writes In]. repeat split; auto 10.
Qed.

Lemma trim_nginxConfig : trim nginxConfig = nginx_text.
Proof. reflexivity. Qed.

(** X22: for a project name that is a file name (no separator in it),
    [generateNginxConfig] writes one file, [<name>.conf] in the working
    directory, whose text is the same for every project and passes every
    request to [localhost:4000]; the copy that [deployNginxConfig] issues
    afterwards names that file. *)
Theorem generateNginxConfig_then_deploy (E : env) (projectName : string) (w : world) :
  includes projectName "/" = false ->
  let generated := generateNginxConfig E projectName w in
  let deployed := deployNginxConfig projectName (snd generated) in
  fst generated = Ok tt
  /\ cwd_files (snd generated)
     = assign (projectName ++ ".conf") nginx_text (cwd_files w)
  /\ writes (since w (snd generated))
     = [(path_join (cwd E) (projectName ++ ".conf"), nginx_text)]
  /\ includes nginx_text "proxy_pass http://localhost:4000;" = true
  /\ commands (since w (snd deployed))
     = ["sudo cp " ++ projectName ++ ".conf /etc/nginx/sites-available/"]
  /\ cwd_files (snd deployed) = cwd_files (snd generated).
Proof.
  intros Hplain generated deployed. subst deployed generated.
  assert (Hname : includes (projectName ++ ".conf") path_sep = false)
    by (now apply plain_name_app).
  unfold generateNginxConfig. rewrite trim_nginxConfig.
  rewrite (bind_run _ _ _ _ _ (writeFile_in_cwd_run _ _ _ _ Hname)).
  rewrite log_run, with_events_app. cbn [List.app fst snd].
  rewrite deployNginxConfig_steps, with_events_app. cbn [List.app fst snd].
  split; [reflexivity|]. split; [reflexivity|].
  assert (Hsince : forall evs,
            since w (with_events
                       (with_cwd w (assign (projectName ++ ".conf") nginx_text
                                      (cwd_files w))) evs) = evs).
  { intros evs. apply since_events. reflexivity. }
  rewrite !Hsince. repeat split.
Qed.

Lemma build_file_is_no_conf (projectPath directory name : string) :
  path_join projectPath "Dockerfile" <> path_join directory (name ++ ".conf").
Proof.
  unfold path_join. intros Heq.
  change "Dockerfile" with ("Docke" ++ "rfile") in Heq.
  rewrite <- !append_assoc in Heq.
  apply append_same_length in Heq; [discriminate | reflexivity].
Qed.

(** X23: the scan command never writes the configuration that its
    [nginx] deployment copies: on that path of the command the only file
    a run can write, its log apart, is the [Dockerfile] of the project
    root, which is not [<name>.conf] of the working directory wherever
    the project lies, and after a scan that returns normally the run ends
    with the copy of [<name>.conf], issued after the image builds, if
    any. *)
Theorem scanCommand_nginx (E : env) (projectPath : string) (a : answers)
  (w : world) :
  toLowerCase (deployOption a) = "yes" ->
  deployType a = "nginx" ->
  let copy :=
    "sudo cp " ++ projectName_answer a ++ ".conf /etc/nginx/sites-available/" in
  let ended := scanCommand E projectPath a w in
  (forall p content, In (p, content) (writes (since w (snd ended))) ->
                     p = path_join projectPath "Dockerfile")
  /\ (forall p content, In (p, content) (writes (since w (snd ended))) ->
                        p <> path_join (cwd E) (projectName_answer a ++ ".conf"))
  /\ (fst ended = Ok tt ->
      exists builds,
        commands (since w (snd ended)) = (builds ++ [copy])%list
        /\ Forall (fun command => startsWith command "docker build -t " = true)
             builds).
Proof.
  intros Hyes Hnginx copy ended. subst ended.
  change copy with (nginx_copy (projectName_answer a)). clear copy.
  enough (Hmain :
    let ended := scanCommand E projectPath a w in
    (forall p content, In (p, content) (writes (since w (snd ended))) ->
                       p = path_join projectPath "Dockerfile")
    /\ (fst ended = Ok tt ->
        exists builds,
          commands (since w (snd ended))
          = (builds ++ [nginx_copy (projectName_answer a)])%list
          /\ Forall (fun command => startsWith command "docker build -t " = true)
               builds)).
  { destruct Hmain as [Hwrites Hcommands].
    split; [exact Hwrites|]. split; [|exact Hcommands].
    intros p content Hin. rewrite (Hwrites p content Hin).
    apply build_file_is_no_conf. }
  intros ended. subst ended.
  unfold scanCommand. run_steps.
  set (W := with_events w
              [Console ("User entered Docker image name: " ++ projectName_answer a);
               Console ("User entered Docker image tag: " ++ imageTag_answer a)]).
  pose proof (respects_scanProject E projectPath (projectName_answer a)
                (imageTag_answer a) W) as [_ [Hcwd [evs [Hevs Hall]]]].
  assert (Hwrites : forall p content, In (p, content) (writes evs) ->
                                      p = path_join projectPath "Dockerfile").
  { intros p content Hin. apply String.eqb_eq.
    exact (writes_allowed _ _ _ _ Hall Hin). }
  assert (Hbuilds : Forall (fun command => startsWith command "docker build -t " = true)
                      (commands evs)).
  { apply Forall_forall. intros command Hin. exact (commands_allowed _ _ _ Hall Hin). }
  destruct (scanProject E projectPath (projectName_answer a) (imageTag_answer a) W)
    as [[[] | e] w1] eqn:Hscan; cbn [snd] in Hcwd, Hevs.
  - rewrite (bind_run _ _ _ _ _ Hscan). run_steps.
    unfold deploy. rewrite Hyes, Hnginx.
    change ("yes" =? "yes") with true. change ("nginx" =? "local") with false.
    change ("nginx" =? "remote") with false. change ("nginx" =? "k8s") with false.
    change ("nginx" =? "nginx") with true. cbv iota.
    rewrite deployNginxConfig_steps, with_events_app. cbn [List.app fst snd].
    assert (Hsince : since w (with_events w1
                                [Console "Docker image build complete.";
                                 Ran (nginx_copy (projectName_answer a))])
                     = ([Console ("User entered Docker image name: "
                                  ++ projectName_answer a);
                         Console ("User entered Docker image tag: "
                                  ++ imageTag_answer a)]
                          ++ evs
                          ++ [Console "Docker image build complete.";
                              Ran (nginx_copy (projectName_answer a))])%list).
    { apply since_events. cbn [events with_events]. rewrite Hevs. subst W.
      cbn [events with_events]. now rewrite <- !app_assoc. }
    rewrite Hsince, !writes_app, !commands_app.
    cbn [writes commands List.app]. rewrite app_nil_r.
    split; [exact Hwrites|].
    intros _. now exists (commands evs).
  - rewrite (bind_throw _ _ _ _ _ Hscan). cbn [fst snd].
    assert (Hsince : since w w1
                     = ([Console ("User entered Docker image name: "
                                  ++ projectName_answer a);
                         Console ("User entered Docker image tag: "
                                  ++ imageTag_answer a)] ++ evs)%list).
    { apply since_events. rewrite Hevs. subst W. cbn [events with_events].
      now rewrite <- !app_assoc. }
    rewrite Hsince, writes_app. cbn [writes List.app].
    split; [exact Hwrites | discriminate].
Qed.

(** ** The listing of the tree *)

Lemma distinct_node_Dir (f : string) (n : node) (rest : list (string * node)) :
  distinct_node (Dir ((f, n) :: rest))
  = negb (existsb (fun e => fst e =? f) rest)
    && distinct_node n && distinct_node (Dir rest).
Proof. reflexivity. Qed.

Lemma lookup_in {A : Type} (k : string) (a : A) (l : list (string * A)) :
  lookup k l = Some a -> In (k, a) l.
Proof.
  induction l as [|[k' a'] rest IH]; [discriminate|].
  simpl. destruct (String.eqb_spec k' k) as [-> | Hne].
  - intros H. injection H as ->. now left.
  - intros H. right. now apply IH.
Qed.

Lemma in_lookup (k : string) (n : node) (files : list (string * node)) :
  distinct_node (Dir files) = true -> In (k, n) files -> lookup k files = Some n.
Proof.
  induction files as [|[f n'] rest IH]; [contradiction|].
  rewrite distinct_node_Dir. intros Hd Hin.
  apply andb_true_iff in Hd as [Hd Hrest]. apply andb_true_iff in Hd as [Hfresh _].
  apply negb_true_iff in Hfresh.
  cbn [lookup]. destruct Hin as [Heq | Hin].
  - injection Heq as -> ->. now rewrite String.eqb_refl.
  - destruct (String.eqb_spec f k) as [-> | Hne]; [|now apply IH].
    exfalso. assert (Hex : existsb (fun e => fst e =? k) rest = true).
    { apply existsb_exists. exists (k, n). split; [exact Hin | apply String.eqb_refl]. }
    congruence.
Qed.

Lemma distinct_child (k : string) (n : node) (files : list (string * node)) :
  distinct_node (Dir files) = true -> In (k, n) files -> distinct_node n = true.
Proof.
  induction files as [|[f n'] rest IH]; [contradiction|].
  rewrite distinct_node_Dir. intros Hd Hin.
  apply andb_true_iff in Hd as [Hd Hrest]. apply andb_true_iff in Hd as [_ Hn].
  destruct Hin as [Heq | Hin]; [now injection Heq as -> -> | now apply IH].
Qed.

(** The paths listed below a node are the paths of its files. *)
Lemma list_node_file_at (n : node) :
  forall fullPath p,
    distinct_node n = true ->
    (In p (list_node fullPath n)
     <-> exists names content,
           file_at names n = Some content /\ p = path_of fullPath names).
Proof.
  induction n as [content | files IH] using node_induction; intros fullPath p Hd.
  - cbn [list_node In]. split.
    + intros [<- | []]. now exists [], content.
    + intros [[|name rest] [c [H ->]]]; [now left | discriminate].
  - rewrite list_node_Dir, list_files_flat_map, in_flat_map.
    rewrite Forall_forall in IH. split.
    + intros [[f child] [Hin Hp]]. cbn [fst snd] in Hp.
      apply (IH (f, child) Hin) in Hp as [names [content [Hfile ->]]];
        [|exact (distinct_child _ _ _ Hd Hin)].
      exists (f :: names), content. cbn [file_at path_of fold_left].
      now rewrite (in_lookup _ _ _ Hd Hin).
    + intros [[|f names] [content [Hfile ->]]]; [discriminate|].
      cbn [file_at] in Hfile.
      destruct (lookup f files) as [child|] eqn:Hl; [|discriminate].
      apply lookup_in in Hl. exists (f, child). split; [exact Hl|].
      cbn [fst snd]. apply (IH (f, child) Hl); [exact (distinct_child _ _ _ Hd Hl)|].
      now exists names, content.
Qed.

(** X24: on a directory (in which, as in every directory, no two entries
    bear the same name) [scanEntireDirectory] lists a path exactly when a
    file of the tree is read by following that path from the directory:
    every file at every depth is listed, and nothing else is; a directory
    is never listed, and one without files below it adds nothing. *)
Theorem scanEntireDirectory_lists_the_files (directory : string) (w : world)
  (files : list (string * node)) :
  resolve directory w = Some (Dir files) ->
  distinct_node (Dir files) = true ->
  exists listing,
    scanEntireDirectory directory w = (Ok listing, w)
    /\ forall p,
         In p listing
         <-> exists names content,
               file_at names (Dir files) = Some content
               /\ p = path_of directory names.
Proof.
  intros Hres Hd. exists (list_files directory files).
  split; [now apply scanEntireDirectory_run|].
  intros p. rewrite <- list_node_Dir. now apply list_node_file_at.
Qed.

(** ** The report on the pods *)

Lemma reportPods_run (lines : list string) :
  forall w, exists evs,
    reportPods lines w
    = (Ok (match first_not_running lines with None => true | Some _ => false end),
       with_events w evs)
    /\ log_lines evs
       = map (fun line => "Pod " ++ show_string (column 0 line) ++ " is in status "
                          ++ show_string (column 2 line))
           (filter not_running lines)
    /\ forallb report_only evs = true.
Proof.
  induction lines as [|line rest IH]; intros w.
  - exists []. rewrite with_events_nil. now repeat split.
  - cbn [reportPods first_not_running filter]. unfold not_running at 1.
    destruct (trim line =? EmptyString); cbn [negb andb]; [apply IH|].
    destruct (is_running (column 2 line)); cbn [negb]; [apply IH|].
    run_steps.
    match goal with
    | |- context [bind (reportPods rest) _ ?w0] =>
        destruct (IH w0) as [evs [Hrun [Hlog Hrep]]]
    end.
    rewrite (bind_run _ _ _ _ _ Hrun). run_steps.
    eexists. split; [reflexivity|]. split.
    + cbn [List.app log_lines map]. now rewrite Hlog.
    + cbn [List.app forallb report_only andb]. exact Hrep.
Qed.

(** X25: the report of [deployKubernetes] on the table of pods agrees
    with the test of the readiness poll: it finds all pods running
    exactly when the poll would have taken that table for ready, and it
    logs one line, [Pod <name> is in status <status>], for every row that
    is not blank and whose third column is not [Running], in the order of
    the table; it never raises. *)
Theorem reportPods_agrees_with_poll (podsOutput : string) (w : world) :
  let reported := reportPods (tl (split newline podsOutput)) w in
  fst reported = Ok (allPodsReady podsOutput)
  /\ log_lines (since w (snd reported))
     = map (fun line => "Pod " ++ show_string (column 0 line) ++ " is in status "
                        ++ show_string (column 2 line))
         (filter not_running (tl (split newline podsOutput)))
  /\ commands (since w (snd reported)) = []
  /\ writes (since w (snd reported)) = [].
Proof.
  intros reported. subst reported.
  destruct (reportPods_run (tl (split newline podsOutput)) w)
    as [evs [Hrun [Hlog Hrep]]].
  rewrite Hrun. cbn [fst snd]. rewrite since_with_events.
  destruct (commands_report_only _ Hrep) as [Hc Hw].
  unfold allPodsReady. now repeat split.
Qed.

(** ** The build file of a project whose root has no manifest *)

Lemma analyzeNodeProject_empty (E : env) (projectPath : string) (w : world)
  (files : list (string * node)) :
  project w = Some (Dir files) ->
  lookup "package.json" files = None ->
  lookup "index.js" files = None ->
  analyzeNodeProject E projectPath w
  = (Ok (VObj [], EmptyString),
     with_events w [Logged "No package.json found."; Logged "No index.js found."]).
Proof.
  intros Hp Hpkg Hidx. unfold analyzeNodeProject.
  rewrite (bind_run _ _ _ _ _ (pathExists_at_root_run _ _ _ Hp)), Hpkg.
  run_steps.
  assert (Hp' : forall evs, project (with_events w evs) = Some (Dir files))
    by (intros evs; exact Hp).
  rewrite (bind_run _ _ _ _ _ (pathExists_at_root_run _ _ _ (Hp' _))), Hidx.
  run_steps. reflexivity.
Qed.

(** X26: the analysis of a Node.js project looks at the project root
    only.  Where the root holds neither [package.json] nor [index.js]
    (the manifest that made the scan take the project for a Node.js one
    lies deeper in the tree), [generateDockerfile] misses both, says so
    in the log, and writes the template as it is, trimmed: port and start
    command are the ones of the template. *)
Theorem generateDockerfile_root_only (E : env) (projectPath template : string)
  (w : world) (files : list (string * node)) :
  project w = Some (Dir files) ->
  lookup "Dockerfile" files = None ->
  lookup "package.json" files = None ->
  lookup "index.js" files = None ->
  templates E "nodejs" = Some template ->
  let generated := generateDockerfile E "nodejs" projectPath w in
  fst generated = Ok (path_join projectPath "Dockerfile")
  /\ root_file "Dockerfile" (snd generated) = Some (trim template)
  /\ writes (since w (snd generated))
     = [(path_join projectPath "Dockerfile", trim template)]
  /\ log_lines (since w (snd generated))
     = ["Generating Dockerfile for project type: nodejs";
        "Analyzing Node.js project...";
        "No package.json found.";
        "No index.js found.";
        "Writing the customized Dockerfile...";
        "Dockerfile generated at " ++ path_join projectPath "Dockerfile"].
Proof.
  intros Hp Hnone Hpkg Hidx Htemplate generated. subst generated.
  unfold generateDockerfile.
  rewrite (bind_run _ _ _ _ _ (pathExists_at_root_run _ _ _ Hp)), Hnone.
  run_steps.
  change ("nodejs" =? "nodejs") with true. cbv iota.
  match goal with
  | |- context [bind (try_catch ?m ?h) ?k ?w'] =>
      assert (Hbody : m w'
        = (Ok tt,
           with_events
             {| project := Some (Dir (assign "Dockerfile" (File (trim template)) files));
                cwd_files := cwd_files w;
                events := events w;
                clock := clock w |}
             [Logged "Generating Dockerfile for project type: nodejs";
              Logged "Analyzing Node.js project...";
              Logged "No package.json found.";
              Logged "No index.js found.";
              Logged "Writing the customized Dockerfile...";
              Wrote (path_join projectPath "Dockerfile") (trim template);
              Logged ("Dockerfile generated at " ++ path_join projectPath "Dockerfile")]))
  end.
  { run_steps.
    match goal with
    | |- bind _ _ ?w' = _ =>
        rewrite (bind_run _ _ _ _ _
                   (analyzeNodeProject_empty E projectPath w' files Hp Hpkg Hidx))
    end.
    unfold readTemplate. rewrite Htemplate. run_steps.
    do 4 (cbn [get lookup truthy includes startsWith orb]; run_steps).
    assert (Hfree : forall sub, lookup "Dockerfile" files <> Some (Dir sub))
      by (intros sub; rewrite Hnone; discriminate).
    match goal with
    | |- bind _ _ ?w' = _ =>
        rewrite (bind_run _ _ _ _ _
                   (writeFile_at_root_run projectPath "Dockerfile" _ w' files Hp Hfree))
    end.
    run_steps. unfold with_events. cbn [project cwd_files events clock].
    rewrite <- !app_assoc. reflexivity. }
  rewrite (bind_run _ _ _ _ _ (try_catch_ok _ _ _ _ _ Hbody)).
  cbn [ret fst snd]. split; [reflexivity|]. split.
  - unfold root_file. cbn [project with_events]. now rewrite lookup_assign.
  - assert (Hsince : forall evs W, events W = events w ->
              since w (with_events W evs) = evs).
    { intros evs W HW. apply since_events. cbn [events with_events]. now rewrite HW. }
    rewrite Hsince by reflexivity. now split.
Qed.

(** ** A failed apply *)

(** The driver up to its apply loops, where the rewrite of the manifest
    succeeds. *)
Lemma deployKubernetes_to_apply (E : env)
  (projectName projectPath content : string) (w : world)
  (files : list (string * node)) (manifest : value) (containers : list value) :
  projectPath <> EmptyString ->
  project w = Some (Dir files) ->
  lookup "web-deployment.yaml" files = Some (File content) ->
  yaml_load E content = Some manifest ->
  containers_of manifest = Some containers ->
  Forall is_object containers ->
  let listing := list_files projectPath files in
  let deployments := filter (fun file => endsWith file "deployment.yaml") listing in
  let services := filter (fun file => endsWith file "service.yaml") listing in
  let rewritten :=
    yaml_dump E
      (put_path containers_path
         (VArr (map (with_image (projectName ++ ":latest")) containers)) manifest) in
  exists w3 before after,
    deployKubernetes E projectName projectPath w
    = try_catch
        (applyAll E "deployment" "Deployment" projectPath deployments ;;
         applyAll E "service" "Service" projectPath services ;;
         waitForPodsReady E "default" 300 ;;
         reportStatus E projectName)
        (fun err =>
           log ("Failed to deploy on Kubernetes: " ++ message err) ;;
           throw err) w3
    /\ project w3
       = Some (Dir (assign "web-deployment.yaml" (File rewritten) files))
    /\ cwd_files w3 = cwd_files w
    /\ events w3
       = (events w ++ before
            ++ Wrote (path_join projectPath "web-deployment.yaml") rewritten
            :: after)%list
    /\ forallb report_only before = true
    /\ forallb report_only after = true
    /\ In (path_join projectPath "web-deployment.yaml") deployments.
Proof.
  intros Hne Hp Hfile Hload Hcontainers Hobjects listing deployments services rewritten.
  apply String.eqb_neq in Hne as Hneb.
  unfold deployKubernetes. run_steps. rewrite Hneb.
  rewrite try_catch_bind_run with (1 := ret_run tt _).
  destruct (updateWebDeploymentImage_steps E projectPath projectName "latest" content
              (with_events w [Spinner Start "Deploying to Kubernetes..."])
              files manifest containers Hp Hfile Hload Hcontainers Hobjects)
    as [w1 [upd [Hupd [Hproject [Hcwd [Hevs Hrep]]]]]].
  fold rewritten in Hproject, Hevs.
  rewrite try_catch_bind_run with (1 := Hupd).
  rewrite try_catch_bind_run with (1 := log_run _ _).
  assert (Hres : forall evs,
            resolve projectPath (with_events w1 evs)
            = Some (Dir (assign "web-deployment.yaml" (File rewritten) files)))
    by (intros evs; unfold resolve; rewrite Hneb; exact Hproject).
  rewrite try_catch_bind_run with (1 := scanYAMLFiles_run _ _ _ (Hres _)).
  rewrite (list_files_assign_file _ _ _ _ _ Hfile).
  fold listing. rewrite classify_yaml_filters. fold services. fold deployments.
  assert (Hin : In (path_join projectPath "web-deployment.yaml") deployments).
  { pose proof (manifest_classified projectPath content files Hfile) as H.
    fold listing in H. rewrite classify_yaml_filters in H. exact H. }
  unfold deployClassified.
  assert (Hsome : ((List.length services =? 0)%nat
                   && (List.length deployments =? 0)%nat) = false).
  { destruct deployments; [contradiction|]. apply andb_false_r. }
  rewrite Hsome.
  rewrite try_catch_bind_run with (1 := log_run _ _).
  rewrite try_catch_bind_run with (1 := log_run _ _).
  rewrite try_catch_bind_run with (1 := ret_run _ _).
  rewrite !with_events_app. cbn [List.app].
  eexists _, ([Spinner Start "Deploying to Kubernetes..."] ++ upd)%list, _.
  split; [reflexivity|]. split; [exact Hproject|]. split; [exact Hcwd|].
  split; [|split; [|split; [|exact Hin]]].
  - cbn [events with_events]. rewrite Hevs. cbn [events with_events].
    rewrite <- !app_assoc. cbn [List.app]. reflexivity.
  - cbn [List.app forallb report_only andb]. exact Hrep.
  - reflexivity.
Qed.

(** X27: there is no rollback.  When the first apply command of
    [deployKubernetes] fails, the driver raises the error of that command
    and applies nothing else, neither the other deployments nor any
    service, and it does not query the cluster; the manifest
    [web-deployment.yaml], which it has rewritten before, stays
    rewritten. *)
Theorem deployKubernetes_failed_apply (E : env)
  (projectName projectPath content first : string) (w : world)
  (files : list (string * node)) (manifest : value) (containers : list value)
  (others : list string) :
  projectPath <> EmptyString ->
  project w = Some (Dir files) ->
  lookup "web-deployment.yaml" files = Some (File content) ->
  yaml_load E content = Some manifest ->
  containers_of manifest = Some containers ->
  Forall is_object containers ->
  filter (fun file => endsWith file "deployment.yaml")
    (list_files projectPath files) = first :: others ->
  let r := exec E (issued w) (apply_command first) in
  failed r = true ->
  let rewritten :=
    yaml_dump E
      (put_path containers_path
         (VArr (map (with_image (projectName ++ ":latest")) containers)) manifest) in
  let deployed := deployKubernetes E projectName projectPath w in
  fst deployed = Throw (ExecError (apply_command first) (code r) (stderr r))
  /\ commands (since w (snd deployed)) = [apply_command first]
  /\ writes (since w (snd deployed))
     = [(path_join projectPath "web-deployment.yaml", rewritten)]
  /\ root_file "web-deployment.yaml" (snd deployed) = Some rewritten.
Proof.
  intros Hne Hp Hfile Hload Hcontainers Hobjects Hdeployments r Hfailed
    rewritten deployed. subst deployed.
  destruct (deployKubernetes_to_apply E projectName projectPath content w files
              manifest containers Hne Hp Hfile Hload Hcontainers Hobjects)
    as [w3 [before [after [Hrun [Hproject [Hcwd [Hevs [Hb [Ha Hin]]]]]]]]].
  fold rewritten in Hproject, Hevs. rewrite Hrun, Hdeployments.
  destruct (commands_report_only _ Hb) as [Hbc Hbw].
  destruct (commands_report_only _ Ha) as [Hac Haw].
  assert (Hissued : issued w3 = issued w).
  { apply issued_no_command with (1 := Hevs).
    rewrite commands_app, Hbc. cbn [commands List.app]. exact Hac. }
  assert (Happ : applicable E projectPath w3 first = true).
  { apply listed_applicable
      with (files := assign "web-deployment.yaml" (File rewritten) files);
      [exact Hproject|].
    rewrite (list_files_assign_file _ _ _ _ _ Hfile).
    assert (Hf : In first (first :: others)) by now left.
    rewrite <- Hdeployments in Hf. now apply filter_In in Hf. }
  destruct (applyYAML_applies E "deployment" "Deployment" projectPath first w3 Happ)
    as [pre [post [Hfirst [Hpre Hpost]]]].
  rewrite Hissued in Hfirst. fold r in Hfirst. rewrite Hfailed in Hfirst.
  cbn [applyAll]. unfold try_catch. rewrite bind_bind.
  rewrite (bind_throw _ _ _ _ _ Hfirst).
  run_steps. cbn [throw fst snd].
  destruct (one_command pre post (apply_command first) Hpre Hpost) as [H1 [H2 _]].
  assert (Hsince :
    since w (with_events w3
               ((pre ++ Ran (apply_command first) :: post)
                  ++ [Logged ("Failed to deploy on Kubernetes: "
                              ++ message (ExecError (apply_command first) (code r)
                                            (stderr r)))]))
    = (before ++ Wrote (path_join projectPath "web-deployment.yaml") rewritten
         :: after ++ (pre ++ Ran (apply_command first) :: post)
         ++ [Logged ("Failed to deploy on Kubernetes: "
                     ++ message (ExecError (apply_command first) (code r)
                                   (stderr r)))])%list).
  { apply since_events. cbn [events with_events]. rewrite Hevs.
    rewrite <- !app_assoc. reflexivity. }
  rewrite Hsince. split; [reflexivity|].
  set (mid := (pre ++ Ran (apply_command first) :: post)%list) in *.
  rewrite !commands_app, !writes_app, Hbc, Hbw. cbn [commands writes List.app].
  rewrite !commands_app, !writes_app, Hac, Haw, H1, H2. cbn [commands writes List.app].
  split; [reflexivity|]. split; [reflexivity|].
  unfold root_file. cbn [project with_events]. rewrite Hproject.
  now rewrite lookup_assign.
Qed.

(** ** The further theorems on the sample data *)

Lemma scanCommand_missing_path_witness :
  fst (scanCommand Demo.E "/nowhere" (Cases.answers_for "local" EmptyString)
         (Demo.world_of None))
  = Throw (ENOENT "/nowhere")
  /\ commands (events (snd (scanCommand Demo.E "/nowhere"
                              (Cases.answers_for "local" EmptyString)
                              (Demo.world_of None)))) = [].
Proof.
  rewrite (scanCommand_missing_path Demo.E "/nowhere"
             (Cases.answers_for "local" EmptyString) (Demo.world_of None) eq_refl).
  split; reflexivity.
Defined.

Lemma buildDockerImage_exit_code_witness :
  fst (buildDockerImage Demo.E_broken "/proj" "demo" "v1"
         (Demo.world_of (Some Demo.nested_project)))
  = Throw (BuildFailed 1)
  /\ commands (since (Demo.world_of (Some Demo.nested_project))
                 (snd (buildDockerImage Demo.E_broken "/proj" "demo" "v1"
                         (Demo.world_of (Some Demo.nested_project)))))
     = ["docker build -t demo:v1 /proj/api"].
Proof.
  destruct (buildDockerImage_exit_code Demo.E_broken "/proj" "demo" "v1"
              (Demo.world_of (Some Demo.nested_project))
              [("README.md", File "demo");
               ("api", Dir [("DOCKERFILE", File "FROM node:18");
                            ("package.json", File "{}")]);
               ("Dockerfile", File "FROM node:20")]
              "/proj/api" "DOCKERFILE" eq_refl eq_refl eq_refl)
    as [Hresult [Hcommands _]].
  split; [exact Hresult | exact Hcommands].
Defined.

Lemma scan_with_build_file_witness :
  fst (scanProject Demo.E "/proj" "demo" "v1"
         (Demo.world_of (Some Demo.nested_project))) = Ok tt
  /\ fst (scanCommand Demo.E_broken "/proj" (Cases.answers_for "local" EmptyString)
            (Demo.world_of (Some Demo.nested_project)))
     = Throw (BuildFailed 1)
  /\ commands (since (Demo.world_of (Some Demo.nested_project))
                 (snd (scanCommand Demo.E_broken "/proj"
                         (Cases.answers_for "local" EmptyString)
                         (Demo.world_of (Some Demo.nested_project)))))
     = ["docker build -t demo:v1 /proj/api"].
Proof.
  assert (Hin : In ("/proj/api", "package.json")
                  (walk "/proj"
                     [("README.md", File "demo");
                      ("api", Dir [("DOCKERFILE", File "FROM node:18");
                                   ("package.json", File "{}")]);
                      ("Dockerfile", File "FROM node:20")]))
    by (simpl; auto).
  split.
  - exact (proj1 (scan_with_build_file Demo.E "/proj"
                    (Cases.answers_for "local" EmptyString)
                    (Demo.world_of (Some Demo.nested_project)) _
                    "/proj/api" "DOCKERFILE" "/proj/api" "package.json"
                    eq_refl eq_refl eq_refl Hin eq_refl)).
  - destruct (scan_with_build_file Demo.E_broken "/proj"
                (Cases.answers_for "local" EmptyString)
                (Demo.world_of (Some Demo.nested_project)) _
                "/proj/api" "DOCKERFILE" "/proj/api" "package.json"
                eq_refl eq_refl eq_refl Hin eq_refl) as [_ [_ [_ Hfailed]]].
    destruct (Hfailed eq_refl) as [Hresult [Hcommands _]].
    split; [exact Hresult | exact Hcommands].
Defined.

Lemma scanProject_footprint_witness :
  commands (since (Demo.world_of (Some Demo.express_project))
              (snd (scanProject Demo.E "/proj" "demo" "v1"
                      (Demo.world_of (Some Demo.express_project)))))
  = ["docker build -t demo:v1 /proj"]
  /\ forall p content,
       In (p, content)
         (writes (since (Demo.world_of (Some Demo.express_project))
                    (snd (scanProject Demo.E "/proj" "demo" "v1"
                            (Demo.world_of (Some Demo.express_project)))))) ->
       p = "/proj/Dockerfile".
Proof.
  split; [vm_compute; reflexivity|].
  exact (proj1 (proj2 (scanProject_footprint Demo.E "/proj" "demo" "v1"
                         (Demo.world_of (Some Demo.express_project))))).
Defined.


Lemma scanYAMLFiles_buckets_witness :
  scanYAMLFiles "/proj" (Demo.world_of (Some Demo.k8s_project))
  = (Ok (["/proj/web-service.yaml"], ["/proj/web-deployment.yaml"]),
     Demo.world_of (Some Demo.k8s_project))
  /\ scanYAMLFiles EmptyString (Demo.world_of (Some Demo.k8s_project))
     = (Throw (Error "Invalid directory path: "),
        Demo.world_of (Some Demo.k8s_project)).
Proof.
  split.
  - exact (proj1 (scanYAMLFiles_buckets "/proj" (Demo.world_of (Some Demo.k8s_project)))).
  - exact (scanYAMLFiles_buckets EmptyString (Demo.world_of (Some Demo.k8s_project))).
Defined.


Lemma applyAll_stops_at_failure_witness :
  fst (applyAll Cases.E_flaky "deployment" "Deployment" "/proj"
         ["/proj/web-deployment.yaml"; "/proj/web-service.yaml"; "/proj/Dockerfile"]
         (Demo.world_of (Some Demo.k8s_project)))
  = Throw (ExecError (apply_command "/proj/web-service.yaml") 1 "denied")
  /\ commands
       (since (Demo.world_of (Some Demo.k8s_project))
          (snd (applyAll Cases.E_flaky "deployment" "Deployment" "/proj"
                  ["/proj/web-deployment.yaml"; "/proj/web-service.yaml";
                   "/proj/Dockerfile"]
                  (Demo.world_of (Some Demo.k8s_project)))))
     = [apply_command "/proj/web-deployment.yaml";
        apply_command "/proj/web-service.yaml"].
Proof.
  assert (Hok : forall (n : nat) f, In f ["/proj/web-deployment.yaml"] ->
                  failed (exec Cases.E_flaky n (apply_command f)) = false).
  { intros n f [<- | []]. reflexivity. }
  exact (applyAll_stops_at_failure Cases.E_flaky "deployment" "Deployment" "/proj"
           ["/proj/web-deployment.yaml"] ["/proj/Dockerfile"]
           "/proj/web-service.yaml" (Demo.world_of (Some Demo.k8s_project))
           Hok eq_refl eq_refl).
Defined.


Lemma port_match_spec_witness :
  port_match "80:32441/TCP" = Some "32441"
  /\ port_match "80/TCP" = None
  /\ port_match "a:b:7/" <> None.
Proof.
  split; [reflexivity|]. split; [reflexivity|].
  apply (proj2 (port_match_spec "a:b:7/")).
  exists "a:b", "7", EmptyString. repeat split. discriminate.
Defined.

Lemma servicePort_last_row_witness :
  servicePort "demo" Cases.service_rows None = Ok (Some "32441").
Proof.
  apply (proj1 (servicePort_last_row "demo"
                  ["kubernetes ClusterIP 10.0.0.1 <none> 443/TCP 9d";
                   "web-service NodePort 10.0.0.9 <none> 80:30080/TCP 2d"]
                  ["other NodePort 10.0.0.8 <none> 80:31000/TCP 1m"]
                  "demo-service NodePort 10.0.0.7 <none> 80:32441/TCP 1m"
                  None (Some "30080") eq_refl eq_refl
                  ltac:(intros line [<- | []]; reflexivity))
           "80:32441/TCP" "32441" eq_refl eq_refl).
Defined.

Lemma waitForPodsReady_ready_after_witness :
  fst (waitForPodsReady Demo.E "default" 300 (Demo.world_of None)) = Ok tt
  /\ clock (snd (waitForPodsReady Demo.E "default" 300 (Demo.world_of None)))
     = (clock (Demo.world_of None) + 10000)%Z
  /\ commands (since (Demo.world_of None)
                 (snd (waitForPodsReady Demo.E "default" 300 (Demo.world_of None))))
     = ["kubectl get pods -n default"; "kubectl get pods -n default";
        "kubectl get pods -n default"].
Proof.
  destruct (waitForPodsReady_ready_after Demo.E "default" 300 (Demo.world_of None) 2)
    as [Hresult [Hclock [Hcommands _]]].
  - reflexivity.
  - intros j Hj. destruct j as [|[|j]]; [split; reflexivity | split; reflexivity | lia].
  - reflexivity.
  - reflexivity.
  - split; [exact Hresult|]. split; [exact Hclock | exact Hcommands].
Defined.

Lemma waitForPodsReady_gives_up_witness :
  fst (waitForPodsReady Cases.E_pending "default" 12 (Demo.world_of None))
  = Throw ReadinessTimeout
  /\ sleeps (since (Demo.world_of None)
               (snd (waitForPodsReady Cases.E_pending "default" 12
                       (Demo.world_of None))))
     = [5000; 5000; 5000]%Z
  /\ commands (since (Demo.world_of None)
                 (snd (waitForPodsReady Cases.E_pending "default" 0
                         (Demo.world_of None)))) = [].
Proof.
  destruct (waitForPodsReady_gives_up Cases.E_pending "default" 12 (Demo.world_of None))
    as [Hresult _].
  { intros j _. split; reflexivity. }
  destruct (waitForPodsReady_gives_up Cases.E_pending "default" 0 (Demo.world_of None))
    as [_ [_ [n [Hn [Hcommands _]]]]].
  { intros j _. split; reflexivity. }
  split; [exact Hresult|]. split; [reflexivity|].
  rewrite Hcommands. now destruct n.
Defined.

Lemma updateWebDeploymentImage_failure_witness :
  fst (updateWebDeploymentImage Demo.E "/proj" "demo" "v1"
         (Demo.world_of (Some Demo.python_project)))
  = Throw (ENOENT "/proj/web-deployment.yaml")
  /\ project (snd (updateWebDeploymentImage Demo.E "/proj" "demo" "v1"
                     (Demo.world_of (Some Demo.python_project))))
     = Some Demo.python_project
  /\ writes (since (Demo.world_of (Some Demo.python_project))
               (snd (updateWebDeploymentImage Demo.E "/proj" "demo" "v1"
                       (Demo.world_of (Some Demo.python_project))))) = [].
Proof.
  destruct (updateWebDeploymentImage_failure Demo.E "/proj" "demo" "v1"
              (Demo.world_of (Some Demo.python_project))
              (ENOENT "/proj/web-deployment.yaml") eq_refl)
    as [Hproject [_ [_ [Hwrites _]]]].
  split; [reflexivity|]. split; [exact Hproject | exact Hwrites].
Defined.

Lemma generateDockerfile_failure_witness :
  fst (generateDockerfile Demo.E "java" "/proj"
         (Demo.world_of (Some Demo.python_project)))
  = Throw (ENOENT "../templates/java.Dockerfile")
  /\ project (snd (generateDockerfile Demo.E "java" "/proj"
                     (Demo.world_of (Some Demo.python_project))))
     = Some Demo.python_project
  /\ last (since (Demo.world_of (Some Demo.python_project))
             (snd (generateDockerfile Demo.E "java" "/proj"
                     (Demo.world_of (Some Demo.python_project)))))
       (Logged EmptyString)
     = Logged ("Failed to generate Dockerfile: "
               ++ message (ENOENT "../templates/java.Dockerfile")).
Proof.
  destruct (generateDockerfile_failure Demo.E "java" "/proj"
              (Demo.world_of (Some Demo.python_project))
              (ENOENT "../templates/java.Dockerfile") eq_refl)
    as [Hproject [_ [_ [_ Hlast]]]].
  split; [reflexivity|]. split; [exact Hproject | exact Hlast].
Defined.

Lemma updateWebDeploymentImage_again_witness :
  root_file "web-deployment.yaml"
    (snd (updateWebDeploymentImage Cases.E_yaml "/proj" "shop" "v2"
            (snd (updateWebDeploymentImage Cases.E_yaml "/proj" "demo" "v1"
                    (Demo.world_of (Some Demo.k8s_project))))))
  = root_file "web-deployment.yaml"
      (snd (updateWebDeploymentImage Cases.E_yaml "/proj" "shop" "v2"
              (Demo.world_of (Some Demo.k8s_project)))).
Proof.
  exact (proj2 (proj2 (updateWebDeploymentImage_again Cases.E_yaml "/proj"
                         "demo" "v1" "shop" "v2" "manifest"
                         (Demo.world_of (Some Demo.k8s_project)) _ Demo.manifest
                         [Demo.container "web" "web:1.4";
                          Demo.container "log" "fluentd:v2"]
                         eq_refl eq_refl eq_refl eq_refl
                         ltac:(repeat constructor) eq_refl))).
Defined.

Lemma deploy_remote_witness :
  deploy Demo.E "/proj" (Cases.answers_for "remote" "build.example.org")
    (Demo.world_of None)
  = (Ok tt,
     with_events (Demo.world_of None)
       [Logged ("Deploying with command: ssh ops@build.example.org " ++ dquote
                ++ "docker run -d -p 8000:8000 demo:v1" ++ dquote);
        Ran ("ssh ops@build.example.org " ++ dquote
             ++ "docker run -d -p 8000:8000 demo:v1" ++ dquote)])
  /\ commands (events (snd (deploy Demo.E "/proj"
                              (Cases.answers_for "remote" EmptyString)
                              (Demo.world_of None))))
     = ["docker run -d -p 8000:8000 demo:v1"].
Proof.
  split.
  - exact (deploy_remote Demo.E "/proj" (Cases.answers_for "remote" "build.example.org")
             (Demo.world_of None) eq_refl eq_refl).
  - rewrite (deploy_remote Demo.E "/proj" (Cases.answers_for "remote" EmptyString)
               (Demo.world_of None) eq_refl eq_refl).
    reflexivity.
Defined.

Lemma scanCommand_runs_unbuilt_image_witness :
  commands (since (Demo.world_of (Some Demo.python_project))
              (snd (scanCommand Demo.E "/proj" (Cases.answers_for "local" EmptyString)
                      (Demo.world_of (Some Demo.python_project)))))
  = ["docker run -d -p 8000:8000 demo:v1"].
Proof.
  assert (Hnone : forall d f,
            In (d, f) (walk "/proj"
                         [("app.py", File "print(1)");
                          ("requirements.txt", File "flask")]) ->
            endsWith f "package.json" = false).
  { intros d f Hin. simpl in Hin.
    repeat (destruct Hin as [Heq | Hin]; [injection Heq as <- <-; reflexivity|]).
    contradiction. }
  exact (proj1 (proj2 (scanCommand_runs_unbuilt_image Demo.E "/proj"
                         (Cases.answers_for "local" EmptyString)
                         (Demo.world_of (Some Demo.python_project)) _
                         eq_refl Hnone eq_refl eq_refl))).
Defined.

Lemma parseGemfile_loses_versions_witness :
  log_lines
    (events (snd (parseGemfile Demo.E (gemfile Cases.gems) (Demo.world_of None))))
  = ["Starting to parse Gemfile...";
     "Parsed dependencies from Gemfile: [{name: 'rails', version: ''}, {name: 'pg', version: ''}]"].
Proof.
  rewrite (parseGemfile_loses_versions Demo.E Cases.gems (Demo.world_of None)).
  - reflexivity.
  - repeat constructor.
Defined.

Lemma parseGemfile_outcome_witness :
  fst (parseGemfile Demo.E ("source 'https://rubygems.org'" ++ nl ++ "gemspec")
         (Demo.world_of None))
  = Throw (TypeError "Cannot read properties of undefined (reading 'trim')")
  /\ fst (parseGemfile Demo.E ("  gem 'rails'" ++ nl ++ "gem 'pg'")
            (Demo.world_of None)) = Ok tt.
Proof.
  split.
  - rewrite (proj2 (parseGemfile_outcome Demo.E _ (Demo.world_of None)));
      [reflexivity | discriminate].
  - apply (proj1 (parseGemfile_outcome Demo.E _ (Demo.world_of None))).
    repeat constructor; discriminate.
Defined.

Lemma deployNginxConfig_chain_witness :
  commands (since (Demo.world_of None)
              (snd (deployNginxConfig_run Demo.E "demo" (Demo.world_of None))))
  = ["sudo cp demo.conf /etc/nginx/sites-available/";
     "sudo ln -s /etc/nginx/sites-available/demo.conf /etc/nginx/sites-enabled/";
     "sudo nginx -s reload"]
  /\ fst (deployNginxConfig_run Demo.E_broken "demo" (Demo.world_of None))
     = (Ok tt,
        Throw (ExecError "sudo cp demo.conf /etc/nginx/sites-available/" 1
                 "cannot connect"))
  /\ commands (since (Demo.world_of None)
                 (snd (deployNginxConfig_run Demo.E_broken "demo" (Demo.world_of None))))
     = ["sudo cp demo.conf /etc/nginx/sites-available/"].
Proof.
  split; [|split].
  - exact (proj1 (proj2 (deployNginxConfig_chain Demo.E "demo" (Demo.world_of None)))).
  - reflexivity.
  - exact (proj1 (proj2 (deployNginxConfig_chain Demo.E_broken "demo"
                           (Demo.world_of None)))).
Defined.

Lemma generateNginxConfig_then_deploy_witness :
  cwd_files (snd (generateNginxConfig Demo.E "demo" (Demo.world_of None)))
  = [("demo.conf", nginx_text)]
  /\ commands
       (since (Demo.world_of None)
          (snd (deployNginxConfig "demo"
                  (snd (generateNginxConfig Demo.E "demo" (Demo.world_of None))))))
     = ["sudo cp demo.conf /etc/nginx/sites-available/"].
Proof.
  destruct (generateNginxConfig_then_deploy Demo.E "demo" (Demo.world_of None)
              eq_refl)
    as [_ [Hcwd [_ [_ [Hcommands _]]]]].
  split; [exact Hcwd | exact Hcommands].
Defined.

Lemma scanCommand_nginx_witness :
  commands (since (Demo.world_of (Some Demo.nested_project))
              (snd (scanCommand Demo.E "/proj" (Cases.answers_for "nginx" EmptyString)
                      (Demo.world_of (Some Demo.nested_project)))))
  = ["docker build -t demo:v1 /proj/api";
     "sudo cp demo.conf /etc/nginx/sites-available/"]
  /\ forall p content,
       In (p, content)
         (writes (since (Demo.world_of (Some Demo.nested_project))
                    (snd (scanCommand Demo.E "/proj"
                            (Cases.answers_for "nginx" EmptyString)
                            (Demo.world_of (Some Demo.nested_project)))))) ->
       p <> "/work/demo.conf".
Proof.
  destruct (scanCommand_nginx Demo.E "/proj" (Cases.answers_for "nginx" EmptyString)
              (Demo.world_of (Some Demo.nested_project)) eq_refl eq_refl)
    as [_ [Hother _]].
  split; [vm_compute; reflexivity | exact Hother].
Defined.

Lemma scanEntireDirectory_lists_the_files_witness :
  In "/proj/api/package.json"
    (list_files "/proj"
       [("README.md", File "demo");
        ("api", Dir [("DOCKERFILE", File "FROM node:18");
                     ("package.json", File "{}")]);
        ("Dockerfile", File "FROM node:20")])
  /\ ~ In "/proj/api"
       (list_files "/proj"
          [("README.md", File "demo");
           ("api", Dir [("DOCKERFILE", File "FROM node:18");
                        ("package.json", File "{}")]);
           ("Dockerfile", File "FROM node:20")]).
Proof.
  destruct (scanEntireDirectory_lists_the_files "/proj"
              (Demo.world_of (Some Demo.nested_project)) _ eq_refl eq_refl)
    as [listing [Hrun Hlisting]].
  injection Hrun as <-. split.
  - apply Hlisting. now exists ["api"; "package.json"], "{}".
  - intros Hin. simpl in Hin. intuition discriminate.
Defined.

Lemma reportPods_agrees_with_poll_witness :
  fst (reportPods (tl (split newline Demo.pods_pending)) (Demo.world_of None))
  = Ok false
  /\ log_lines
       (since (Demo.world_of None)
          (snd (reportPods (tl (split newline Demo.pods_pending))
                  (Demo.world_of None))))
     = ["Pod web-2 is in status Pending"].
Proof.
  destruct (reportPods_agrees_with_poll Demo.pods_pending (Demo.world_of None))
    as [Hresult [Hlog _]].
  split; [exact Hresult | exact Hlog].
Defined.

Lemma generateDockerfile_root_only_witness :
  root_file "Dockerfile"
    (snd (generateDockerfile Demo.E "nodejs" "/repo"
            (Demo.world_of (Some Cases.monorepo))))
  = Some (trim Demo.nodejs_template)
  /\ includes (trim Demo.nodejs_template) "EXPOSE 3000" = true.
Proof.
  split; [|reflexivity].
  exact (proj1 (proj2 (generateDockerfile_root_only Demo.E "/repo"
                         Demo.nodejs_template
                         (Demo.world_of (Some Cases.monorepo)) _
                         eq_refl eq_refl eq_refl eq_refl eq_refl))).
Defined.

Lemma deployKubernetes_failed_apply_witness :
  fst (deployKubernetes Demo.E_broken "demo" "/proj"
         (Demo.world_of (Some Demo.k8s_project)))
  = Throw (ExecError (apply_command "/proj/web-deployment.yaml") 1 "cannot connect")
  /\ commands (since (Demo.world_of (Some Demo.k8s_project))
                 (snd (deployKubernetes Demo.E_broken "demo" "/proj"
                         (Demo.world_of (Some Demo.k8s_project)))))
     = [apply_command "/proj/web-deployment.yaml"]
  /\ exists text,
       root_file "web-deployment.yaml"
         (snd (deployKubernetes Demo.E_broken "demo" "/proj"
                 (Demo.world_of (Some Demo.k8s_project)))) = Some text
       /\ includes text "demo:latest" = true.
Proof.
  destruct (deployKubernetes_failed_apply Demo.E_broken "demo" "/proj" "manifest"
              "/proj/web-deployment.yaml"
              (Demo.world_of (Some Demo.k8s_project)) _ Demo.manifest
              [Demo.container "web" "web:1.4"; Demo.container "log" "fluentd:v2"]
              [] ltac:(discriminate) eq_refl eq_refl eq_refl eq_refl
              ltac:(repeat constructor) eq_refl eq_refl)
    as [Hresult [Hcommands [_ Hfile]]].
  split; [exact Hresult|]. split; [exact Hcommands|].
  eexists. split; [exact Hfile | vm_compute; reflexivity].
Defined.
